(** * flit: a shallow embedding of [flit/common.py] and [flit/build.py]

    The development follows the two source files function by function.
    Python values are modelled as follows.
    - [int] is [Z]; the bit operators [|], [&], [~] are [Z.lor], [Z.land],
      [Z.lnot], which agree with Python's unbounded two's-complement
      semantics.
    - [str] is [string]: a sequence of characters whose code points lie
      below 256.  The character classes of [str.isdigit],
      [str.isidentifier], [str.strip], [str.splitlines], [str.lower] and of
      the [re] module are given for that range.
    - a [dict] whose iteration order matters is an association list in
      insertion order; a [set] is a [gset]; a module's [__dict__] is a
      [gmap].
    - a raised exception is the [Err] case of [result]; what a call
      logs, writes or asks of its collaborators is a list of [event]s, in
      program order.
    - what the program takes from outside (the file system, the parsed
      source, the imported module, the builders of [sdist.py] and
      [wheel.py]) is a parameter of the function that uses it. *)

From Stdlib Require Import ZArith String Ascii List Bool Lia Permutation Sorted.
From stdpp Require Import base option list gmap strings.

Local Open Scope Z_scope.
Local Set Warnings "-register-all".

(** ** Python values, exceptions and effects *)

Module Py.

(** The values of a module attribute such as [__version__] or [__doc__]
    that the model covers: [None], a [bool], an [int], a [str], a tuple
    (a list is modelled like a tuple).  [bytes] and instances of other
    classes are not among them. *)
Inductive pyobj : Type :=
| PyNone
| PyBool (b : bool)
| PyInt (z : Z)
| PyStr (s : string)
| PyTuple (elts : list pyobj).

(** Truth value testing ([bool(x)], the test of [if] and [not]). *)
Definition truthy (x : pyobj) : bool :=
  match x with
  | PyNone => false
  | PyBool b => b
  | PyInt z => negb (Z.eqb z 0)
  | PyStr s => negb (String.eqb s EmptyString)
  | PyTuple elts => match elts with [] => false | _ :: _ => true end
  end.

Definition is_str (x : pyobj) : bool :=
  match x with PyStr _ => true | _ => false end.

(** A path is the sequence of segments joined by [Path(p, child)] and by
    [p / child]; the file system is a pair of predicates on it. *)
Definition Path : Type := list string.

Definition path_div (p : Path) (child : string) : Path := p ++ [child].
Definition path_parent (p : Path) : Path := removelast p.
Definition path_name (p : Path) : string := List.last p EmptyString.

(** Exception classes that the two files raise or let through;
    [NoDocstringError], [NoVersionError] and [InvalidVersion] derive from
    [ValueError] through [ProblemInModule]. *)
Inductive exn_class : Type :=
| ValueError
| NoDocstringError
| NoVersionError
| InvalidVersion
| AttributeError
| AssertionError
| KeyError
| IndexError
| OtherError (name : string).

(** The values interpolated into an exception or log message. *)
Inductive arg : Type :=
| AStr (s : string)
| AObj (x : pyobj)
| APath (p : Path)
| ASet (s : gset string)
| ANames (l : list string).

(** A raised exception: its class and the values formatted into its
    message (the fixed text of the message is not kept). *)
Record exn : Type := Raise { exn_class_of : exn_class; exn_args : list arg }.

Inductive result (A : Type) : Type :=
| Ok (a : A)
| Err (e : exn).
Arguments Ok {A} a.
Arguments Err {A} e.

Definition is_ok {A} (r : result A) : bool :=
  match r with Ok _ => true | Err _ => false end.

Definition raises {A} (r : result A) (c : exn_class) : Prop :=
  exists args, r = Err (Raise c args).

Inductive level : Type := DEBUG | WARNING.

(** What a call leaves behind, in program order. *)
Inductive event : Type :=
| Log (lvl : level) (args : list arg)       (* log.debug / log.warning *)
| Write (chunk : string)                    (* fp.write(chunk) *)
| ParseSource (file : Path)                 (* open + ast.parse *)
| LoadModule (name : string) (file : Path)  (* SourceFileLoader.load_module *)
| SdistBuild (ini_file : Path)              (* SdistBuilder(ini).build() *)
| Unpack (tarball tmpdir : Path)            (* extractall into tmpdir *)
| Cleanup (tmpdir : Path)                   (* TemporaryDirectory exit *)
| MakeWheelIn (ini_file dist_dir : Path)    (* make_wheel_in *)
| WheelMain (ini_file : Path).              (* wheel_main *)

(** Computations that emit events and may raise: the events emitted, in
    order, and the outcome.  An exception ends the computation; the
    events emitted before it stay. *)
Definition M (A : Type) : Type := (list event * result A)%type.

Definition ret {A} (a : A) : M A := ([], Ok a).
Definition raise {A} (c : exn_class) (args : list arg) : M A :=
  ([], Err (Raise c args)).
Definition emit (e : event) : M unit := ([e], Ok tt).
Definition lift {A} (r : result A) : M A := ([], r).

Definition bind {A B} (m : M A) (k : A -> M B) : M B :=
  match m with
  | (t, Err e) => (t, Err e)
  | (t, Ok a) => let (t', r) := k a in (t ++ t', r)
  end.

(** [try: body finally: emit e]. *)
Definition finally {A} (m : M A) (e : event) : M A :=
  let (t, r) := m in (t ++ [e], r).

Definition trace {A} (m : M A) : list event := fst m.
Definition outcome {A} (m : M A) : result A := snd m.

(** The text a sink has received: the chunks of the [Write] events. *)
Fixpoint written (t : list event) : string :=
  match t with
  | [] => EmptyString
  | Write chunk :: t' => String.append chunk (written t')
  | _ :: t' => written t'
  end.

(** A [for] loop whose body may raise. *)
Fixpoint for_each {A} (l : list A) (body : A -> M unit) : M unit :=
  match l with
  | [] => ret tt
  | x :: l' => bind (body x) (fun _ => for_each l' body)
  end.

End Py.

Notation "'let*' x ':=' m 'in' k" := (Py.bind m (fun x => k))
  (at level 10, x pattern, m at level 100, k at level 200, only parsing).

(** ** The [str] methods and the [re] patterns the program calls *)

Module Str.

Local Open Scope N_scope.

Definition code (c : ascii) : N := N_of_ascii c.

Definition between (lo hi : N) (c : ascii) : bool :=
  N.leb lo (code c) && N.leb (code c) hi.

(** [c.isdigit()]: the decimal digits and the superscripts 1, 2, 3. *)
Definition char_isdigit (c : ascii) : bool :=
  between 48 57 c || N.eqb (code c) 178 || N.eqb (code c) 179
  || N.eqb (code c) 185.

(** The class [\d] of [re] on [str] patterns: the decimal digits. *)
Definition char_isdecimal (c : ascii) : bool := between 48 57 c.

(** [c.isspace()], the characters that [strip] and [lstrip] remove. *)
Definition char_isspace (c : ascii) : bool :=
  between 9 13 c || between 28 32 c || N.eqb (code c) 133
  || N.eqb (code c) 160.

(** The line boundaries of [splitlines]. *)
Definition char_islinebreak (c : ascii) : bool :=
  between 10 13 c || between 28 30 c || N.eqb (code c) 133.

(** First and following characters of an identifier (XID_Start plus the
    underscore, and XID_Continue). *)
Definition char_xid_start (c : ascii) : bool :=
  between 65 90 c || between 97 122 c || N.eqb (code c) 95
  || N.eqb (code c) 170 || N.eqb (code c) 181 || N.eqb (code c) 186
  || between 192 214 c || between 216 246 c || between 248 255 c.

Definition char_xid_continue (c : ascii) : bool :=
  char_xid_start c || between 48 57 c || N.eqb (code c) 183.

Fixpoint all_chars (p : ascii -> bool) (s : string) : bool :=
  match s with
  | EmptyString => true
  | String c s' => p c && all_chars p s'
  end.

(** [s.isidentifier()] *)
Definition isidentifier (s : string) : bool :=
  match s with
  | EmptyString => false
  | String c s' => char_xid_start c && all_chars char_xid_continue s'
  end.

(** [sep in s] for a one-character [sep]. *)
Fixpoint contains (sep : ascii) (s : string) : bool :=
  match s with
  | EmptyString => false
  | String c s' => Ascii.eqb c sep || contains sep s'
  end.

(** [s.count(sep)] for a one-character [sep]. *)
Fixpoint count (sep : ascii) (s : string) : nat :=
  match s with
  | EmptyString => 0%nat
  | String c s' => ((if Ascii.eqb c sep then 1 else 0) + count sep s')%nat
  end.

(** [s.split(sep)] for a one-character [sep]: never empty, one piece more
    than there are separators. *)
Fixpoint split (sep : ascii) (s : string) : list string :=
  match s with
  | EmptyString => [EmptyString]
  | String c s' =>
      if Ascii.eqb c sep then EmptyString :: split sep s'
      else match split sep s' with
           | [] => [String c EmptyString]
           | piece :: rest => String c piece :: rest
           end
  end.

(** [s.lstrip()] *)
Fixpoint lstrip (s : string) : string :=
  match s with
  | EmptyString => EmptyString
  | String c s' => if char_isspace c then lstrip s' else s
  end.

(** [s.rstrip()] *)
Fixpoint rstrip (s : string) : string :=
  match s with
  | EmptyString => EmptyString
  | String c s' =>
      match rstrip s' with
      | EmptyString => if char_isspace c then EmptyString
                       else String c EmptyString
      | r => String c r
      end
  end.

(** [s.strip()] *)
Definition strip (s : string) : string := rstrip (lstrip s).

(** [s.splitlines()]: a carriage return directly before a line feed is
    part of the same boundary; no empty last line. *)
Fixpoint splitlines (s : string) : list string :=
  match s with
  | EmptyString => []
  | String c s' =>
      if char_islinebreak c then
        match s' with
        | String c' _ =>
            if N.eqb (code c) 13 && N.eqb (code c') 10 then splitlines s'
            else EmptyString :: splitlines s'
        | EmptyString => EmptyString :: splitlines s'
        end
      else match splitlines s' with
           | [] => [String c EmptyString]
           | line :: rest => String c line :: rest
           end
  end.

(** [c.lower()] on a code point below 256, where it is one character
    again. *)
Definition char_lower (c : ascii) : ascii :=
  if between 65 90 c || between 192 214 c || between 216 222 c
  then ascii_of_N (code c + 32) else c.

Fixpoint map_chars (f : ascii -> ascii) (s : string) : string :=
  match s with
  | EmptyString => EmptyString
  | String c s' => String (f c) (map_chars f s')
  end.

(** [s.lower()] on code points below 256: character by character. *)
Definition lower (s : string) : string := map_chars char_lower s.

(** [s.replace(a, b)] for one-character [a] and [b]. *)
Definition replace (a b : ascii) (s : string) : string :=
  map_chars (fun c => if Ascii.eqb c a then b else c) s.

(** Regular expressions, as far as [pep440re] uses them. *)
Inductive regex : Type :=
| Void
| Eps
| Class (p : ascii -> bool)
| Cat (r1 r2 : regex)
| Alt (r1 r2 : regex)
| Star (r : regex).

Definition Lit (c : ascii) : regex := Class (Ascii.eqb c).
Definition Opt (r : regex) : regex := Alt r Eps.

Fixpoint Word (s : string) : regex :=
  match s with
  | EmptyString => Eps
  | String c s' => Cat (Lit c) (Word s')
  end.

Fixpoint nullable (r : regex) : bool :=
  match r with
  | Void => false
  | Eps => true
  | Class _ => false
  | Cat r1 r2 => nullable r1 && nullable r2
  | Alt r1 r2 => nullable r1 || nullable r2
  | Star _ => true
  end.

(** The derivative of [r] by [c]: what may follow after [c] was read. *)
Fixpoint deriv (c : ascii) (r : regex) : regex :=
  match r with
  | Void => Void
  | Eps => Void
  | Class p => if p c then Eps else Void
  | Cat r1 r2 =>
      if nullable r1 then Alt (Cat (deriv c r1) r2) (deriv c r2)
      else Cat (deriv c r1) r2
  | Alt r1 r2 => Alt (deriv c r1) (deriv c r2)
  | Star r1 => Cat (deriv c r1) (Star r1)
  end.

(** [r] matches the whole of [s]. *)
Fixpoint fullmatch (r : regex) (s : string) : bool :=
  match s with
  | EmptyString => nullable r
  | String c s' => fullmatch (deriv c r) s'
  end.

(** The denotation of a regular expression, to read [fullmatch] against. *)
Inductive matches : regex -> string -> Prop :=
| m_eps : matches Eps EmptyString
| m_class p c : p c = true -> matches (Class p) (String c EmptyString)
| m_cat r1 r2 s1 s2 :
    matches r1 s1 -> matches r2 s2 -> matches (Cat r1 r2) (String.append s1 s2)
| m_alt_l r1 r2 s : matches r1 s -> matches (Alt r1 r2) s
| m_alt_r r1 r2 s : matches r2 s -> matches (Alt r1 r2) s
| m_star_nil r : matches (Star r) EmptyString
| m_star_cons r s1 s2 :
    matches r s1 -> matches (Star r) s2 ->
    matches (Star r) (String.append s1 s2).

(** [pattern.match(s)] for a pattern written [^ r $]: the whole of [s]
    is matched by [r], or all of it but a last line feed. *)
Definition match_anchored (r : regex) (s : string) : bool :=
  fullmatch (Cat r (Opt (Lit "010"%char))) s.

(** The line feed, written [\n] in the source. *)
Definition nl : string := String "010"%char EmptyString.

End Str.

(** ** common.py: versions, modules, extraction *)

Module Common.
Import Py Str.
Local Open Scope string_scope.

(** The class of the digits 1 to 9. *)
Definition digit19 : regex := Class (between 49 57).
(** A zero, or a digit 1 to 9 followed by any number of [\d]. *)
Definition number : regex :=
  Alt (Lit "0") (Cat digit19 (Star (Class char_isdecimal))).
(** The dot of a pattern, any character but the line feed. *)
Definition anychar : regex := Class (fun c => negb (N.eqb (code c) 10)).

(** [pep440re], lines 13-20, between its [^] and [$].  The dot before
    the release segments is written unescaped in the source; the ones
    before [post] and [dev] are escaped. *)
Definition pep440re : regex :=
  Cat (Opt (Cat digit19 (Cat (Star (Class char_isdecimal)) (Lit "!"))))
 (Cat number
 (Cat (Star (Cat anychar number))
 (Cat (Opt (Cat (Alt (Lit "a") (Alt (Lit "b") (Word "rc"))) number))
 (Cat (Opt (Cat (Word ".post") number))
      (Opt (Cat (Word ".dev") number)))))).

(** [_is_canonical], lines 22-26. *)
Definition _is_canonical (version : string) : bool :=
  match_anchored pep440re version.

(** The file system, as [Path.is_dir] and [Path.is_file] see it. *)
Record filesystem : Type :=
  { is_dir : Path -> bool; is_file : Path -> bool }.

(** The class [Module], lines 29-54. *)
Module ModuleCls.

Record t : Type :=
  { name : string; path : Path; is_package : bool }.

(** [Module.__init__] *)
Definition init (fs : filesystem) (name : string) (directory : Path)
  : result t :=
  let pkg_dir := path_div directory name in
  let py_file := path_div directory (name ++ ".py") in
  if is_dir fs pkg_dir && is_file fs py_file then
    Err (Raise ValueError [APath pkg_dir; APath py_file])
  else if is_dir fs pkg_dir then
    Ok {| name := name; path := pkg_dir; is_package := true |}
  else if is_file fs py_file then
    Ok {| name := name; path := py_file; is_package := false |}
  else Err (Raise ValueError [AStr name]).

(** The property [Module.file] *)
Definition file (self : t) : Path :=
  if is_package self then path_div (path self) "__init__.py"
  else path self.

End ModuleCls.

(** The part of Python's syntax tree that the static pass looks at. *)
Inductive expr : Type :=
| Name (id : string)
| Str (s : string)
| Num (n : Z)
| Attribute (value : expr) (attr : string)
| Subscript (value : expr) (slice : expr)
| Tuple (elts : list expr)
| ListExpr (elts : list expr)
| Starred (value : expr)
| Call (func : expr) (args : list expr).

Inductive stmt : Type :=
| Assign (targets : list expr) (value : expr)
| AnnAssign (target : expr) (annotation : expr) (value : option expr)
| Expr (value : expr)
| Import (names : list string)
| Pass.

(** What lies outside the program: the parsed source of a file (or the
    exception of [open] or [ast.parse]), [inspect.cleandoc], and the
    namespace that executing a file yields (or the exception it ends in). *)
Record env : Type :=
  { source : Path -> result (list stmt);
    cleandoc : string -> string;
    load_module : string -> Path -> result (gmap string pyobj) }.

(** [node.id]: only [ast.Name] has the attribute. *)
Definition get_id (node : expr) : result string :=
  match node with
  | Name id => Ok id
  | _ => Err (Raise AttributeError [AStr "id"])
  end.

Definition is_Str (node : expr) : bool :=
  match node with Str _ => true | _ => false end.

(** The expression bound to [is_version_str], lines 92-95; [and] stops at
    the first false operand. *)
Definition is_version_str (child : stmt) : result bool :=
  match child with
  | Assign targets value =>
      if Nat.eqb (length targets) 1 then
        match targets with
        | target :: _ =>
            match get_id target with
            | Ok id => Ok (String.eqb id "__version__" && is_Str value)
            | Err e => Err e
            end
        | [] => Err (Raise IndexError [])
        end
      else Ok false
  | _ => Ok false
  end.

(** The [for ... else] of lines 89-100. *)
Fixpoint scan_version (body : list stmt) : result pyobj :=
  match body with
  | [] => Ok PyNone
  | child :: rest =>
      match is_version_str child with
      | Err e => Err e
      | Ok true =>
          match child with
          | Assign _ (Str s) => Ok (PyStr s)
          | _ => Err (Raise AttributeError [AStr "s"])
          end
      | Ok false => scan_version rest
      end
  end.

(** [ast.get_docstring(node)] *)
Definition get_docstring (E : env) (body : list stmt) : pyobj :=
  match body with
  | Expr (Str s) :: _ => PyStr (cleandoc E s)
  | _ => PyNone
  end.

(** [get_docstring_and_version_via_ast], lines 82-101. *)
Definition get_docstring_and_version_via_ast (E : env) (target : ModuleCls.t)
  : M (pyobj * pyobj) :=
  let* _ := emit (ParseSource (ModuleCls.file target)) in
  let* body := lift (source E (ModuleCls.file target)) in
  let* version := lift (scan_version body) in
  ret (get_docstring E body, version).

(** [d.get(key, None)] *)
Definition dict_get (d : gmap string pyobj) (key : string) : pyobj :=
  default PyNone (d !! key).

(** [get_docstring_and_version_via_import], lines 103-115.  The handlers
    of the root logger that [_module_load_ctx] restores are not part of
    the model. *)
Definition get_docstring_and_version_via_import (E : env)
  (target : ModuleCls.t) : M (pyobj * pyobj) :=
  let* _ := emit (Log DEBUG [APath (ModuleCls.file target)]) in
  let* _ := emit (LoadModule (ModuleCls.name target) (ModuleCls.file target)) in
  let* m := lift (load_module E (ModuleCls.name target)
                    (ModuleCls.file target)) in
  ret (dict_get m "__doc__", dict_get m "__version__").

(** [x.strip()] and [x.lstrip()] on the values of [pyobj]: of these only
    [str] has the methods; a [bool], an [int], a tuple or a list has
    neither. *)
Definition py_strip (x : pyobj) : result string :=
  match x with
  | PyStr s => Ok (strip s)
  | _ => Err (Raise AttributeError [AStr "strip"])
  end.

Definition py_lstrip (x : pyobj) : result string :=
  match x with
  | PyStr s => Ok (lstrip s)
  | _ => Err (Raise AttributeError [AStr "lstrip"])
  end.

(** [check_version], lines 140-164. *)
Definition check_version (version : pyobj) : M bool :=
  if negb (truthy version) then raise NoVersionError []
  else match version with
       | PyStr s =>
           match s with
           | String c _ =>
               if negb (char_isdigit c) then raise InvalidVersion [AObj version]
               else
                 let canonical := _is_canonical s in
                 let* _ := (if negb canonical
                            then emit (Log WARNING [AStr s]) else ret tt) in
                 ret canonical
           | EmptyString => raise IndexError []
           end
       | _ => raise InvalidVersion [AObj version]
       end.

(** The dictionary that [get_info_from_module] returns. *)
Record info : Type := { summary : string; version : pyobj }.

(** Lines 126-128 of [get_info_from_module]: the static pass, and the
    import when it left the docstring or the version falsy. *)
Definition extract (E : env) (target : ModuleCls.t) : M (pyobj * pyobj) :=
  let* (docstring, version) := get_docstring_and_version_via_ast E target in
  if negb (truthy docstring && truthy version)
  then get_docstring_and_version_via_import E target
  else ret (docstring, version).

(** [get_info_from_module], lines 117-138. *)
Definition get_info_from_module (E : env) (target : ModuleCls.t) : M info :=
  let* _ := emit (Log DEBUG [APath (ModuleCls.file target)]) in
  let* (docstring, version) := extract E target in
  let* blank :=
    (if negb (truthy docstring) then ret true
     else let* stripped := lift (py_strip docstring) in
          ret (String.eqb stripped "")) in
  if blank then raise NoDocstringError []
  else
    let* _ := check_version version in
    let* stripped := lift (py_lstrip docstring) in
    match splitlines stripped with
    | first :: _ => ret {| summary := first; version := version |}
    | [] => raise IndexError []
    end.

(** A value that is [None] or the empty string. *)
Definition empty_or_missing (x : pyobj) : Prop :=
  x = PyNone \/ x = PyStr "".

(** A docstring that is missing, empty, or made of white space only. *)
Definition blank_docstring (x : pyobj) : Prop :=
  x = PyNone \/ exists s, x = PyStr s /\ all_chars char_isspace s = true.

(** [parse_entry_point], lines 174-189.  Unpacking [ep.split(':')] into
    two names raises [ValueError] unless there are exactly two pieces. *)
Definition parse_entry_point (ep : string) : result (string * string) :=
  if negb (contains ":" ep) then Err (Raise ValueError [AStr ep])
  else match split ":" ep with
       | [mod_; func] =>
           if negb (isidentifier func) then Err (Raise ValueError [AStr func])
           else match List.find (fun piece => negb (isidentifier piece))
                                (split "." mod_) with
                | Some piece => Err (Raise ValueError [AStr piece])
                | None => Ok (mod_, func)
                end
       | pieces => Err (Raise ValueError [ANames pieces])
       end.

(** A [dict] with [str] keys, in insertion order. *)
Definition dict (V : Type) : Type := list (string * V).

Definition keys {V} (d : dict V) : list string := List.map fst d.

(** [d.get(key)]: the value of the first pair with that key. *)
Fixpoint dict_lookup {V} (d : dict V) (key : string) : option V :=
  match d with
  | [] => None
  | (k, v) :: d' => if String.eqb k key then Some v else dict_lookup d' key
  end.

(** [d[key]] *)
Definition getitem {V} (d : dict V) (key : string) : result V :=
  match dict_lookup d key with
  | Some v => Ok v
  | None => Err (Raise KeyError [AStr key])
  end.

(** [sorted] on strings: ascending by code points, by insertion. *)
Fixpoint insert_sorted (x : string) (l : list string) : list string :=
  match l with
  | [] => [x]
  | y :: l' => if String.leb x y then x :: l else y :: insert_sorted x l'
  end.

Fixpoint sorted (l : list string) : list string :=
  match l with
  | [] => []
  | x :: l' => insert_sorted x (sorted l')
  end.

(** [write_entry_points], lines 191-202; the sink [fp] receives the
    [Write] events. *)
Definition write_entry_points (d : dict (dict string)) : M unit :=
  for_each (sorted (keys d)) (fun group_name =>
    let* _ := emit (Write ("[" ++ group_name ++ "]" ++ nl)) in
    let* group := lift (getitem d group_name) in
    let* _ := for_each (sorted (keys group)) (fun name =>
                let* val := lift (getitem group name) in
                emit (Write (name ++ "=" ++ val ++ nl))) in
    emit (Write nl)).

(** A [dict] has each key once. *)
Definition dict_wf {V} (d : dict V) : Prop := NoDup (keys d).

(** Two-level dictionaries as [write_entry_points] takes them. *)
Definition groups_wf (d : dict (dict string)) : Prop :=
  dict_wf d /\ Forall (fun kv => dict_wf (snd kv)) d.

(** Equality of dictionaries ([==]): the same keys with the same values,
    in whatever order they were inserted. *)
Definition dict_eq (d1 d2 : dict string) : Prop :=
  forall k, dict_lookup d1 k = dict_lookup d2 k.

Definition groups_eq (d1 d2 : dict (dict string)) : Prop :=
  forall k,
    match dict_lookup d1 k, dict_lookup d2 k with
    | Some g1, Some g2 => dict_eq g1 g2
    | None, None => True
    | _, _ => False
    end.

(** [[(k, d[k]) for k in ks]] *)
Definition items_at {V} (d : dict V) (ks : list string)
  : list (string * V) :=
  List.flat_map (fun k => match dict_lookup d k with
                          | Some v => [(k, v)]
                          | None => []
                          end) ks.

(** [sorted(d.items())] for a well-formed [d]. *)
Definition sorted_items {V} (d : dict V) : list (string * V) :=
  items_at d (sorted (keys d)).

(** The groups in the order of the file, each with its entries in the
    order of the file. *)
Definition sorted_groups (d : dict (dict string))
  : list (string * list (string * string)) :=
  List.map (fun sec => (fst sec, sorted_items (snd sec))) (sorted_items d).

(** Ascending by code points, [<=] of [str]. *)
Definition str_le (s1 s2 : string) : Prop := String.leb s1 s2 = true.

(** Strictly ascending by code points. *)
Definition str_lt (s1 s2 : string) : Prop := String.ltb s1 s2 = true.

(** What one section of [entry_points.txt] consists of. *)
Definition entry_line (kv : string * string) : string :=
  fst kv ++ "=" ++ snd kv ++ nl.

Definition section_chunks (sec : string * list (string * string))
  : list string :=
  (("[" ++ fst sec ++ "]" ++ nl)%string
   :: List.map entry_line (snd sec) ++ [nl])%list.

(** The class [Metadata], lines 222-299.  A scalar attribute holds [None]
    or a [str], a sequence attribute holds strings. *)
Module Metadata.

Record t : Type :=
  { name : option string;
    version : option string;
    author_email : option string;
    summary : option string;
    home_page : option string;
    author : option string;
    maintainer : option string;
    maintainer_email : option string;
    license : option string;
    description : option string;
    keywords : option string;
    download_url : option string;
    requires_python : option string;
    platform : list string;
    supported_platform : list string;
    classifiers : list string;
    provides : list string;
    requires : list string;
    obsoletes : list string;
    project_urls : list string;
    provides_dist : list string;
    requires_dist : list string;
    obsoletes_dist : list string;
    requires_external : list string;
    metadata_version : option string;
    dev_requires : list string }.

(** [_normalise_name] *)
Definition _normalise_name (n : string) : string :=
  replace "-" "_" (lower n).

(** [getattr(self, k)] on the scalar attributes, the only ones that
    [write_metadata_file] reads by name. *)
Definition getattr (self : t) (k : string) : result (option string) :=
  if String.eqb k "name" then Ok (name self)
  else if String.eqb k "version" then Ok (version self)
  else if String.eqb k "author_email" then Ok (author_email self)
  else if String.eqb k "summary" then Ok (summary self)
  else if String.eqb k "home_page" then Ok (home_page self)
  else if String.eqb k "author" then Ok (author self)
  else if String.eqb k "maintainer" then Ok (maintainer self)
  else if String.eqb k "maintainer_email" then Ok (maintainer_email self)
  else if String.eqb k "license" then Ok (license self)
  else if String.eqb k "description" then Ok (description self)
  else if String.eqb k "keywords" then Ok (keywords self)
  else if String.eqb k "download_url" then Ok (download_url self)
  else if String.eqb k "requires_python" then Ok (requires_python self)
  else if String.eqb k "metadata_version" then Ok (metadata_version self)
  else Err (Raise AttributeError [AStr k]).

(** [value or 'UNKNOWN'] *)
Definition or_unknown (value : option string) : string :=
  match value with
  | Some (String c v) => String c v
  | _ => "UNKNOWN"
  end.

Definition fields : list string :=
  ["Metadata-Version"; "Name"; "Version"; "Summary"; "Home-page"; "License"].

Definition optional_fields : list string :=
  ["Keywords"; "Author"; "Author-email"; "Maintainer"; "Maintainer-email";
   "Requires-Python"].

(** [write_metadata_file], lines 264-299. *)
Definition write_metadata_file (self : t) : M unit :=
  let* _ := for_each fields (fun field =>
              let* value := lift (getattr self (_normalise_name field)) in
              emit (Write (field ++ ": " ++ or_unknown value ++ nl))) in
  let* _ := for_each optional_fields (fun field =>
              let* value := lift (getattr self (_normalise_name field)) in
              match value with
              | Some v => emit (Write (field ++ ": " ++ v ++ nl))
              | None => ret tt
              end) in
  let* _ := for_each (classifiers self) (fun clsfr =>
              emit (Write ("Classifier: " ++ clsfr ++ nl))) in
  let* _ := for_each (requires_dist self) (fun req =>
              emit (Write ("Requires-Dist: " ++ req ++ nl))) in
  match description self with
  | Some d => emit (Write (nl ++ d ++ nl))
  | None => ret tt
  end.

(** The record as the specification words it, to compare
    [write_metadata_file] with: a mandatory line always, with [UNKNOWN]
    for a value that is unset or empty; an optional line when set. *)
Definition mandatory_line (field : string) (value : option string) : string :=
  field ++ ": "
  ++ match value with
     | None => "UNKNOWN"
     | Some v => if String.eqb v "" then "UNKNOWN" else v
     end
  ++ nl.

Definition optional_line (field : string) (value : option string)
  : list string :=
  match value with
  | Some v => [field ++ ": " ++ v ++ nl]
  | None => []
  end.

Definition mandatory_block (self : t) : list string :=
  [ mandatory_line "Metadata-Version" (metadata_version self);
    mandatory_line "Name" (name self);
    mandatory_line "Version" (version self);
    mandatory_line "Summary" (summary self);
    mandatory_line "Home-page" (home_page self);
    mandatory_line "License" (license self) ].

Definition optional_block (self : t) : list string :=
  (optional_line "Keywords" (keywords self)
   ++ optional_line "Author" (author self)
   ++ optional_line "Author-email" (author_email self)
   ++ optional_line "Maintainer" (maintainer self)
   ++ optional_line "Maintainer-email" (maintainer_email self)
   ++ optional_line "Requires-Python" (requires_python self))%list.

Definition classifier_line (clsfr : string) : string :=
  "Classifier: " ++ clsfr ++ nl.

Definition requires_dist_line (req : string) : string :=
  "Requires-Dist: " ++ req ++ nl.

Definition description_block (self : t) : list string :=
  match description self with
  | Some d => [nl ++ d ++ nl]
  | None => []
  end.

Definition record_chunks (self : t) : list string :=
  (mandatory_block self
   ++ optional_block self
   ++ List.map classifier_line (classifiers self)
   ++ List.map requires_dist_line (requires_dist self)
   ++ description_block self)%list.

End Metadata.

End Common.

(** ** build.py: the orchestrator *)

Module Build.
Import Py.
Local Open Scope string_scope.

Definition ALL_FORMATS : gset string := {[ "wheel"; "sdist" ]}.

Section Orchestrator.

(** The builder objects of [sdist.py] and the records that [wheel.py]
    returns are opaque to this file. *)
Variables SdistBuilder WheelInfo : Type.

(** The collaborators of [main]: the two builder modules, the temporary
    directory and the archive reader, each with the exception it may end
    in.  [extract_and_list] stands for [tarfile.open], [extractall] and
    [os.listdir] taken together. *)
Record world : Type :=
  { new_SdistBuilder : Path -> result SdistBuilder;
    sdist_build : SdistBuilder -> result Path;
    tempdir : Path;
    extract_and_list : Path -> Path -> result (list string);
    make_wheel_in : Path -> Path -> result WheelInfo;
    wheel_main : Path -> result WheelInfo }.

(** [SimpleNamespace(builder=sb, file=sdist_file)] *)
Record sdist_info : Type := { builder : SdistBuilder; file : Path }.

(** [SimpleNamespace(wheel=wheel_info, sdist=sdist_info)] *)
Record build_result : Type :=
  { wheel : option WheelInfo; sdist : option sdist_info }.

(** [with unpacked_tarball(path) as tmpdir: body], lines 18-25: the
    temporary directory is removed on every way out of the block.  The
    archive is read as one step, so that an archive that cannot be opened,
    which in the source fails before the temporary directory is made,
    shows here like one that cannot be extracted. *)
Definition unpacked_tarball {A} (W : world) (path : Path)
  (body : Path -> M A) : M A :=
  let tmpdir := tempdir W in
  finally
    (let* _ := emit (Unpack path tmpdir) in
     let* files := lift (extract_and_list W path tmpdir) in
     match files with
     | [top] => body (path_div tmpdir top)
     | _ => raise AssertionError [ANames files]
     end)
    (Cleanup tmpdir).

(** Lines 29-32: the formats to build, or the error. *)
Definition requested (formats : option (gset string)) : M (gset string) :=
  match formats with
  | None => ret ALL_FORMATS
  | Some fs =>
      if decide (fs = ∅) then ret ALL_FORMATS
      else if decide (fs ⊆ ALL_FORMATS) then ret fs
      else raise ValueError [ASet (fs ∖ ALL_FORMATS)]
  end.

(** The formats that an accepted request builds: all of them when the
    request is [None] or empty. *)
Definition effective (formats : option (gset string)) : gset string :=
  match formats with
  | None => ALL_FORMATS
  | Some fs => if decide (fs = ∅) then ALL_FORMATS else fs
  end.

Definition accepted (formats : option (gset string)) : Prop :=
  effective formats ⊆ ALL_FORMATS.

(** [main], lines 27-51. *)
Definition main (W : world) (ini_file : Path) (formats : option (gset string))
  : M build_result :=
  let* formats := requested formats in
  if decide ("sdist" ∈ formats) then
    let* _ := emit (SdistBuild ini_file) in
    let* sb := lift (new_SdistBuilder W ini_file) in
    let* sdist_file := lift (sdist_build W sb) in
    let sdist_info := {| builder := sb; file := sdist_file |} in
    let* wheel_info :=
      (if decide ("wheel" ∈ formats) then
         let dist_dir := path_div (path_parent ini_file) "dist" in
         unpacked_tarball W sdist_file (fun tmpdir =>
           let* _ := emit (Log DEBUG [APath tmpdir]) in
           let tmp_ini_file := path_div tmpdir (path_name ini_file) in
           let* _ := emit (MakeWheelIn tmp_ini_file dist_dir) in
           let* w := lift (make_wheel_in W tmp_ini_file dist_dir) in
           ret (Some w))
       else ret None) in
    ret {| wheel := wheel_info; sdist := Some sdist_info |}
  else if decide ("wheel" ∈ formats) then
    let* _ := emit (WheelMain ini_file) in
    let* w := lift (wheel_main W ini_file) in
    ret {| wheel := Some w; sdist := None |}
  else ret {| wheel := None; sdist := None |}.

End Orchestrator.

Arguments new_SdistBuilder {_ _} _ _.
Arguments sdist_build {_ _} _ _.
Arguments tempdir {_ _} _.
Arguments extract_and_list {_ _} _ _ _.
Arguments make_wheel_in {_ _} _ _ _.
Arguments wheel_main {_ _} _ _.
Arguments builder {_} _.
Arguments file {_} _.
Arguments wheel {_ _} _.
Arguments sdist {_ _} _.
Arguments unpacked_tarball {_ _ _} _ _ _.
Arguments main {_ _} _ _ _.

End Build.

(** ** Permission bits *)

Module Perm.

(** [normalize_file_permissions], common.py lines 209-220.  The octal
    literals are 0o644 = 420, 0o133 = 91, 0o100 = 64, 0o111 = 73. *)
Definition normalize_file_permissions (st_mode : Z) : Z :=
  let new_mode := Z.land (Z.lor st_mode 420) (Z.lnot 91) in
  if Z.eqb (Z.land st_mode 64) 0 then new_mode
  else Z.lor new_mode 73.

(** The nine permission bits of a mode, [mode & 0o777]. *)
Definition perm_bits (mode : Z) : Z := Z.land mode 511.

(** The bits of a mode above the nine permission bits, [mode >> 9]. *)
Definition high_bits (mode : Z) : Z := Z.shiftr mode 9.

Definition owner_exec (mode : Z) : bool := Z.testbit mode 6.

End Perm.

(** ** common.py: building the metadata object *)

Module Assemble.
Import Py Str Common.
Local Open Scope string_scope.

(** [r] then [k], for code that raises but leaves no event. *)
Definition and_then {A B} (r : result A) (k : A -> result B) : result B :=
  match r with
  | Ok a => k a
  | Err e => Err e
  end.

(** [del d[key]]: without the first pair that has the key. *)
Fixpoint dict_remove {V} (d : dict V) (key : string) : dict V :=
  match d with
  | [] => []
  | (k, v) :: d' =>
      if String.eqb k key then d' else (k, v) :: dict_remove d' key
  end.

(** [d.pop(key)]: the value and the dictionary left. *)
Definition dict_pop {V} (d : dict V) (key : string) : result (V * dict V) :=
  match dict_lookup d key with
  | Some v => Ok (v, dict_remove d key)
  | None => Err (Raise KeyError [AStr key])
  end.

(** [d[key] = v]: in place for a key that is there, at the end for a new
    one. *)
Fixpoint dict_set {V} (d : dict V) (key : string) (v : V) : dict V :=
  match d with
  | [] => [(key, v)]
  | (k, v') :: d' =>
      if String.eqb k key then (k, v) :: d' else (k, v') :: dict_set d' key v
  end.

(** [d.update(other)] *)
Definition dict_update {V} (d other : dict V) : dict V :=
  List.fold_left (fun acc kv => dict_set acc (fst kv) (snd kv)) other d.

(** The attributes that the class body of [Metadata] binds, lines
    224-250, with their defaults; a tuple or list of strings is a
    [PyTuple]. *)
Definition class_attributes : dict pyobj :=
  [ ("home_page", PyNone); ("author", PyNone); ("maintainer", PyNone);
    ("maintainer_email", PyNone); ("license", PyNone);
    ("description", PyNone); ("keywords", PyNone);
    ("download_url", PyNone); ("requires_python", PyNone);
    ("platform", PyTuple []); ("supported_platform", PyTuple []);
    ("classifiers", PyTuple []); ("provides", PyTuple []);
    ("requires", PyTuple []); ("obsoletes", PyTuple []);
    ("project_urls", PyTuple []); ("provides_dist", PyTuple []);
    ("requires_dist", PyTuple []); ("obsoletes_dist", PyTuple []);
    ("requires_external", PyTuple []);
    ("metadata_version", PyStr "1.2"); ("dev_requires", PyTuple []) ].

(** The methods of the class, attributes of every instance too. *)
Definition class_methods : list string :=
  ["__init__"; "_normalise_name"; "write_metadata_file"].

(** The names an instance answers to without the class body binding
    them: what it inherits from [object] ([__class__], [__eq__], ...) and
    what the class statement adds ([__dict__], [__weakref__],
    [__module__], [__doc__]; the list varies with the version of Python),
    and whether assigning to one of them raises. *)
Record object_model : Type :=
  { object_hasattr : string -> bool;
    object_setattr : string -> pyobj -> option exn }.

Definition in_names (k : string) (names : list string) : bool :=
  List.existsb (String.eqb k) names.

(** [hasattr(self, k)] for an instance whose own attributes are [self]. *)
Definition hasattr (O : object_model) (self : gmap string pyobj)
  (k : string) : bool :=
  match self !! k with
  | Some _ => true
  | None =>
      match dict_lookup class_attributes k with
      | Some _ => true
      | None => in_names k class_methods || object_hasattr O k
      end
  end.

(** [setattr(self, k, v)] *)
Definition setattr (O : object_model) (self : gmap string pyobj)
  (k : string) (v : pyobj) : result (gmap string pyobj) :=
  if object_hasattr O k then
    match object_setattr O k v with
    | Some e => Err e
    | None => Ok (<[k := v]> self)
    end
  else Ok (<[k := v]> self).

(** The loop of lines 257-259, with assertions enabled. *)
Fixpoint set_all (O : object_model) (self : gmap string pyobj)
  (items : dict pyobj) : result (gmap string pyobj) :=
  match items with
  | [] => Ok self
  | (k, v) :: rest =>
      if hasattr O self k then
        and_then (setattr O self k v) (fun self' => set_all O self' rest)
      else Err (Raise AssertionError [AStr k])
  end.

(** [Metadata.__init__], lines 252-259: the instance's own attributes. *)
Definition init (O : object_model) (data : dict pyobj)
  : result (gmap string pyobj) :=
  and_then (dict_pop data "name") (fun '(name, data) =>
  and_then (dict_pop data "version") (fun '(version, data) =>
  and_then (dict_pop data "author_email") (fun '(author_email, data) =>
  and_then (dict_pop data "summary") (fun '(summary, data) =>
  set_all O
    (<["summary" := summary]>
       (<["author_email" := author_email]>
          (<["version" := version]> (<["name" := name]> ∅))))
    data)))).

(** The value of a data attribute: the instance's own, or else the
    default of the class. *)
Definition data_attr (self : gmap string pyobj) (k : string) : option pyobj :=
  match self !! k with
  | Some v => Some v
  | None => dict_lookup class_attributes k
  end.

(** The mapping that [inifile.read_pkg_ini] returns, as far as this file
    reads it: [ini_info['module']] and [ini_info['metadata']]. *)
Record ini_info : Type :=
  { ini_module : string; ini_metadata : dict pyobj }.

(** The dictionary of line 137 as [dict.update] sees it. *)
Definition info_items (i : info) : dict pyobj :=
  [("summary", PyStr (summary i)); ("version", version i)].

(** [make_metadata], lines 301-305. *)
Definition make_metadata (O : object_model) (E : env)
  (module : ModuleCls.t) (ini : ini_info) : M (gmap string pyobj) :=
  let md_dict :=
    [ ("name", PyStr (ModuleCls.name module));
      ("provides", PyTuple [PyStr (ModuleCls.name module)]) ] in
  let* i := get_info_from_module E module in
  let md_dict := dict_update md_dict (info_items i) in
  let md_dict := dict_update md_dict (ini_metadata ini) in
  lift (init O md_dict).

(** [metadata_and_module_from_ini_path], lines 307-312; [read_pkg_ini]
    is the reader of [inifile.py]. *)
Definition metadata_and_module_from_ini_path (O : object_model) (E : env)
  (fs : filesystem) (read_pkg_ini : Path -> result ini_info)
  (ini_path : Path) : M (gmap string pyobj * ModuleCls.t) :=
  let* ini := lift (read_pkg_ini ini_path) in
  let* module := lift (ModuleCls.init fs (ini_module ini)
                         (path_parent ini_path)) in
  let* metadata := make_metadata O E module ini in
  ret (metadata, module).

End Assemble.

(** ** Notions the properties are stated with *)

Module Notions.
Import Py Str Common Assemble.
Local Open Scope string_scope.

(** The first character of [s] is there and satisfies [p]. *)
Definition starts_with (p : ascii -> bool) (s : string) : bool :=
  match s with
  | String c _ => p c
  | EmptyString => false
  end.

(** [first] is [s] up to its first line boundary. *)
Definition first_line_of (s first : string) : Prop :=
  all_chars (fun c => negb (char_islinebreak c)) first = true
  /\ exists tail,
       s = first ++ tail
       /\ (tail = "" \/ starts_with char_islinebreak tail = true).

(** A statement that the scan of lines 89-100 passes over without
    raising: not an assignment with a single target, or one to a name other
    than [__version__], or one whose value is not a string literal. *)
Definition passed_over (child : stmt) : Prop :=
  match child with
  | Assign [Name id] value => id <> "__version__" \/ is_Str value = false
  | Assign [_] _ => False
  | _ => True
  end.

(** The keys that [Metadata.__init__] pops. *)
Definition mandatory_keys : list string :=
  ["name"; "version"; "author_email"; "summary"].

(** A name that the class gives to every instance: a data attribute or a
    method. *)
Definition known_attr (k : string) : bool :=
  match dict_lookup class_attributes k with
  | Some _ => true
  | None => in_names k class_methods
  end.

(** [data] after the four [pop]s. *)
Definition rest_of (data : dict pyobj) : dict pyobj :=
  dict_remove (dict_remove (dict_remove (dict_remove data "name") "version")
                 "author_email") "summary".

(** The dictionary literal of line 302. *)
Definition base_items (module : ModuleCls.t) : dict pyobj :=
  [ ("name", PyStr (ModuleCls.name module));
    ("provides", PyTuple [PyStr (ModuleCls.name module)]) ].

(** What [_normalise_name] does to one character. *)
Definition normalise_char (c : ascii) : ascii :=
  if Ascii.eqb (char_lower c) "-" then "_"%char else char_lower c.

(** A value whose type has no method [strip]: a [bool], an [int], a tuple
    or a list. *)
Definition no_strip (x : pyobj) : Prop :=
  match x with
  | PyBool _ | PyInt _ | PyTuple _ => True
  | _ => False
  end.

End Notions.

(** ** Concrete inputs *)

Module Examples.
Import Py Str Common.
Local Open Scope string_scope.

(** A file system holding the directory [./pkg] and the file [./mod.py]. *)
Definition fs_example : filesystem :=
  {| is_dir := fun p => if decide (p = ["."; "pkg"]) then true else false;
     is_file := fun p => if decide (p = ["."; "mod.py"]) then true else false |}.

(** The module [mod.py] reads: a docstring, [import os], [obj.attr = 1],
    [__version__ = "1.0"]. *)
Definition env_attr_target : env :=
  {| source := fun _ =>
       Ok [Expr (Str "doc"); Import ["os"];
           Assign [Attribute (Name "obj") "attr"] (Num 1);
           Assign [Name "__version__"] (Str "1.0")];
     cleandoc := fun s => s;
     load_module := fun _ _ => Ok ∅ |}.

Definition mod_py : ModuleCls.t :=
  {| ModuleCls.name := "mod"; ModuleCls.path := ["."; "mod.py"];
     ModuleCls.is_package := false |}.

(** A module whose source has neither docstring nor version and whose
    import yields a docstring of white space only. *)
Definition env_blank_doc : env :=
  {| source := fun _ => Ok [Import ["os"]];
     cleandoc := fun s => s;
     load_module := fun _ _ =>
       Ok (<["__doc__" := PyStr ("  " ++ nl)]>
           (<["__version__" := PyStr "1.0"]> ∅)) |}.

(** A [Metadata] with name, version and summary only; the class
    attribute [metadata_version] is ["1.2"]. *)
Definition md_minimal : Metadata.t :=
  {| Metadata.name := Some "flit"; Metadata.version := Some "0.13";
     Metadata.author_email := None; Metadata.summary := Some "A tool";
     Metadata.home_page := None; Metadata.author := None;
     Metadata.maintainer := None; Metadata.maintainer_email := None;
     Metadata.license := None; Metadata.description := None;
     Metadata.keywords := None; Metadata.download_url := None;
     Metadata.requires_python := None; Metadata.platform := [];
     Metadata.supported_platform := []; Metadata.classifiers := [];
     Metadata.provides := ["flit"]; Metadata.requires := [];
     Metadata.obsoletes := []; Metadata.project_urls := [];
     Metadata.provides_dist := []; Metadata.requires_dist := [];
     Metadata.obsoletes_dist := []; Metadata.requires_external := [];
     Metadata.metadata_version := Some "1.2"; Metadata.dev_requires := [] |}.

(** Collaborators that all succeed: the sdist lands in [dist/] and
    unpacks to one directory. *)
Definition world_ok : Build.world unit unit :=
  {| Build.new_SdistBuilder := fun _ => Ok tt;
     Build.sdist_build := fun _ => Ok ["dist"; "pkg-1.0.tar.gz"];
     Build.tempdir := ["tmp"];
     Build.extract_and_list := fun _ _ => Ok ["pkg-1.0"];
     Build.make_wheel_in := fun _ _ => Ok tt;
     Build.wheel_main := fun _ => Ok tt |}.

(** The mapping of the specification's example, groups and names in
    two different insertion orders. *)
Definition entry_points_1 : dict (dict string) :=
  [("console_scripts", [("b", "pkg:b_func"); ("a", "pkg:a_func")]);
   ("other", [("z", "x:y")])].

Definition entry_points_2 : dict (dict string) :=
  [("other", [("z", "x:y")]);
   ("console_scripts", [("a", "pkg:a_func"); ("b", "pkg:b_func")])].

Import Assemble.

(** A module with statements that look like version assignments. *)
Definition env_versions : env :=
  {| source := fun _ =>
       Ok [Expr (Str "doc");
           AnnAssign (Name "__version__") (Name "str") (Some (Str "9"));
           Assign [Name "__version__"; Name "VERSION"] (Str "8");
           Assign [Name "__version__"] (Num 7);
           Assign [Name "__version__"] (Str "0.1");
           Assign [Attribute (Name "obj") "attr"] (Num 1);
           Assign [Name "__version__"] (Str "0.2")];
     cleandoc := fun s => s;
     load_module := fun _ _ => Ok ∅ |}.

(** Modules for the second half of [get_info_from_module]. *)
Definition env_good : env :=
  {| source := fun _ =>
       Ok [Expr (Str ("  Tool." ++ nl ++ "More"));
           Assign [Name "__version__"] (Str "1.0-beta")];
     cleandoc := fun s => s;
     load_module := fun _ _ => Ok ∅ |}.

Definition env_int_doc : env :=
  {| source := fun _ => Ok [];
     cleandoc := fun s => s;
     load_module := fun _ _ =>
       Ok (<["__doc__" := PyInt 5]> (<["__version__" := PyStr "1.0"]> ∅)) |}.

Definition env_no_version : env :=
  {| source := fun _ => Ok [Expr (Str "Doc")];
     cleandoc := fun s => s;
     load_module := fun _ _ => Ok (<["__doc__" := PyStr "Doc"]> ∅) |}.

(** Collaborators of [main] that go wrong. *)
Definition world_two_tops : Build.world unit unit :=
  {| Build.new_SdistBuilder := fun _ => Ok tt;
     Build.sdist_build := fun _ => Ok ["dist"; "pkg-1.0.tar.gz"];
     Build.tempdir := ["tmp"];
     Build.extract_and_list := fun _ _ => Ok ["pkg-1.0"; "stray"];
     Build.make_wheel_in := fun _ _ => Ok tt;
     Build.wheel_main := fun _ => Ok tt |}.

Definition world_sdist_fails : Build.world unit unit :=
  {| Build.new_SdistBuilder := fun _ => Ok tt;
     Build.sdist_build := fun _ => Err (Raise (OtherError "VCSError") []);
     Build.tempdir := ["tmp"];
     Build.extract_and_list := fun _ _ => Ok ["pkg-1.0"];
     Build.make_wheel_in := fun _ _ => Ok tt;
     Build.wheel_main := fun _ => Ok tt |}.

(** Dictionaries for [Metadata]. *)
Definition data_minimal : dict pyobj :=
  [("name", PyStr "flit"); ("version", PyStr "0.13");
   ("summary", PyStr "A tool"); ("author_email", PyStr "a@b.c");
   ("home_page", PyStr "https://x.y")].

(** An object model after CPython 3.6: the names of [dir(object())], and
    [__dict__], [__module__] and [__weakref__] that the class statement
    adds.  Assigning [__class__] a value that is no class, or [__dict__] a
    value that is no [dict], raises [TypeError]; [__weakref__] cannot be
    assigned; the other names can. *)
Definition plain_object : object_model :=
  {| object_hasattr := fun k =>
       in_names k
         [ "__class__"; "__delattr__"; "__dict__"; "__dir__"; "__doc__";
           "__eq__"; "__format__"; "__ge__"; "__getattribute__"; "__gt__";
           "__hash__"; "__init_subclass__"; "__le__"; "__lt__";
           "__module__"; "__ne__"; "__new__"; "__reduce__";
           "__reduce_ex__"; "__repr__"; "__setattr__"; "__sizeof__";
           "__str__"; "__subclasshook__"; "__weakref__" ];
     object_setattr := fun k _ =>
       if in_names k ["__class__"; "__dict__"]
       then Some (Raise (OtherError "TypeError") [])
       else if String.eqb k "__weakref__"
            then Some (Raise AttributeError [])
            else None |}.

Definition data_unknown : dict pyobj :=
  [("name", PyStr "flit"); ("version", PyStr "0.13");
   ("summary", PyStr "A tool"); ("author_email", PyStr "a@b.c");
   ("homepage", PyStr "https://x.y")].

Definition ini_example : ini_info :=
  {| ini_module := "mod";
     ini_metadata := [("author", PyStr "A. Hacker");
                      ("author_email", PyStr "a@b.c");
                      ("version", PyStr "2.0")] |}.

Definition ini_no_email : ini_info :=
  {| ini_module := "mod";
     ini_metadata := [("author", PyStr "A. Hacker")] |}.

(** What [Metadata] holds when built from the four keys that [__init__]
    pops and nothing else: the class defaults everywhere else. *)
Definition md_mandatory : Metadata.t :=
  {| Metadata.name := Some "flit"; Metadata.version := Some "0.13";
     Metadata.author_email := Some "a@b.c"; Metadata.summary := Some "A tool";
     Metadata.home_page := None; Metadata.author := None;
     Metadata.maintainer := None; Metadata.maintainer_email := None;
     Metadata.license := None; Metadata.description := None;
     Metadata.keywords := None; Metadata.download_url := None;
     Metadata.requires_python := None; Metadata.platform := [];
     Metadata.supported_platform := []; Metadata.classifiers := [];
     Metadata.provides := []; Metadata.requires := [];
     Metadata.obsoletes := []; Metadata.project_urls := [];
     Metadata.provides_dist := []; Metadata.requires_dist := [];
     Metadata.obsoletes_dist := []; Metadata.requires_external := [];
     Metadata.metadata_version := Some "1.2"; Metadata.dev_requires := [] |}.

(** Data with [__class__], which [plain_object] refuses to assign, before
    a key that nothing answers to. *)
Definition data_class_first : dict pyobj :=
  [("name", PyStr "flit"); ("version", PyStr "0.13");
   ("summary", PyStr "A tool"); ("author_email", PyStr "a@b.c");
   ("__class__", PyStr "x"); ("homepage", PyStr "https://x.y")].

End Examples.

(** * Properties *)

(** ** Permission bits *)

Section PermFacts.
Import Perm.

Lemma const_bit_high (c n : Z) :
  0 <= c < 512 -> 9 <= n -> Z.testbit c n = false.
Proof.
  intros Hc Hn. destruct (Z.eq_dec c 0) as [->|Hne].
  - apply Z.bits_0.
  - apply Z.bits_above_log2; [lia|].
    assert (Z.log2 c < 9); [|lia].
    apply Z.log2_lt_pow2; lia.
Qed.

Lemma low_index_cases (n : Z) :
  0 <= n < 9 ->
  n = 0 \/ n = 1 \/ n = 2 \/ n = 3 \/ n = 4 \/ n = 5 \/ n = 6 \/ n = 7 \/ n = 8.
Proof. lia. Qed.

Ltac low_index n :=
  let H := fresh in
  assert (H : 0 <= n < 9) by lia;
  destruct (low_index_cases n H)
    as [->|[->|[->|[->|[->|[->|[->|[->| ->]]]]]]]].

Lemma owner_exec_land (m : Z) :
  Z.land m 64 = if owner_exec m then 64 else 0.
Proof.
  unfold owner_exec. apply Z.bits_inj'. intros n Hn.
  rewrite Z.land_spec.
  destruct (Z.eq_dec n 6) as [->|Hne].
  - destruct (Z.testbit m 6); reflexivity.
  - assert (H64 : Z.testbit 64 n = false)
      by (change 64 with (2 ^ 6); apply Z.pow2_bits_false; lia).
    rewrite H64, andb_false_r.
    destruct (Z.testbit m 6); [now rewrite H64 | now rewrite Z.bits_0].
Qed.

(** Bit by bit: below bit 9 the result is the constant chosen by the
    owner-execute bit, from bit 9 on it is the input. *)
Lemma normalize_bits (m n : Z) :
  0 <= n ->
  Z.testbit (normalize_file_permissions m) n =
  if Z.ltb n 9 then Z.testbit (if owner_exec m then 493 else 420) n
  else Z.testbit m n.
Proof.
  intros Hn. unfold normalize_file_permissions.
  rewrite owner_exec_land.
  destruct (Z.ltb_spec n 9) as [Hlt|Hge].
  - destruct (owner_exec m) eqn:E; cbn [Z.eqb];
      rewrite ?Z.lor_spec, Z.land_spec, Z.lor_spec, Z.lnot_spec by lia;
      low_index n; cbn;
      rewrite ?andb_true_r, ?andb_false_r, ?orb_true_r, ?orb_false_r;
      try reflexivity.
    all: unfold owner_exec in E; rewrite E; reflexivity.
  - destruct (owner_exec m) eqn:E; cbn [Z.eqb];
      rewrite ?Z.lor_spec, Z.land_spec, Z.lor_spec, Z.lnot_spec by lia;
      rewrite ?(const_bit_high 420 n), ?(const_bit_high 91 n),
        ?(const_bit_high 73 n) by lia;
      cbn; rewrite ?andb_true_r, ?orb_false_r; reflexivity.
Qed.

Lemma owner_exec_normalize (m : Z) :
  owner_exec (normalize_file_permissions m) = owner_exec m.
Proof.
  unfold owner_exec at 1. rewrite normalize_bits by lia.
  destruct (owner_exec m); reflexivity.
Qed.

(** C1, as stated, fails: a regular file's [st_mode] 0o100644 = 33188
    comes back unchanged, which is neither 0o644 = 420 nor 0o755 = 493. *)
Lemma normalize_keeps_file_type_bits :
  normalize_file_permissions 33188 = 33188 /\
  ~ (normalize_file_permissions 33188 = 420 \/
     normalize_file_permissions 33188 = 493).
Proof. split; [reflexivity|]. intros [H|H]; discriminate H. Qed.

(** C1, amended: for every raw [st_mode] the nine permission bits of the
    result are exactly 0o644 when the owner-execute bit of the input is
    clear and exactly 0o755 when it is set, whatever the other input bits
    are, and the bits above the permission bits are those of the input. *)
Theorem normalize_permission_bits (st_mode : Z) :
  perm_bits (normalize_file_permissions st_mode)
  = (if owner_exec st_mode then 493 else 420)
  /\ high_bits (normalize_file_permissions st_mode) = high_bits st_mode.
Proof.
  split.
  - unfold perm_bits. apply Z.bits_inj'. intros n Hn.
    rewrite Z.land_spec, normalize_bits by lia.
    destruct (Z.ltb_spec n 9) as [Hlt|Hge].
    + replace (Z.testbit 511 n) with true; [apply andb_true_r|].
      low_index n; reflexivity.
    + rewrite (const_bit_high 511 n), andb_false_r by lia.
      destruct (owner_exec st_mode); symmetry; apply const_bit_high; lia.
  - unfold high_bits. apply Z.bits_inj'. intros n Hn.
    rewrite !Z.shiftr_spec, normalize_bits by lia.
    destruct (Z.ltb_spec (n + 9) 9); [lia | reflexivity].
Qed.

(** C9: [normalize_file_permissions] is idempotent on every [st_mode]. *)
Theorem normalize_idempotent (st_mode : Z) :
  normalize_file_permissions (normalize_file_permissions st_mode)
  = normalize_file_permissions st_mode.
Proof.
  apply Z.bits_inj'. intros n Hn.
  rewrite (normalize_bits (normalize_file_permissions st_mode)) by lia.
  rewrite owner_exec_normalize, (normalize_bits st_mode n) by lia.
  destruct (Z.ltb n 9); reflexivity.
Qed.

End PermFacts.

(** ** The module under build *)

Section ModuleFacts.
Import Py Str Common Examples.
Local Open Scope string_scope.

(** C8: with [pkg_dir = Path(directory, name)] and
    [py_file = Path(directory, name + '.py')], constructing a [Module]
    raises [ValueError] when both exist and when neither exists; when only
    the directory exists the module is a package whose [file] is
    [pkg_dir / '__init__.py'], and when only the file exists it is not a
    package and its [file] is [py_file]. *)
Theorem module_init_exactly_one (fs : filesystem) (name : string)
    (directory : Path) :
  let pkg_dir := path_div directory name in
  let py_file := path_div directory (name ++ ".py") in
  (is_dir fs pkg_dir = true -> is_file fs py_file = true ->
     ModuleCls.init fs name directory
     = Err (Raise ValueError [APath pkg_dir; APath py_file]))
  /\ (is_dir fs pkg_dir = false -> is_file fs py_file = false ->
     ModuleCls.init fs name directory = Err (Raise ValueError [AStr name]))
  /\ (is_dir fs pkg_dir = true -> is_file fs py_file = false ->
     exists m, ModuleCls.init fs name directory = Ok m
               /\ ModuleCls.name m = name
               /\ ModuleCls.is_package m = true
               /\ ModuleCls.file m = path_div pkg_dir "__init__.py")
  /\ (is_dir fs pkg_dir = false -> is_file fs py_file = true ->
     exists m, ModuleCls.init fs name directory = Ok m
               /\ ModuleCls.name m = name
               /\ ModuleCls.is_package m = false
               /\ ModuleCls.file m = py_file).
Proof.
  intros pkg_dir py_file. unfold ModuleCls.init.
  fold pkg_dir. fold py_file.
  repeat split; intros Hd Hf; rewrite Hd, Hf; cbn; try reflexivity.
  - eexists; repeat split.
  - eexists; repeat split.
Qed.

Lemma module_init_exactly_one_witness :
  (exists m, ModuleCls.init fs_example "pkg" ["."] = Ok m
             /\ ModuleCls.name m = "pkg"
             /\ ModuleCls.is_package m = true
             /\ ModuleCls.file m = [".";  "pkg"; "__init__.py"])
  /\ (exists m, ModuleCls.init fs_example "mod" ["."] = Ok m
             /\ ModuleCls.name m = "mod"
             /\ ModuleCls.is_package m = false
             /\ ModuleCls.file m = ["."; "mod.py"])
  /\ ModuleCls.init fs_example "gone" ["."]
     = Err (Raise ValueError [AStr "gone"]).
Proof.
  split; [|split].
  - destruct (module_init_exactly_one fs_example "pkg" ["."])
      as (_ & _ & H & _).
    apply H; reflexivity.
  - destruct (module_init_exactly_one fs_example "mod" ["."])
      as (_ & _ & _ & H).
    apply H; reflexivity.
  - destruct (module_init_exactly_one fs_example "gone" ["."])
      as (_ & H & _).
    apply H; reflexivity.
Defined.

End ModuleFacts.

(** ** Static extraction *)

Section AstFacts.
Import Py Str Common Examples.
Local Open Scope string_scope.

Lemma scan_version_skips (pre rest : list stmt) :
  Forall (fun child => is_version_str child = Ok false) pre ->
  scan_version (pre ++ rest)%list = scan_version rest.
Proof.
  induction 1 as [|child pre Hc _ IH]; [reflexivity|].
  cbn [app scan_version]. rewrite Hc. exact IH.
Qed.

Lemma is_version_str_not_name (target value : expr) :
  (forall id, target <> Name id) ->
  is_version_str (Assign [target] value)
  = Err (Raise AttributeError [AStr "id"]).
Proof.
  intros Hn. destruct target; try reflexivity.
  exfalso. eapply Hn. reflexivity.
Qed.

(** C10: the static pass is not total.  Whenever the first top-level
    statement that the scan does not skip is a single-target assignment
    whose target is not a plain name, the pass ends in [AttributeError]
    (for the missing attribute [id]), after opening the file and before
    the docstring is looked at. *)
Theorem via_ast_attribute_error (E : env) (target : ModuleCls.t)
    (pre post : list stmt) (tgt value : expr) :
  source E (ModuleCls.file target)
  = Ok (pre ++ Assign [tgt] value :: post)%list ->
  Forall (fun child => is_version_str child = Ok false) pre ->
  (forall id, tgt <> Name id) ->
  get_docstring_and_version_via_ast E target
  = ([ParseSource (ModuleCls.file target)],
     Err (Raise AttributeError [AStr "id"])).
Proof.
  intros Hsrc Hpre Hn. unfold get_docstring_and_version_via_ast.
  rewrite Hsrc. unfold bind, emit, lift. cbn beta iota.
  rewrite scan_version_skips by exact Hpre.
  cbn [scan_version]. rewrite is_version_str_not_name by exact Hn.
  reflexivity.
Qed.

Lemma via_ast_attribute_error_witness :
  get_docstring_and_version_via_ast env_attr_target mod_py
  = ([ParseSource ["."; "mod.py"]], Err (Raise AttributeError [AStr "id"])).
Proof.
  apply (via_ast_attribute_error env_attr_target mod_py
           [Expr (Str "doc"); Import ["os"]]
           [Assign [Name "__version__"] (Str "1.0")]
           (Attribute (Name "obj") "attr") (Num 1)).
  - reflexivity.
  - repeat constructor.
  - intros id H. discriminate H.
Defined.

End AstFacts.

(** ** Events and outcomes of composed computations *)

Section MonadFacts.
Import Py.

Lemma trace_bind {A B} (m : M A) (k : A -> M B) :
  trace (bind m k)
  = (trace m ++ match outcome m with
                | Ok a => trace (k a)
                | Err _ => []
                end)%list.
Proof.
  destruct m as [t [a|e]]; cbn.
  - destruct (k a); reflexivity.
  - now rewrite app_nil_r.
Qed.

Lemma outcome_bind {A B} (m : M A) (k : A -> M B) :
  outcome (bind m k)
  = match outcome m with
    | Ok a => outcome (k a)
    | Err e => Err e
    end.
Proof.
  destruct m as [t [a|e]]; cbn; [destruct (k a)|]; reflexivity.
Qed.

Lemma bind_ret_l {A B} (a : A) (k : A -> M B) : bind (ret a) k = k a.
Proof. unfold bind, ret. destruct (k a); reflexivity. Qed.

Lemma bind_lift_ok {A B} (a : A) (k : A -> M B) : bind (lift (Ok a)) k = k a.
Proof. apply bind_ret_l. Qed.

Lemma bind_lift_err {A B} (e : exn) (k : A -> M B) :
  bind (lift (Err e)) k = ([], Err e).
Proof. reflexivity. Qed.

Lemma bind_emit {B} (e : event) (k : unit -> M B) :
  bind (emit e) k = (e :: trace (k tt), outcome (k tt)).
Proof. unfold bind, emit. destruct (k tt); reflexivity. Qed.

Lemma bind_raise {A B} c args (k : A -> M B) :
  bind (raise c args) k = raise c args.
Proof. reflexivity. Qed.

Lemma bind_ok {A B} (m : M A) (k : A -> M B) t a t' r :
  m = (t, Ok a) -> k a = (t', r) -> bind m k = ((t ++ t')%list, r).
Proof. intros -> H. unfold bind. now rewrite H. Qed.

Lemma for_each_write {A} (l : list A) (f : A -> string) :
  for_each l (fun x => emit (Write (f x)))
  = (List.map (fun x => Write (f x)) l, Ok tt).
Proof.
  induction l as [|x l IH]; [reflexivity|].
  cbn [for_each List.map]. rewrite bind_emit, IH. reflexivity.
Qed.

Lemma M_eta {A} (m : M A) : m = (trace m, outcome m).
Proof. destruct m; reflexivity. Qed.

End MonadFacts.

(** ** Version check *)

Section VersionFacts.
Import Py Str Common Examples.
Local Open Scope string_scope.

(** C3, as stated, fails on falsy values that are not strings: the
    integer 0 is not a string, yet [check_version] raises
    [NoVersionError] for it and not [InvalidVersion]. *)
Lemma check_version_zero_is_no_version :
  is_str (PyInt 0) = false
  /\ check_version (PyInt 0) = ([], Err (Raise NoVersionError []))
  /\ ~ raises (outcome (check_version (PyInt 0))) InvalidVersion.
Proof.
  split; [reflexivity|]. split; [reflexivity|].
  intros [args H]. discriminate H.
Qed.

(** C3, amended: [check_version] raises [NoVersionError] for every falsy
    version, which covers [None] and the empty string; raises
    [InvalidVersion] for a truthy version that is not a string, and for a
    string whose first character is not a digit; and for a string that
    starts with a digit it does not raise: it returns whether the version
    matches the canonical pattern and logs one warning exactly when it
    does not.  ["1.0.0"] is canonical with nothing logged, ["1.0-beta"]
    gives a warning and no exception, [42] and ["a1.0"] give
    [InvalidVersion]. *)
Theorem check_version_cases :
  (forall v, truthy v = false ->
     check_version v = ([], Err (Raise NoVersionError [])))
  /\ truthy PyNone = false /\ truthy (PyStr "") = false
  /\ (forall v, truthy v = true -> is_str v = false ->
     check_version v = ([], Err (Raise InvalidVersion [AObj v])))
  /\ (forall c s, char_isdigit c = false ->
     check_version (PyStr (String c s))
     = ([], Err (Raise InvalidVersion [AObj (PyStr (String c s))])))
  /\ (forall c s, char_isdigit c = true ->
     check_version (PyStr (String c s))
     = (if _is_canonical (String c s) then []
        else [Log WARNING [AStr (String c s)]],
        Ok (_is_canonical (String c s))))
  /\ check_version (PyStr "1.0.0") = ([], Ok true)
  /\ check_version (PyStr "1.0-beta")
     = ([Log WARNING [AStr "1.0-beta"]], Ok false)
  /\ check_version (PyInt 42) = ([], Err (Raise InvalidVersion [AObj (PyInt 42)]))
  /\ check_version (PyStr "a1.0")
     = ([], Err (Raise InvalidVersion [AObj (PyStr "a1.0")])).
Proof.
  repeat split.
  - intros v Hv. unfold check_version. now rewrite Hv.
  - intros v Hv Hs. unfold check_version. rewrite Hv. cbn.
    destruct v; try reflexivity. discriminate Hs.
  - intros c s Hc. unfold check_version. cbn [truthy String.eqb negb].
    now rewrite Hc.
  - intros c s Hc. unfold check_version. cbn [truthy String.eqb negb].
    rewrite Hc. cbn [negb].
    destruct (_is_canonical (String c s)); reflexivity.
Qed.

Lemma check_version_cases_witness :
  check_version (PyTuple [PyInt 1; PyInt 0])
  = ([], Err (Raise InvalidVersion [AObj (PyTuple [PyInt 1; PyInt 0])]))
  /\ check_version (PyBool false) = ([], Err (Raise NoVersionError []))
  /\ check_version (PyStr "-1")
     = ([], Err (Raise InvalidVersion [AObj (PyStr "-1")]))
  /\ check_version (PyStr "2.0rc1") = ([], Ok true).
Proof.
  destruct check_version_cases as (H1 & _ & _ & H2 & H3 & H4 & _).
  split; [|split; [|split]].
  - apply H2; reflexivity.
  - apply H1; reflexivity.
  - apply H3; reflexivity.
  - change "2.0rc1" with (String "2"%char ".0rc1").
    rewrite (H4 "2"%char ".0rc1") by reflexivity. reflexivity.
Defined.

Lemma check_version_trace (v : pyobj) (e : event) :
  In e (trace (check_version v)) -> exists s, e = Log WARNING [AStr s].
Proof.
  unfold check_version. destruct (truthy v); cbn; [|tauto].
  destruct v; cbn; try tauto.
  destruct s as [|c s]; cbn -[_is_canonical]; [tauto|].
  destruct (char_isdigit c); cbn -[_is_canonical]; [|tauto].
  destruct (_is_canonical (String c s)); cbn; [tauto|].
  intros [<-|[]]. eauto.
Qed.

End VersionFacts.

(** ** Extraction of docstring and version *)

Section ExtractFacts.
Import Py Str Common Examples.
Local Open Scope string_scope.

Lemma lstrip_all_space s : all_chars char_isspace s = true -> lstrip s = "".
Proof.
  induction s as [|c s IH]; [reflexivity|].
  cbn [all_chars lstrip]. intros [Hc Hs]%andb_prop. rewrite Hc. auto.
Qed.

Lemma strip_all_space s : all_chars char_isspace s = true -> strip s = "".
Proof. intros H. unfold strip. now rewrite lstrip_all_space. Qed.

Lemma via_ast_trace E t :
  trace (get_docstring_and_version_via_ast E t) = [ParseSource (ModuleCls.file t)].
Proof.
  unfold get_docstring_and_version_via_ast.
  rewrite bind_emit. cbn [trace fst]. f_equal.
  destruct (source E (ModuleCls.file t)) as [body|e]; [|reflexivity].
  rewrite bind_lift_ok.
  destruct (scan_version body); reflexivity.
Qed.

Lemma scan_version_str body v :
  scan_version body = Ok v -> v = PyNone \/ exists s, v = PyStr s.
Proof.
  induction body as [|child body IH]; cbn [scan_version].
  - intros [= <-]. now left.
  - destruct (is_version_str child) as [[|]|]; [|exact IH|discriminate].
    destruct child as [tg [ | s | | | | | | | ] | | | | ]; try discriminate.
    intros [= <-]. right. eauto.
Qed.

Lemma via_ast_outcome E t d v :
  outcome (get_docstring_and_version_via_ast E t) = Ok (d, v) ->
  exists body, source E (ModuleCls.file t) = Ok body
    /\ scan_version body = Ok v /\ d = get_docstring E body.
Proof.
  unfold get_docstring_and_version_via_ast.
  rewrite bind_emit. cbn [outcome snd].
  destruct (source E (ModuleCls.file t)) as [body|e]; [|discriminate].
  rewrite bind_lift_ok.
  destruct (scan_version body) as [v'|] eqn:Hs; [|discriminate].
  rewrite bind_lift_ok. cbn. intros [= <- <-]. exists body. auto.
Qed.

Lemma get_docstring_str E body :
  get_docstring E body = PyNone \/ exists s, get_docstring E body = PyStr s.
Proof.
  destruct body as [|[ | | [ | s | | | | | | | ] | | ] body]; cbn; eauto.
Qed.

Lemma falsy_str x :
  (x = PyNone \/ exists s, x = PyStr s) ->
  truthy x = false <-> empty_or_missing x.
Proof.
  unfold empty_or_missing.
  intros [->|[s ->]]; cbn.
  - tauto.
  - destruct s; cbn; split; intros H; try reflexivity; try discriminate; auto.
    destruct H as [H|H]; discriminate.
Qed.

Lemma via_import_trace E t :
  trace (get_docstring_and_version_via_import E t)
  = [Log DEBUG [APath (ModuleCls.file t)];
     LoadModule (ModuleCls.name t) (ModuleCls.file t)].
Proof.
  unfold get_docstring_and_version_via_import.
  rewrite !bind_emit. cbn [trace fst]. do 2 f_equal.
  destruct (load_module E _ _); reflexivity.
Qed.

Lemma extract_trace E t :
  trace (extract E t)
  = (ParseSource (ModuleCls.file t) ::
     match outcome (get_docstring_and_version_via_ast E t) with
     | Ok (d, v) =>
         if truthy d && truthy v then []
         else [Log DEBUG [APath (ModuleCls.file t)];
               LoadModule (ModuleCls.name t) (ModuleCls.file t)]
     | Err _ => []
     end).
Proof.
  unfold extract. rewrite trace_bind, via_ast_trace. cbn [app]. f_equal.
  destruct (outcome (get_docstring_and_version_via_ast E t)) as [[d v]|]; [|reflexivity].
  destruct (truthy d && truthy v); cbn [negb]; [reflexivity|].
  apply via_import_trace.
Qed.

Lemma get_info_trace E t :
  exists rest,
    trace (get_info_from_module E t)
    = (Log DEBUG [APath (ModuleCls.file t)] :: trace (extract E t) ++ rest)%list
    /\ forall e, In e rest -> exists s, e = Log WARNING [AStr s].
Proof.
  unfold get_info_from_module. rewrite bind_emit. cbn [trace fst].
  rewrite trace_bind.
  destruct (outcome (extract E t)) as [[d v]|].
  2:{ exists []. split; [now rewrite app_nil_r|]. intros ev []. }
  eexists. split; [reflexivity|].
  intros ev. rewrite trace_bind.
  set (b := (if negb (truthy d) then ret true else _)).
  assert (Hb : trace b = []).
  { subst b. destruct (truthy d); cbn [negb]; [|reflexivity].
    destruct (py_strip d); reflexivity. }
  rewrite Hb. cbn [app].
  destruct (outcome b) as [[|]|]; cbn; try tauto.
  rewrite trace_bind. intros [H|H]%in_app_or.
  - now apply check_version_trace in H.
  - destruct (outcome (check_version v)); cbn in H; [|tauto].
    destruct (py_lstrip d) as [st|]; cbn in H; [|tauto].
    destruct (splitlines st); cbn in H; tauto.
Qed.

Lemma via_ast_shapes E t d v :
  outcome (get_docstring_and_version_via_ast E t) = Ok (d, v) ->
  (d = PyNone \/ exists s, d = PyStr s) /\ (v = PyNone \/ exists s, v = PyStr s).
Proof.
  intros (body & _ & Hv & ->)%via_ast_outcome. split.
  - apply get_docstring_str.
  - eapply scan_version_str, Hv.
Qed.

Lemma get_info_blank E t d v :
  outcome (extract E t) = Ok (d, v) -> blank_docstring d ->
  outcome (get_info_from_module E t) = Err (Raise NoDocstringError []).
Proof.
  intros He Hb. unfold get_info_from_module.
  rewrite bind_emit. cbn [outcome snd]. rewrite outcome_bind, He.
  destruct Hb as [->|(s & -> & Hs)]; [reflexivity|].
  cbn [truthy]. destruct s as [|c s]; [reflexivity|].
  cbn [String.eqb negb py_strip]. rewrite bind_lift_ok, bind_ret_l.
  rewrite strip_all_space by exact Hs. reflexivity.
Qed.

(** C4: [get_info_from_module] opens with the static pass (after its
    debug line, the first event is the parse of the file); it loads the
    module if and only if the static pass returned a docstring or a
    version that is missing or empty; the docstring and version it goes
    on with ([extract]) are those of the static pass when both are
    non-empty and those of the import otherwise; and when that docstring
    is missing, empty or white space only, it raises
    [NoDocstringError]. *)
Theorem get_info_static_then_fallback (E : env) (t : ModuleCls.t) :
  (exists rest,
     trace (get_info_from_module E t)
     = Log DEBUG [APath (ModuleCls.file t)]
       :: ParseSource (ModuleCls.file t) :: rest)
  /\ (In (LoadModule (ModuleCls.name t) (ModuleCls.file t))
         (trace (get_info_from_module E t))
      <-> exists d v,
            outcome (get_docstring_and_version_via_ast E t) = Ok (d, v)
            /\ (empty_or_missing d \/ empty_or_missing v))
  /\ outcome (extract E t)
     = match outcome (get_docstring_and_version_via_ast E t) with
       | Ok (d, v) =>
           if truthy d && truthy v then Ok (d, v)
           else outcome (get_docstring_and_version_via_import E t)
       | Err e => Err e
       end
  /\ (forall d v,
        outcome (extract E t) = Ok (d, v) -> blank_docstring d ->
        outcome (get_info_from_module E t)
        = Err (Raise NoDocstringError [])).
Proof.
  destruct (get_info_trace E t) as (rest & Htr & Hrest).
  rewrite extract_trace in Htr.
  split; [|split; [|split]].
  - rewrite Htr. cbn [app]. eauto.
  - rewrite Htr. clear Htr. split.
    + intros [H|[H|H]]; [discriminate H|discriminate H|].
      apply in_app_or in H as [H|H].
      2:{ apply Hrest in H as [s H]. discriminate H. }
      destruct (outcome (get_docstring_and_version_via_ast E t))
        as [[d v]|] eqn:Ho; [|destruct H].
      exists d, v. split; [reflexivity|].
      destruct (via_ast_shapes E t d v Ho) as [Hd Hv].
      destruct (truthy d) eqn:Td.
      * destruct (truthy v) eqn:Tv; [destruct H|].
        right. now apply falsy_str.
      * left. now apply falsy_str.
    + intros (d & v & Ho & Hf). rewrite Ho.
      destruct (via_ast_shapes E t d v Ho) as [Hd Hv].
      assert (Hc : truthy d && truthy v = false).
      { destruct Hf as [Hf|Hf]; apply falsy_str in Hf; try assumption;
        rewrite Hf; [reflexivity | apply andb_false_r]. }
      rewrite Hc. cbn. tauto.
  - unfold extract. rewrite outcome_bind.
    destruct (outcome (get_docstring_and_version_via_ast E t))
      as [[d v]|]; [|reflexivity].
    destruct (truthy d && truthy v); reflexivity.
  - apply get_info_blank.
Qed.

Lemma get_info_static_then_fallback_witness :
  In (LoadModule "mod" ["."; "mod.py"])
     (trace (get_info_from_module env_blank_doc mod_py))
  /\ outcome (get_info_from_module env_blank_doc mod_py)
     = Err (Raise NoDocstringError []).
Proof.
  destruct (get_info_static_then_fallback env_blank_doc mod_py)
    as (_ & Hload & _ & Hblank).
  split.
  - apply Hload. exists PyNone, PyNone. split; [reflexivity|].
    left. left. reflexivity.
  - apply (Hblank (PyStr ("  " ++ nl)) (PyStr "1.0")).
    + vm_compute. reflexivity.
    + right. eexists. split; reflexivity.
Defined.

End ExtractFacts.

(** ** Entry points *)

Section EntryPointFacts.
Import Py Str Common Examples.
Local Open Scope string_scope.

Lemma append_cons c s1 s2 : String c s1 ++ s2 = String c (s1 ++ s2).
Proof. reflexivity. Qed.

Lemma append_nil_l s : "" ++ s = s.
Proof. reflexivity. Qed.

Lemma contains_app sep s1 s2 :
  contains sep (s1 ++ s2) = contains sep s1 || contains sep s2.
Proof.
  induction s1 as [|c s1 IH]; [reflexivity|].
  rewrite append_cons. cbn. now rewrite IH, orb_assoc.
Qed.

Lemma split_nonempty sep s : split sep s <> [].
Proof.
  destruct s as [|c s]; cbn; [discriminate|].
  destruct (Ascii.eqb c sep); [discriminate|].
  destruct (split sep s); discriminate.
Qed.

Lemma split_no_sep sep s : contains sep s = false -> split sep s = [s].
Proof.
  induction s as [|c s IH]; [reflexivity|].
  cbn. intros [Hc Hs]%orb_false_elim. rewrite Hc, IH by exact Hs. reflexivity.
Qed.

Lemma split_app sep s1 s2 :
  contains sep s1 = false ->
  split sep (s1 ++ String sep s2) = s1 :: split sep s2.
Proof.
  induction s1 as [|c s1 IH]; rewrite ?append_cons, ?append_nil_l; cbn.
  - intros _. now rewrite Ascii.eqb_refl.
  - intros [Hc Hs]%orb_false_elim. rewrite Hc, IH by exact Hs. reflexivity.
Qed.

Lemma length_split sep s : length (split sep s) = S (count sep s).
Proof.
  induction s as [|c s IH]; [reflexivity|].
  cbn. destruct (Ascii.eqb c sep); cbn; [now rewrite IH|].
  destruct (split sep s) eqn:E; [now apply split_nonempty in E|].
  cbn in *. exact IH.
Qed.

Lemma contains_count sep s : contains sep s = negb (Nat.eqb (count sep s) 0).
Proof.
  induction s as [|c s IH]; [reflexivity|].
  cbn. destruct (Ascii.eqb c sep); [reflexivity|exact IH].
Qed.

Lemma split_pieces sep s :
  Forall (fun piece => contains sep piece = false) (split sep s).
Proof.
  induction s as [|c s IH]; cbn.
  - repeat constructor.
  - destruct (Ascii.eqb c sep) eqn:Hc; [constructor; [reflexivity|exact IH]|].
    destruct (split sep s) as [|p ps]; [repeat constructor; cbn; now rewrite Hc|].
    inversion IH; subst. constructor; [cbn; now rewrite Hc|assumption].
Qed.

Lemma concat_two sep x y l :
  String.concat sep (x :: y :: l) = x ++ sep ++ String.concat sep (y :: l).
Proof. reflexivity. Qed.

Lemma join_split sep s : String.concat (String sep "") (split sep s) = s.
Proof.
  induction s as [|c s IH]; [reflexivity|].
  cbn [split].
  destruct (split sep s) as [|p ps] eqn:E; [now apply split_nonempty in E|].
  destruct (Ascii.eqb_spec c sep) as [->|Hne].
  - rewrite concat_two, IH. reflexivity.
  - destruct ps as [|q ps].
    + cbn in *. now rewrite IH.
    + rewrite concat_two in *. rewrite append_cons. now rewrite IH.
Qed.

Lemma split_two sep s a b :
  split sep s = [a; b] ->
  s = a ++ String sep b /\ contains sep a = false /\ contains sep b = false.
Proof.
  intros H. pose proof (join_split sep s) as J. pose proof (split_pieces sep s) as P.
  rewrite H in J, P. cbn in J. inversion P as [|? ? Ha P']; subst.
  inversion P' as [|? ? Hb _]; subst. auto.
Qed.

Lemma find_none_forall (l : list string) :
  List.find (fun piece => negb (isidentifier piece)) l = None
  <-> Forall (fun piece => isidentifier piece = true) l.
Proof.
  induction l as [|p l IH]; cbn.
  - split; [constructor|reflexivity].
  - destruct (isidentifier p) eqn:Hp; cbn.
    + rewrite IH. split; [now constructor|now inversion 1].
    + split; [discriminate|]. inversion 1; congruence.
Qed.

Lemma parse_split (m f : string) :
  contains ":" m = false -> contains ":" f = false ->
  parse_entry_point (m ++ ":" ++ f)
  = if negb (isidentifier f) then Err (Raise ValueError [AStr f])
    else match List.find (fun piece => negb (isidentifier piece))
                         (split "." m) with
         | Some piece => Err (Raise ValueError [AStr piece])
         | None => Ok (m, f)
         end.
Proof.
  intros Hm Hf. unfold parse_entry_point.
  change (":" ++ f) with (String ":"%char f).
  rewrite contains_app. cbn [contains].
  rewrite Ascii.eqb_refl. cbn [orb]. rewrite orb_true_r. cbn [negb]. rewrite split_app, (split_no_sep ":" f) by assumption.
  reflexivity.
Qed.

Lemma parse_ok_inv (ep m f : string) :
  parse_entry_point ep = Ok (m, f) ->
  split ":" ep = [m; f] /\ isidentifier f = true
  /\ Forall (fun piece => isidentifier piece = true) (split "." m).
Proof.
  unfold parse_entry_point.
  destruct (contains ":" ep); cbn [negb]; [|discriminate].
  destruct (split ":" ep) as [|a [|b [|c l]]]; try discriminate.
  destruct (isidentifier b) eqn:Hb; cbn [negb]; [|discriminate].
  destruct (List.find _ (split "." a)) eqn:Hfind; [discriminate|].
  intros [= <- <-]. repeat split; [assumption|]. now apply find_none_forall.
Qed.

(** C6: [parse_entry_point] returns [(mod, func)] for every string
    [mod:func] with a single colon in which [func] and every dot-separated
    piece of [mod] are identifiers; it raises [ValueError] when there is
    no colon, when [func] is not an identifier, and when some piece of
    [mod] is not an identifier.  More than one colon is a [ValueError]
    too, so that a returned pair always comes from such a string. *)
Theorem parse_entry_point_spec :
  (forall m f,
     contains ":" m = false -> contains ":" f = false ->
     isidentifier f = true ->
     Forall (fun piece => isidentifier piece = true) (split "." m) ->
     parse_entry_point (m ++ ":" ++ f) = Ok (m, f))
  /\ (forall ep, count ":" ep = 1%nat ->
        exists m f, ep = m ++ ":" ++ f
                    /\ contains ":" m = false /\ contains ":" f = false)
  /\ (forall ep, contains ":" ep = false ->
        parse_entry_point ep = Err (Raise ValueError [AStr ep]))
  /\ (forall m f,
        contains ":" m = false -> contains ":" f = false ->
        isidentifier f = false ->
        parse_entry_point (m ++ ":" ++ f) = Err (Raise ValueError [AStr f]))
  /\ (forall m f,
        contains ":" m = false -> contains ":" f = false ->
        Exists (fun piece => isidentifier piece = false) (split "." m) ->
        raises (parse_entry_point (m ++ ":" ++ f)) ValueError)
  /\ (forall ep, count ":" ep <> 1%nat ->
        raises (parse_entry_point ep) ValueError)
  /\ (forall ep m f,
        parse_entry_point ep = Ok (m, f) ->
        ep = m ++ ":" ++ f /\ count ":" ep = 1%nat
        /\ isidentifier f = true
        /\ Forall (fun piece => isidentifier piece = true) (split "." m))
  /\ parse_entry_point "pkg.sub:run" = Ok ("pkg.sub", "run")
  /\ raises (parse_entry_point "pkg.sub.run") ValueError
  /\ raises (parse_entry_point "pkg:1bad") ValueError.
Proof.
  split; [|split; [|split; [|split; [|split; [|split; [|split; [|split; [|split]]]]]]]].
  - intros m f Hm Hf Hid Hall. rewrite parse_split, Hid by assumption.
    cbn [negb]. apply find_none_forall in Hall. now rewrite Hall.
  - intros ep Hc. pose proof (length_split ":" ep) as Hl. rewrite Hc in Hl.
    destruct (split ":" ep) as [|a [|b [|c l]]] eqn:Hs; try discriminate Hl.
    apply split_two in Hs as (-> & Ha & Hb). exists a, b. auto.
  - intros ep Hc. unfold parse_entry_point. now rewrite Hc.
  - intros m f Hm Hf Hid. rewrite parse_split, Hid by assumption. reflexivity.
  - intros m f Hm Hf Hex. rewrite parse_split by assumption.
    destruct (isidentifier f); cbn [negb]; [|eexists; reflexivity].
    destruct (List.find _ (split "." m)) eqn:Hfind; [eexists; reflexivity|].
    apply find_none_forall in Hfind. exfalso.
    apply Exists_exists in Hex as (p & Hin & Hp).
    rewrite Forall_forall in Hfind. specialize (Hfind p Hin). congruence.
  - intros ep Hc. unfold parse_entry_point.
    rewrite contains_count. pose proof (length_split ":" ep) as Hl.
    destruct (count ":" ep) as [|[|n]]; [eexists; reflexivity|congruence|].
    cbn [Nat.eqb negb].
    destruct (split ":" ep) as [|a [|b [|c l]]]; try discriminate Hl;
      eexists; reflexivity.
  - intros ep m f (Hs & Hid & Hall)%parse_ok_inv.
    pose proof (length_split ":" ep) as Hl. rewrite Hs in Hl.
    apply split_two in Hs as (-> & _ & _).
    repeat split; try assumption. cbn in Hl. congruence.
  - reflexivity.
  - eexists; reflexivity.
  - eexists; reflexivity.
Qed.

Lemma parse_entry_point_spec_witness :
  parse_entry_point ("flit.build" ++ ":" ++ "main") = Ok ("flit.build", "main")
  /\ raises (parse_entry_point ("flit..build" ++ ":" ++ "main")) ValueError
  /\ raises (parse_entry_point "a:b:c") ValueError.
Proof.
  destruct parse_entry_point_spec as (H1 & _ & _ & _ & H5 & H6 & _).
  split; [|split].
  - apply H1; try reflexivity. repeat constructor.
  - apply H5; try reflexivity. apply Exists_cons_tl, Exists_cons_hd. reflexivity.
  - apply H6. cbn. lia.
Defined.

End EntryPointFacts.

(** ** The pattern matcher *)

Section RegexFacts.
Import Py Str Common.
Local Open Scope string_scope.

Lemma append_eq_nil s1 s2 : s1 ++ s2 = "" -> s1 = "" /\ s2 = "".
Proof. destruct s1; [auto|discriminate]. Qed.

Lemma append_eq_cons s1 s2 c s :
  s1 ++ s2 = String c s ->
  (s1 = "" /\ s2 = String c s) \/ (exists s1', s1 = String c s1' /\ s = s1' ++ s2).
Proof.
  destruct s1 as [|c1 s1]; [auto|].
  rewrite append_cons. intros [= -> <-]. right. eauto.
Qed.

Lemma matches_void_inv s : ~ matches Void s.
Proof. inversion 1. Qed.

Lemma matches_eps_inv s : matches Eps s -> s = "".
Proof. now inversion 1. Qed.

Lemma matches_class_inv p s :
  matches (Class p) s -> exists c, s = String c "" /\ p c = true.
Proof. inversion 1; subst. eauto. Qed.

Lemma matches_cat_inv r1 r2 s :
  matches (Cat r1 r2) s ->
  exists s1 s2, s = s1 ++ s2 /\ matches r1 s1 /\ matches r2 s2.
Proof. inversion 1; subst. eauto. Qed.

Lemma matches_alt_inv r1 r2 s :
  matches (Alt r1 r2) s -> matches r1 s \/ matches r2 s.
Proof. inversion 1; subst; auto. Qed.

Lemma matches_star_inv r s :
  matches (Star r) s ->
  s = "" \/ exists c s1 s2, s = String c (s1 ++ s2)
                            /\ matches r (String c s1) /\ matches (Star r) s2.
Proof.
  intros H. remember (Star r) as r' eqn:Er.
  induction H as [| | | | |r0|r0 s1 s2 H1 _ H2 IH2]; try discriminate.
  - now left.
  - injection Er as ->. destruct s1 as [|c s1].
    + apply IH2. reflexivity.
    + right. exists c, s1, s2. auto.
Qed.

Lemma nullable_spec r : nullable r = true <-> matches r "".
Proof.
  induction r as [| |p|r1 IH1 r2 IH2|r1 IH1 r2 IH2|r IH]; cbn [nullable].
  - split; [discriminate|]. intros H. now apply matches_void_inv in H.
  - split; [constructor|reflexivity].
  - split; [discriminate|]. intros (c & H & _)%matches_class_inv. discriminate.
  - rewrite andb_true_iff, IH1, IH2. split.
    + intros [H1 H2]. change "" with ("" ++ ""). now constructor.
    + intros (s1 & s2 & He & H1 & H2)%matches_cat_inv.
      symmetry in He. apply append_eq_nil in He as [-> ->]. auto.
  - rewrite orb_true_iff, IH1, IH2. split.
    + intros [H|H]; [now apply m_alt_l|now apply m_alt_r].
    + apply matches_alt_inv.
  - split; [constructor|reflexivity].
Qed.

Lemma deriv_spec r c s : matches (deriv c r) s <-> matches r (String c s).
Proof.
  revert s. induction r as [| |p|r1 IH1 r2 IH2|r1 IH1 r2 IH2|r IH];
    intros s; cbn [deriv].
  - split; intros H; now apply matches_void_inv in H.
  - split; intros H; [now apply matches_void_inv in H|].
    apply matches_eps_inv in H. discriminate.
  - destruct (p c) eqn:Hp; split.
    + intros ->%matches_eps_inv. now constructor.
    + intros (c' & [= -> ->] & _)%matches_class_inv. constructor.
    + intros H. now apply matches_void_inv in H.
    + intros (c' & [= -> ->] & Hp')%matches_class_inv. congruence.
  - assert (Hcat : matches (Cat (deriv c r1) r2) s
                   <-> exists s1 s2, s = s1 ++ s2
                         /\ matches r1 (String c s1) /\ matches r2 s2).
    { split.
      - intros (s1 & s2 & -> & H1 & H2)%matches_cat_inv.
        exists s1, s2. rewrite <- IH1. auto.
      - intros (s1 & s2 & -> & H1 & H2). constructor; [now apply IH1|exact H2]. }
    assert (Hgoal : matches (Cat r1 r2) (String c s)
                    <-> (matches r1 "" /\ matches r2 (String c s))
                        \/ exists s1 s2, s = s1 ++ s2
                             /\ matches r1 (String c s1) /\ matches r2 s2).
    { split.
      - intros (s1 & s2 & He & H1 & H2)%matches_cat_inv.
        symmetry in He. apply append_eq_cons in He as [[-> ->]|(s1' & -> & ->)].
        + now left.
        + right. eauto.
      - intros [[H1 H2]|(s1 & s2 & -> & H1 & H2)].
        + change (String c s) with ("" ++ String c s). now constructor.
        + rewrite <- append_cons. now constructor. }
    rewrite Hgoal. destruct (nullable r1) eqn:Hn.
    + split.
      * intros [H|H]%matches_alt_inv.
        -- right. now apply Hcat.
        -- left. split; [now apply nullable_spec|now apply IH2].
      * intros [[_ H2]|H]; [apply m_alt_r; now apply IH2|].
        apply m_alt_l. now apply Hcat.
    + rewrite Hcat. split; [auto|]. intros [[H1 _]|H]; [|exact H].
      apply nullable_spec in H1. congruence.
  - split.
    + intros [H|H]%matches_alt_inv; [apply m_alt_l; now apply IH1|apply m_alt_r; now apply IH2].
    + intros [H|H]%matches_alt_inv; [apply m_alt_l; now apply IH1|apply m_alt_r; now apply IH2].
  - split.
    + intros (s1 & s2 & -> & H1 & H2)%matches_cat_inv.
      rewrite <- append_cons. constructor; [now apply IH|exact H2].
    + intros [H|(c' & s1 & s2 & [= -> ->] & H1 & H2)]%matches_star_inv;
        [discriminate|].
      constructor; [now apply IH|exact H2].
Qed.

(** The matcher decides the denotation: [fullmatch] is a faithful reading
    of the pattern. *)
Theorem fullmatch_spec r s : fullmatch r s = true <-> matches r s.
Proof.
  revert r. induction s as [|c s IH]; intros r; cbn [fullmatch].
  - apply nullable_spec.
  - rewrite IH. apply deriv_spec.
Qed.

End RegexFacts.

(** ** The metadata record *)

Section MetadataFacts.
Import Py Str Common Examples.
Local Open Scope string_scope.

Lemma or_unknown_line field value :
  field ++ ": " ++ Metadata.or_unknown value ++ nl
  = Metadata.mandatory_line field value.
Proof.
  unfold Metadata.mandatory_line. destruct value as [[|c v]|]; reflexivity.
Qed.

Lemma write_mandatory (self : Metadata.t) :
  for_each Metadata.fields (fun field =>
    let* value := lift (Metadata.getattr self (Metadata._normalise_name field)) in
    emit (Write (field ++ ": " ++ Metadata.or_unknown value ++ nl)))
  = (List.map Write (Metadata.mandatory_block self), Ok tt).
Proof.
  unfold Metadata.fields, Metadata.mandatory_block.
  rewrite <- !or_unknown_line. reflexivity.
Qed.

Lemma write_optional (self : Metadata.t) :
  for_each Metadata.optional_fields (fun field =>
    let* value := lift (Metadata.getattr self (Metadata._normalise_name field)) in
    match value with
    | Some v => emit (Write (field ++ ": " ++ v ++ nl))
    | None => ret tt
    end)
  = (List.map Write (Metadata.optional_block self), Ok tt).
Proof.
  unfold Metadata.optional_fields, Metadata.optional_block.
  cbv [for_each]. 
  repeat match goal with
  | |- context [Metadata.getattr self (Metadata._normalise_name ?f)] =>
      let v := eval vm_compute in (Metadata._normalise_name f) in
      change (Metadata._normalise_name f) with v
  end.
  cbv [Metadata.getattr]. cbn [String.eqb Ascii.eqb Bool.eqb].
  rewrite !bind_lift_ok.
  destruct (Metadata.keywords self), (Metadata.author self),
    (Metadata.author_email self), (Metadata.maintainer self),
    (Metadata.maintainer_email self), (Metadata.requires_python self);
    reflexivity.
Qed.


(** C5, as stated, fails for an instance with only the mandatory fields
    set: the constructor's mandatory fields are name, version,
    author_email and summary, and Author-email is among the optional
    fields of the record, so such an instance gets an optional-field line
    after the six mandatory ones. *)
Lemma write_metadata_file_author_email_line :
  Metadata.write_metadata_file md_mandatory
  = ([ Write ("Metadata-Version: 1.2" ++ nl); Write ("Name: flit" ++ nl);
       Write ("Version: 0.13" ++ nl); Write ("Summary: A tool" ++ nl);
       Write ("Home-page: UNKNOWN" ++ nl); Write ("License: UNKNOWN" ++ nl);
       Write ("Author-email: a@b.c" ++ nl) ],
     Ok tt)
  /\ In "Author-email" Metadata.optional_fields
  /\ ~ (forall chunk,
          In (Write chunk) (trace (Metadata.write_metadata_file md_mandatory))
          -> In chunk (Metadata.mandatory_block md_mandatory)).
Proof.
  split; [reflexivity|].
  split; [right; right; left; reflexivity|].
  intros H. specialize (H ("Author-email: a@b.c" ++ nl)).
  assert (Hin : In ("Author-email: a@b.c" ++ nl)
                  (Metadata.mandatory_block md_mandatory)).
  { apply H. do 6 right. left. reflexivity. }
  vm_compute in Hin.
  repeat (destruct Hin as [Hin|Hin]; [discriminate Hin|]).
  exact Hin.
Qed.

(** C5, amended: [write_metadata_file] writes, in this order and nothing
    else: the six mandatory lines Metadata-Version, Name, Version,
    Summary, Home-page, License, each always present and with [UNKNOWN]
    for an unset or empty value; a line for each of Keywords, Author,
    Author-email, Maintainer, Maintainer-email, Requires-Python that is
    set; a Classifier line per classifier; a Requires-Dist line per
    dependency; and, when there is a description, a blank line and the
    description.  An instance with only the constructor's mandatory
    fields set, which include author_email, gets [UNKNOWN] for Home-page
    and License, the Author-email line as its only optional-field line
    and no description block; with author_email [None] as well there is
    no optional-field line at all. *)
Theorem write_metadata_file_record (self : Metadata.t) :
  Metadata.write_metadata_file self
  = (List.map Write (Metadata.record_chunks self), Ok tt)
  /\ (Metadata.home_page self = None -> Metadata.license self = None ->
      Metadata.keywords self = None -> Metadata.author self = None ->
      Metadata.maintainer self = None ->
      Metadata.maintainer_email self = None ->
      Metadata.requires_python self = None ->
      Metadata.description self = None ->
      Metadata.record_chunks self
      = ([ Metadata.mandatory_line "Metadata-Version"
             (Metadata.metadata_version self);
           Metadata.mandatory_line "Name" (Metadata.name self);
           Metadata.mandatory_line "Version" (Metadata.version self);
           Metadata.mandatory_line "Summary" (Metadata.summary self);
           ("Home-page: UNKNOWN" ++ nl)%string;
           ("License: UNKNOWN" ++ nl)%string ]
         ++ match Metadata.author_email self with
            | Some e => [("Author-email: " ++ e ++ nl)%string]
            | None => []
            end
         ++ List.map Metadata.classifier_line (Metadata.classifiers self)
         ++ List.map Metadata.requires_dist_line
              (Metadata.requires_dist self))%list).
Proof.
  split.
  - unfold Metadata.write_metadata_file, Metadata.record_chunks.
    rewrite !List.map_app, !List.map_map.
    eapply bind_ok; [apply write_mandatory|].
    eapply bind_ok; [apply write_optional|].
    eapply bind_ok; [apply for_each_write|].
    eapply bind_ok; [apply for_each_write|].
    unfold Metadata.description_block.
    destruct (Metadata.description self); reflexivity.
  - intros Hh Hl Hk Ha Hm Hme Hr Hd.
    unfold Metadata.record_chunks, Metadata.optional_block,
      Metadata.mandatory_block, Metadata.description_block.
    rewrite Hh, Hl, Hk, Ha, Hm, Hme, Hr, Hd.
    cbn [Metadata.optional_line app]. rewrite !app_nil_r.
    destruct (Metadata.author_email self); reflexivity.
Qed.

Lemma write_metadata_file_record_witness :
  Metadata.write_metadata_file md_minimal
  = ([ Write ("Metadata-Version: 1.2" ++ nl); Write ("Name: flit" ++ nl);
       Write ("Version: 0.13" ++ nl); Write ("Summary: A tool" ++ nl);
       Write ("Home-page: UNKNOWN" ++ nl); Write ("License: UNKNOWN" ++ nl) ],
     Ok tt)
  /\ Metadata.record_chunks md_mandatory
     = [ "Metadata-Version: 1.2" ++ nl; "Name: flit" ++ nl;
         "Version: 0.13" ++ nl; "Summary: A tool" ++ nl;
         "Home-page: UNKNOWN" ++ nl; "License: UNKNOWN" ++ nl;
         "Author-email: a@b.c" ++ nl ].
Proof.
  split.
  - destruct (write_metadata_file_record md_minimal) as [Hw Hmin].
    rewrite Hw, Hmin by reflexivity. reflexivity.
  - destruct (write_metadata_file_record md_mandatory) as [_ Hmin].
    rewrite Hmin by reflexivity. reflexivity.
Defined.

End MetadataFacts.

(** ** Sorting and the entry points file *)

Section WriteEntryPointsFacts.
Import Py Str Common Examples.
Local Open Scope string_scope.

Lemma compare_cons c1 s1 c2 s2 :
  String.compare (String c1 s1) (String c2 s2)
  = match N.compare (N_of_ascii c1) (N_of_ascii c2) with
    | Eq => String.compare s1 s2
    | o => o
    end.
Proof. reflexivity. Qed.

Lemma str_le_trans a b c : str_le a b -> str_le b c -> str_le a c.
Proof.
  unfold str_le, String.leb. revert b c.
  induction a as [|x a IH]; intros [|y b] [|z c]; cbn [String.compare];
    try reflexivity; try discriminate.
  fold (String.compare a b) (String.compare b c) (String.compare a c).
  unfold Ascii.compare.
  destruct (N.compare_spec (N_of_ascii x) (N_of_ascii y)) as [Hxy|Hxy|Hxy];
    destruct (N.compare_spec (N_of_ascii y) (N_of_ascii z)) as [Hyz|Hyz|Hyz];
    destruct (N.compare_spec (N_of_ascii x) (N_of_ascii z)) as [Hxz|Hxz|Hxz];
    try reflexivity; try discriminate; try lia.
  apply IH.
Qed.

Lemma str_le_antisym a b : str_le a b -> str_le b a -> a = b.
Proof. apply String.leb_antisym. Qed.

Lemma str_le_total a b : str_le a b \/ str_le b a.
Proof. apply String.leb_total. Qed.

Lemma str_lt_le_neq a b : str_lt a b <-> str_le a b /\ a <> b.
Proof.
  unfold str_lt, str_le, String.ltb, String.leb.
  destruct (String.compare a b) eqn:E.
  - apply String.compare_eq_iff in E. subst. split; [discriminate|]. intros [_ H]. contradiction.
  - split; [|reflexivity]. intros _. split; [reflexivity|].
    intros ->. pose proof (String.compare_antisym b b) as H.
    rewrite E in H. discriminate H.
  - split; [discriminate|]. intros [H _]. discriminate.
Qed.

Lemma insert_sorted_perm x l : Permutation (insert_sorted x l) (x :: l).
Proof.
  induction l as [|y l IH]; cbn; [reflexivity|].
  destruct (String.leb x y); [reflexivity|].
  rewrite IH. apply perm_swap.
Qed.

Lemma sorted_perm l : Permutation (sorted l) l.
Proof.
  induction l as [|x l IH]; cbn; [reflexivity|].
  rewrite insert_sorted_perm. now constructor.
Qed.

Lemma insert_sorted_ascending x l :
  StronglySorted str_le l -> StronglySorted str_le (insert_sorted x l).
Proof.
  induction 1 as [|y l Hs IH Hy]; cbn.
  - repeat constructor.
  - destruct (String.leb x y) eqn:E.
    + constructor; [now constructor|].
      constructor; [exact E|].
      eapply List.Forall_impl; [|exact Hy]. intros z Hz. eapply str_le_trans; eassumption.
    + constructor; [exact IH|].
      rewrite insert_sorted_perm. constructor; [|exact Hy].
      destruct (str_le_total x y) as [H|H]; [unfold str_le in H; congruence|exact H].
Qed.

Lemma sorted_ascending l : StronglySorted str_le (sorted l).
Proof.
  induction l as [|x l IH]; cbn; [constructor|].
  now apply insert_sorted_ascending.
Qed.

Lemma ascending_unique l1 l2 :
  StronglySorted str_le l1 -> StronglySorted str_le l2 ->
  Permutation l1 l2 -> l1 = l2.
Proof.
  intros H1. revert l2.
  induction H1 as [|a l1 Hs1 IH Ha]; intros l2 H2 Hp.
  - apply Permutation_nil in Hp. now subst.
  - destruct H2 as [|b l2 Hs2 Hb].
    + apply Permutation_sym, Permutation_nil in Hp. discriminate.
    + assert (a = b) as ->.
      { assert (In a (b :: l2)) as [->|Hin]
          by (eapply Permutation_in; [exact Hp|now left]); [reflexivity|].
        assert (In b (a :: l1)) as [->|Hin']
          by (eapply Permutation_in; [symmetry; exact Hp|now left]); [reflexivity|].
        rewrite List.Forall_forall in Ha, Hb.
        apply str_le_antisym; auto. }
      f_equal. apply IH; [exact Hs2|]. eapply Permutation_cons_inv, Hp.
Qed.

Lemma sorted_unique l1 l2 : Permutation l1 l2 -> sorted l1 = sorted l2.
Proof.
  intros Hp. apply ascending_unique; try apply sorted_ascending.
  now rewrite !sorted_perm.
Qed.

Lemma ascending_strict l :
  StronglySorted str_le l -> NoDup l -> StronglySorted str_lt l.
Proof.
  induction 1 as [|a l Hs IH Ha]; [constructor|].
  intros Hnd. apply NoDup_cons in Hnd as [Hnotin Hnd].
  constructor; [now apply IH|].
  rewrite List.Forall_forall in *. intros y Hy. apply str_lt_le_neq.
  split; [now apply Ha|]. intros ->. now apply list_elem_of_In in Hy.
Qed.

Lemma sorted_strict l : NoDup l -> StronglySorted str_lt (sorted l).
Proof.
  intros Hnd. apply ascending_strict; [apply sorted_ascending|].
  now rewrite sorted_perm.
Qed.

Section DictFacts.
Context {V : Type}.
Implicit Types (d : dict V) (k : string) (v : V).

Lemma lookup_some_in d k v : dict_lookup d k = Some v -> In (k, v) d.
Proof.
  induction d as [|[k' v'] d IH]; cbn; [discriminate|].
  destruct (String.eqb_spec k' k) as [->|Hne].
  - intros [= ->]. now left.
  - intros H. right. auto.
Qed.

Lemma in_keys_lookup d k : In k (keys d) -> exists v, dict_lookup d k = Some v.
Proof.
  induction d as [|[k' v'] d IH]; cbn; [tauto|].
  destruct (String.eqb_spec k' k) as [->|Hne]; [eauto|].
  intros [H|H]; [contradiction|auto].
Qed.

Lemma lookup_some_keys d k v : dict_lookup d k = Some v -> In k (keys d).
Proof.
  intros H%lookup_some_in. unfold keys. apply in_map_iff. now exists (k, v).
Qed.

Lemma items_at_cons d k ks :
  items_at d (k :: ks)
  = (match dict_lookup d k with Some v => [(k, v)] | None => [] end
     ++ items_at d ks)%list.
Proof. reflexivity. Qed.

Lemma items_at_skip k v d ks :
  ~ In k ks -> items_at ((k, v) :: d) ks = items_at d ks.
Proof.
  induction ks as [|k' ks IH]; [reflexivity|].
  intros Hn. rewrite !items_at_cons. cbn [dict_lookup].
  destruct (String.eqb_spec k k') as [->|Hne]; [exfalso; apply Hn; now left|].
  f_equal. apply IH. intros H. apply Hn. now right.
Qed.

Lemma items_at_keys d : dict_wf d -> items_at d (keys d) = d.
Proof.
  unfold dict_wf. induction d as [|[k v] d IH]; [reflexivity|].
  cbn [keys List.map fst]. intros [Hk Hd]%NoDup_cons.
  rewrite items_at_cons. cbn [dict_lookup]. rewrite String.eqb_refl.
  cbn [app]. f_equal.
  rewrite items_at_skip; [now apply IH|].
  intros H. apply Hk. now apply list_elem_of_In.
Qed.

Lemma keys_items_at d ks :
  (forall k, In k ks -> In k (keys d)) -> keys (items_at d ks) = ks.
Proof.
  induction ks as [|k ks IH]; [reflexivity|].
  intros H. rewrite items_at_cons.
  destruct (in_keys_lookup d k) as [v ->]; [apply H; now left|].
  cbn. f_equal. apply IH. intros k' Hk'. apply H. now right.
Qed.

Lemma items_at_perm d ks ks' :
  Permutation ks ks' -> Permutation (items_at d ks) (items_at d ks').
Proof. intros H. unfold items_at. now apply Permutation_flat_map. Qed.

Lemma sorted_items_perm d : dict_wf d -> Permutation (sorted_items d) d.
Proof.
  intros Hwf. unfold sorted_items.
  rewrite (items_at_perm d _ _ (sorted_perm (keys d))).
  now rewrite items_at_keys.
Qed.

Lemma keys_sorted_items d : keys (sorted_items d) = sorted (keys d).
Proof.
  apply keys_items_at. intros k Hk.
  eapply Permutation_in; [apply sorted_perm|exact Hk].
Qed.

Lemma in_sorted_items d k v :
  In (k, v) (sorted_items d) -> dict_lookup d k = Some v.
Proof.
  unfold sorted_items, items_at. intros H.
  apply in_flat_map in H as (k' & _ & H).
  destruct (dict_lookup d k') as [v'|] eqn:E; [|destruct H].
  destruct H as [[= -> ->]|[]]. exact E.
Qed.

End DictFacts.

Lemma items_at_ext {V} (d1 d2 : dict V) ks :
  (forall k, In k ks -> dict_lookup d1 k = dict_lookup d2 k) ->
  items_at d1 ks = items_at d2 ks.
Proof.
  induction ks as [|k ks IH]; [reflexivity|].
  intros H. rewrite !items_at_cons, (H k) by now left.
  f_equal. apply IH. intros k' Hk'. apply H. now right.
Qed.

Lemma keys_perm_of_lookup {V W} (d1 : dict V) (d2 : dict W) :
  dict_wf d1 -> dict_wf d2 ->
  (forall k, is_Some (dict_lookup d1 k) <-> is_Some (dict_lookup d2 k)) ->
  Permutation (keys d1) (keys d2).
Proof.
  intros H1 H2 Hk. apply NoDup_Permutation; [exact H1|exact H2|].
  intros k. rewrite !list_elem_of_In. split; intros Hin.
  - apply in_keys_lookup in Hin as [v Hv].
    destruct (proj1 (Hk k)) as [w Hw]; [eauto|]. eapply lookup_some_keys, Hw.
  - apply in_keys_lookup in Hin as [v Hv].
    destruct (proj2 (Hk k)) as [w Hw]; [eauto|]. eapply lookup_some_keys, Hw.
Qed.

Lemma sorted_items_eq (g1 g2 : dict string) :
  dict_wf g1 -> dict_wf g2 -> dict_eq g1 g2 ->
  sorted_items g1 = sorted_items g2.
Proof.
  intros H1 H2 He. unfold sorted_items.
  rewrite (sorted_unique (keys g1) (keys g2)).
  - apply items_at_ext. intros k _. apply He.
  - apply keys_perm_of_lookup; try assumption. intros k. now rewrite He.
Qed.

Lemma groups_wf_lookup d g grp :
  groups_wf d -> dict_lookup d g = Some grp -> dict_wf grp.
Proof.
  intros [_ Hall] Hl%lookup_some_in.
  rewrite List.Forall_forall in Hall. apply (Hall (g, grp) Hl).
Qed.

Lemma sorted_groups_eq d1 d2 :
  groups_wf d1 -> groups_wf d2 -> groups_eq d1 d2 ->
  sorted_groups d1 = sorted_groups d2.
Proof.
  intros H1 H2 He. unfold sorted_groups, sorted_items.
  rewrite (sorted_unique (keys d1) (keys d2)).
  2:{ apply keys_perm_of_lookup; [apply H1|apply H2|].
      intros k. specialize (He k).
      destruct (dict_lookup d1 k), (dict_lookup d2 k); try tauto;
        split; intros [? ?]; discriminate || eauto. }
  induction (sorted (keys d2)) as [|k ks IH]; [reflexivity|].
  rewrite !items_at_cons, !List.map_app, IH. f_equal.
  specialize (He k).
  destruct (dict_lookup d1 k) as [g1|] eqn:E1,
           (dict_lookup d2 k) as [g2|] eqn:E2; try tauto.
  cbn. do 2 f_equal.
  apply sorted_items_eq;
    [exact (groups_wf_lookup d1 k g1 H1 E1)
    |exact (groups_wf_lookup d2 k g2 H2 E2)|exact He].
Qed.

Lemma write_entries (grp : dict string) ks :
  (forall n, In n ks -> In n (keys grp)) ->
  for_each ks (fun name =>
    let* val := lift (getitem grp name) in
    emit (Write (name ++ "=" ++ val ++ nl)))
  = (List.map Write (List.map entry_line (items_at grp ks)), Ok tt).
Proof.
  induction ks as [|n ks IH]; [reflexivity|].
  intros H. cbn [for_each]. rewrite items_at_cons. unfold getitem at 1.
  destruct (in_keys_lookup grp n) as [v Hv]; [apply H; now left|].
  rewrite Hv, bind_lift_ok. cbn [app List.map].
  rewrite bind_emit, IH by (intros; apply H; now right).
  reflexivity.
Qed.

Lemma write_groups (d : dict (dict string)) ks :
  (forall g, In g ks -> In g (keys d)) ->
  for_each ks (fun group_name =>
    let* _ := emit (Write ("[" ++ group_name ++ "]" ++ nl)) in
    let* group := lift (getitem d group_name) in
    let* _ := for_each (sorted (keys group)) (fun name =>
                let* val := lift (getitem group name) in
                emit (Write (name ++ "=" ++ val ++ nl))) in
    emit (Write nl))
  = (List.map Write
       (List.flat_map section_chunks
          (List.map (fun sec => (fst sec, sorted_items (snd sec)))
             (items_at d ks))), Ok tt).
Proof.
  induction ks as [|g ks IH]; [reflexivity|].
  intros H. cbn [for_each]. rewrite items_at_cons. unfold getitem at 1.
  destruct (in_keys_lookup d g) as [grp Hg]; [apply H; now left|].
  rewrite Hg. cbn [app List.map flat_map fst snd].
  rewrite List.map_app.
  eapply bind_ok; [|apply IH; intros; apply H; now right].
  rewrite bind_emit, bind_lift_ok.
  rewrite write_entries.
  2:{ intros n Hn. eapply Permutation_in; [apply sorted_perm|exact Hn]. }
  unfold section_chunks. cbn [fst snd List.map]. rewrite List.map_app.
  reflexivity.
Qed.

Lemma write_entry_points_chunks d :
  write_entry_points d
  = (List.map Write (List.flat_map section_chunks (sorted_groups d)), Ok tt).
Proof.
  unfold write_entry_points, sorted_groups, sorted_items.
  apply write_groups. intros g Hg.
  eapply Permutation_in; [apply sorted_perm|exact Hg].
Qed.

Lemma keys_sorted_groups d : keys (sorted_groups d) = sorted (keys d).
Proof.
  unfold sorted_groups, keys. rewrite List.map_map. cbn [fst].
  apply (keys_sorted_items d).
Qed.

(** C2: for every two-level mapping, [write_entry_points] writes one
    section per group, the groups ascending by name, and in each section
    one [name=value] line per entry of the group, ascending by name; two
    mappings that are equal as dictionaries, whatever their insertion
    orders, give the same writes and so the same bytes.  For the example
    mapping, [[console_scripts]] comes before [[other]] and [a=] before
    [b=]. *)
Theorem write_entry_points_sorted :
  (forall d, groups_wf d ->
     exists groups,
       write_entry_points d
       = (List.map Write (List.flat_map section_chunks groups), Ok tt)
       /\ Permutation (keys groups) (keys d)
       /\ StronglySorted str_lt (keys groups)
       /\ (forall g es, In (g, es) groups ->
             exists grp, dict_lookup d g = Some grp
                         /\ Permutation es grp
                         /\ StronglySorted str_lt (keys es)))
  /\ (forall d1 d2,
        groups_wf d1 -> groups_wf d2 -> groups_eq d1 d2 ->
        write_entry_points d1 = write_entry_points d2)
  /\ written (trace (write_entry_points entry_points_1))
     = "[console_scripts]" ++ nl ++ "a=pkg:a_func" ++ nl
       ++ "b=pkg:b_func" ++ nl ++ nl ++ "[other]" ++ nl ++ "z=x:y" ++ nl ++ nl
  /\ write_entry_points entry_points_2 = write_entry_points entry_points_1.
Proof.
  split; [|split; [|split]].
  - intros d Hwf. exists (sorted_groups d). split; [|split; [|split]].
    + apply write_entry_points_chunks.
    + rewrite keys_sorted_groups. apply sorted_perm.
    + rewrite keys_sorted_groups. apply sorted_strict, Hwf.
    + intros g es Hin. unfold sorted_groups in Hin.
      apply in_map_iff in Hin as ([g' grp] & [= -> <-] & Hin).
      apply in_sorted_items in Hin. cbn [snd].
      pose proof (groups_wf_lookup d g grp Hwf Hin) as Hg.
      exists grp. split; [exact Hin|]. split.
      * now apply sorted_items_perm.
      * rewrite keys_sorted_items. now apply sorted_strict.
  - intros d1 d2 H1 H2 He.
    now rewrite !write_entry_points_chunks, (sorted_groups_eq d1 d2).
  - reflexivity.
  - reflexivity.
Qed.

Lemma entry_points_1_wf : groups_wf entry_points_1.
Proof.
  split; [|repeat constructor];
    apply (bool_decide_eq_true_1 _); vm_compute; reflexivity.
Defined.

Lemma entry_points_2_wf : groups_wf entry_points_2.
Proof.
  split; [|repeat constructor];
    apply (bool_decide_eq_true_1 _); vm_compute; reflexivity.
Defined.

Lemma entry_points_1_2_eq : groups_eq entry_points_1 entry_points_2.
Proof.
  intros k. unfold entry_points_1, entry_points_2. cbn [dict_lookup].
  destruct (String.eqb_spec "console_scripts" k) as [<-|H1].
  - cbn. intros n. cbn [dict_lookup].
    destruct (String.eqb_spec "b" n) as [<-|Hb]; [reflexivity|].
    destruct (String.eqb_spec "a" n); reflexivity.
  - destruct (String.eqb_spec "other" k); [|exact I].
    intros n. reflexivity.
Defined.

Lemma write_entry_points_sorted_witness :
  (exists groups,
     write_entry_points entry_points_1
     = (List.map Write (List.flat_map section_chunks groups), Ok tt)
     /\ StronglySorted str_lt (keys groups))
  /\ write_entry_points entry_points_1 = write_entry_points entry_points_2.
Proof.
  destruct write_entry_points_sorted as (Hsorted & Hdet & _).
  split.
  - destruct (Hsorted entry_points_1 entry_points_1_wf)
      as (groups & Hw & _ & Hs & _).
    exists groups. split; assumption.
  - apply Hdet.
    + exact entry_points_1_wf.
    + exact entry_points_2_wf.
    + exact entry_points_1_2_eq.
Defined.

End WriteEntryPointsFacts.

(** ** The orchestrator *)

Section BuildFacts.
Import Py Build Examples.
Local Open Scope string_scope.
Context {SB WI : Type}.
Implicit Types (W : world SB WI) (ini : Path).

Lemma requested_accepted formats :
  accepted formats -> requested formats = ret (effective formats).
Proof.
  unfold accepted, requested, effective. destruct formats as [fs|]; [|reflexivity].
  destruct (decide (fs = ∅)); [reflexivity|].
  intros H. destruct (decide (fs ⊆ ALL_FORMATS)); [reflexivity|contradiction].
Qed.

Lemma requested_rejected (fs : gset string) :
  fs ≠ ∅ -> ¬ fs ⊆ ALL_FORMATS ->
  requested (Some fs) = raise ValueError [ASet (fs ∖ ALL_FORMATS)].
Proof.
  intros H1 H2. unfold requested.
  destruct (decide (fs = ∅)); [contradiction|].
  destruct (decide (fs ⊆ ALL_FORMATS)); [contradiction|reflexivity].
Qed.

Lemma effective_nonempty formats :
  accepted formats -> "sdist" ∈ effective formats \/ "wheel" ∈ effective formats.
Proof.
  unfold accepted, effective. destruct formats as [fs|].
  - destruct (decide (fs = ∅)) as [|Hne].
    + intros _. left. unfold ALL_FORMATS. set_solver.
    + intros Hsub. apply set_choose_L in Hne as [x Hx].
      pose proof (Hsub x Hx) as Hall. unfold ALL_FORMATS in Hall.
      apply elem_of_union in Hall as [Hw|Hs]; apply elem_of_singleton in Hw || apply elem_of_singleton in Hs; subst; auto.
  - intros _. left. unfold ALL_FORMATS. set_solver.
Qed.


Lemma outcome_finally {A} (m : M A) e : outcome (finally m e) = outcome m.
Proof. destruct m; reflexivity. Qed.

Lemma outcome_unpacked {A} W (p : Path) (body : Path -> M A) :
  outcome (unpacked_tarball W p body)
  = match extract_and_list W p (tempdir W) with
    | Ok [top] => outcome (body (path_div (tempdir W) top))
    | Ok files => Err (Raise AssertionError [ANames files])
    | Err e => Err e
    end.
Proof.
  unfold unpacked_tarball. rewrite outcome_finally, bind_emit.
  cbn [outcome snd].
  destruct (extract_and_list W p (tempdir W)) as [[|top [|]]|]; try reflexivity.
  now rewrite bind_lift_ok.
Qed.

(** The outcome of [main] on an accepted request, call by call. *)
Lemma main_outcome W ini formats :
  accepted formats ->
  outcome (main W ini formats)
  = if decide ("sdist" ∈ effective formats) then
      match new_SdistBuilder W ini with
      | Err e => Err e
      | Ok sb =>
          match sdist_build W sb with
          | Err e => Err e
          | Ok sdist_file =>
              let si := {| builder := sb; file := sdist_file |} in
              if decide ("wheel" ∈ effective formats) then
                match extract_and_list W sdist_file (tempdir W) with
                | Err e => Err e
                | Ok [top] =>
                    match make_wheel_in W
                            (path_div (path_div (tempdir W) top) (path_name ini))
                            (path_div (path_parent ini) "dist") with
                    | Ok w => Ok {| wheel := Some w; sdist := Some si |}
                    | Err e => Err e
                    end
                | Ok files => Err (Raise AssertionError [ANames files])
                end
              else Ok {| wheel := None; sdist := Some si |}
          end
      end
    else
      match wheel_main W ini with
      | Ok w => Ok {| wheel := Some w; sdist := None |}
      | Err e => Err e
      end.
Proof.
  intros Hacc. unfold main.
  rewrite requested_accepted, bind_ret_l by exact Hacc.
  destruct (decide ("sdist" ∈ effective formats)) as [Hs|Hs].
  - rewrite bind_emit. cbn [outcome snd].
    destruct (new_SdistBuilder W ini) as [sb|]; [|reflexivity].
    rewrite bind_lift_ok.
    destruct (sdist_build W sb) as [p|]; [|reflexivity].
    rewrite bind_lift_ok.
    destruct (decide ("wheel" ∈ effective formats)) as [Hw|Hw].
    + rewrite outcome_bind, outcome_unpacked.
      destruct (extract_and_list W p (tempdir W)) as [[|top [|]]|];
        try reflexivity.
      rewrite !bind_emit. cbn [outcome snd].
      destruct (make_wheel_in W _ _); reflexivity.
    + reflexivity.
  - destruct (effective_nonempty formats Hacc) as [?|Hw]; [contradiction|].
    destruct (decide ("wheel" ∈ effective formats)); [|contradiction].
    rewrite bind_emit. cbn [outcome snd].
    destruct (wheel_main W ini); reflexivity.
Qed.

Ltac record_cases :=
  cbn; repeat split; intros;
  try match goal with H : is_Some None |- _ =>
        destruct H as [? H]; discriminate H end;
  try match goal with H : Some _ = Some _ |- _ => injection H as <- end;
  try discriminate; try contradiction; cbn; eauto.

(** C7: a request that is not empty and not within [{wheel, sdist}]
    makes [main] raise [ValueError] carrying the unknown formats, with no
    event before it, so nothing has been built.  On an accepted request,
    the record that [main] returns holds an entry exactly for the formats
    built and [None] for the others, each entry being what its builder
    returned; and [main] does return when none of the collaborators
    raises. *)
Theorem main_formats W ini :
  (forall fs : gset string,
     fs ≠ ∅ -> ¬ fs ⊆ ALL_FORMATS ->
     main W ini (Some fs)
     = ([], Err (Raise ValueError [ASet (fs ∖ ALL_FORMATS)]))
     /\ fs ∖ ALL_FORMATS ≠ ∅)
  /\ (forall formats r,
        accepted formats ->
        outcome (main W ini formats) = Ok r ->
        (is_Some (wheel r) <-> "wheel" ∈ effective formats)
        /\ (is_Some (sdist r) <-> "sdist" ∈ effective formats)
        /\ (forall si, sdist r = Some si ->
              new_SdistBuilder W ini = Ok (builder si)
              /\ sdist_build W (builder si) = Ok (file si))
        /\ (forall w, wheel r = Some w ->
              match sdist r with
              | None => wheel_main W ini = Ok w
              | Some si =>
                  exists top,
                    extract_and_list W (file si) (tempdir W) = Ok [top]
                    /\ make_wheel_in W
                         (path_div (path_div (tempdir W) top) (path_name ini))
                         (path_div (path_parent ini) "dist") = Ok w
              end))
  /\ (forall formats,
        accepted formats ->
        (forall p, is_ok (new_SdistBuilder W p) = true) ->
        (forall sb, is_ok (sdist_build W sb) = true) ->
        (forall p d, exists top, extract_and_list W p d = Ok [top]) ->
        (forall p d, is_ok (make_wheel_in W p d) = true) ->
        (forall p, is_ok (wheel_main W p) = true) ->
        is_ok (outcome (main W ini formats)) = true).
Proof.
  split; [|split].
  - intros fs Hne Hsub. split.
    + unfold main. now rewrite requested_rejected.
    + intros Hd. apply Hsub. intros x Hx.
      destruct (decide (x ∈ ALL_FORMATS)); [assumption|].
      assert (x ∈ fs ∖ ALL_FORMATS) as Hin by set_solver.
      rewrite Hd in Hin. set_solver.
  - intros formats r Hacc. rewrite main_outcome by exact Hacc.
    destruct (decide ("sdist" ∈ effective formats)) as [Hs|Hs].
    + destruct (new_SdistBuilder W ini) as [sb|] eqn:Hnew; [|discriminate].
      destruct (sdist_build W sb) as [p|] eqn:Hbuild; [|discriminate].
      destruct (decide ("wheel" ∈ effective formats)) as [Hw|Hw].
      * destruct (extract_and_list W p (tempdir W)) as [[|top [|]]|] eqn:Hex;
          try discriminate.
        destruct (make_wheel_in W _ _) as [w|] eqn:Hmk; [|discriminate].
        intros [= <-]. record_cases.
      * intros [= <-]. record_cases.
    + destruct (effective_nonempty formats Hacc) as [?|Hw]; [contradiction|].
      destruct (wheel_main W ini) as [w|] eqn:Hwm; [|discriminate].
      intros [= <-]. record_cases.
  - intros formats Hacc Hnew Hbuild Hex Hmk Hwm.
    rewrite main_outcome by exact Hacc.
    destruct (decide ("sdist" ∈ effective formats)).
    + specialize (Hnew ini).
      destruct (new_SdistBuilder W ini) as [sb|]; [|discriminate].
      specialize (Hbuild sb).
      destruct (sdist_build W sb) as [p|]; [|discriminate].
      destruct (decide ("wheel" ∈ effective formats)); [|reflexivity].
      destruct (Hex p (tempdir W)) as [top ->].
      match goal with |- context [make_wheel_in W ?a ?b] =>
        specialize (Hmk a b); destruct (make_wheel_in W a b) end;
        [reflexivity|discriminate].
    + specialize (Hwm ini). destruct (wheel_main W ini); [reflexivity|discriminate].
Qed.

End BuildFacts.

Section BuildExample.
Import Py Examples.
Local Open Scope string_scope.

Lemma main_formats_witness :
  Build.main world_ok ["."; "flit.ini"] (Some {[ "egg"; "wheel" ]})
  = ([], Err (Raise ValueError
                [ASet ({[ "egg"; "wheel" ]} ∖ Build.ALL_FORMATS)]))
  /\ is_ok (outcome (Build.main world_ok ["."; "flit.ini"]
                       (Some {[ "wheel" ]}))) = true.
Proof.
  destruct (main_formats world_ok ["."; "flit.ini"]) as (Hrej & _ & Hok).
  split.
  - apply Hrej.
    + apply (bool_decide_eq_false_1 _). vm_compute. reflexivity.
    + apply (bool_decide_eq_false_1 _). vm_compute. reflexivity.
  - apply Hok; try (intros; reflexivity).
    + apply (bool_decide_eq_true_1 _). vm_compute. reflexivity.
    + intros. eexists. reflexivity.
Defined.

End BuildExample.

(** * Further properties of the code *)

(** ** Permission bits *)

Section PermMore.
Import Perm.

(** X1: two modes with the same owner-execute bit and the same bits above
    the nine permission bits normalise to the same mode; the group and
    other bits and the owner's read and write bits of the input do not
    matter. *)
Theorem normalize_ignores_other_permission_bits (m1 m2 : Z) :
  owner_exec m1 = owner_exec m2 ->
  high_bits m1 = high_bits m2 ->
  normalize_file_permissions m1 = normalize_file_permissions m2.
Proof.
  intros Hx Hh. apply Z.bits_inj'. intros n Hn.
  rewrite !normalize_bits by lia. rewrite Hx.
  destruct (Z.ltb_spec n 9) as [Hlt|Hge]; [reflexivity|].
  apply (f_equal (fun h => Z.testbit h (n - 9))) in Hh.
  unfold high_bits in Hh. rewrite !Z.shiftr_spec in Hh by lia.
  now replace (n - 9 + 9) with n in Hh by lia.
Qed.

Lemma normalize_ignores_other_permission_bits_witness :
  normalize_file_permissions 33279 = normalize_file_permissions 33216.
Proof.
  apply normalize_ignores_other_permission_bits; reflexivity.
Defined.

(** X2: on a mode that holds permission bits only (0 to 0o777) the result
    is exactly 0o755 when the owner-execute bit is set and exactly 0o644
    when it is not. *)
Theorem normalize_of_permission_bits (m : Z) :
  0 <= m < 512 ->
  normalize_file_permissions m = if owner_exec m then 493 else 420.
Proof.
  intros Hm. apply Z.bits_inj'. intros n Hn.
  rewrite normalize_bits by lia.
  destruct (Z.ltb_spec n 9) as [Hlt|Hge]; [reflexivity|].
  rewrite (const_bit_high m n) by lia.
  destruct (owner_exec m); symmetry; apply const_bit_high; lia.
Qed.

Lemma normalize_of_permission_bits_witness :
  normalize_file_permissions 511 = 493 /\ normalize_file_permissions 0 = 420.
Proof.
  split.
  - apply (normalize_of_permission_bits 511). lia.
  - apply (normalize_of_permission_bits 0). lia.
Defined.

End PermMore.

(** ** Canonical versions *)

Section CanonicalFacts.
Import Py Str Common Assemble Notions Examples.
Local Open Scope string_scope.

Lemma starts_decimal_app s1 s2 :
  starts_with char_isdecimal s1 = true ->
  starts_with char_isdecimal (s1 ++ s2) = true.
Proof. destruct s1; [discriminate|]. now rewrite append_cons. Qed.

Lemma between_49_57_decimal c : between 49 57 c = true -> char_isdecimal c = true.
Proof.
  unfold char_isdecimal, between. rewrite !andb_true_iff, !N.leb_le. lia.
Qed.

Lemma digit19_starts s1 s2 :
  matches digit19 s1 -> starts_with char_isdecimal (s1 ++ s2) = true.
Proof.
  intros (c & -> & Hc)%matches_class_inv.
  rewrite append_cons. now apply between_49_57_decimal.
Qed.

Lemma number_starts s : matches number s -> starts_with char_isdecimal s = true.
Proof.
  unfold number. intros [H|H]%matches_alt_inv.
  - apply matches_class_inv in H as (c & -> & Hc).
    apply Ascii.eqb_eq in Hc as <-. reflexivity.
  - apply matches_cat_inv in H as (s1 & s2 & -> & H1 & _).
    now apply digit19_starts.
Qed.

Lemma pep440_starts s : matches pep440re s -> starts_with char_isdecimal s = true.
Proof.
  unfold pep440re.
  intros (e & rest & -> & He & Hrest)%matches_cat_inv.
  apply matches_cat_inv in Hrest as (n & rest' & -> & Hn & _).
  apply matches_alt_inv in He as [He|He].
  - apply matches_cat_inv in He as (d & e' & -> & Hd & _).
    apply starts_decimal_app. now apply digit19_starts.
  - apply matches_eps_inv in He as ->.
    change ("" ++ n ++ rest') with (n ++ rest').
    apply starts_decimal_app. now apply number_starts.
Qed.

Lemma canonical_starts s : _is_canonical s = true -> starts_with char_isdecimal s = true.
Proof.
  unfold _is_canonical, match_anchored. intros H%fullmatch_spec.
  apply matches_cat_inv in H as (s1 & s2 & -> & H1 & _).
  apply starts_decimal_app. now apply pep440_starts.
Qed.

Lemma decimal_isdigit c : char_isdecimal c = true -> char_isdigit c = true.
Proof. unfold char_isdigit, char_isdecimal. now intros ->. Qed.

(** X3: a version that [_is_canonical] accepts passes [check_version]
    with no exception and no warning, and the result is [True]: the
    pattern only matches strings that start with a decimal digit. *)
Theorem canonical_version_accepted (s : string) :
  _is_canonical s = true ->
  check_version (PyStr s) = ([], Ok true).
Proof.
  intros Hc. pose proof (canonical_starts s Hc) as Hs.
  destruct s as [|c s]; [discriminate|]. cbn [starts_with] in Hs.
  unfold check_version. cbn [truthy String.eqb negb].
  rewrite (decimal_isdigit c Hs), Hc. reflexivity.
Qed.

Lemma canonical_version_accepted_witness :
  check_version (PyStr "1!2.0rc1.post3.dev4") = ([], Ok true).
Proof. apply canonical_version_accepted. vm_compute. reflexivity. Defined.


Lemma append_nil_r s : s ++ "" = s.
Proof. induction s as [|c s IH]; [reflexivity|]. now rewrite append_cons, IH. Qed.

Lemma matches_opt_nil r : matches (Opt r) "".
Proof. apply m_alt_r. constructor. Qed.

(** X4: the dot between release segments is written unescaped in
    [pep440re], so two numbers (a zero, or digits not starting with zero)
    joined by any one character other than a line feed count as
    canonical. *)
Theorem release_separator_unchecked (a b : string) (c : ascii) :
  fullmatch number a = true -> fullmatch number b = true ->
  code c <> 10%N ->
  _is_canonical (a ++ String c b) = true.
Proof.
  intros Ha%fullmatch_spec Hb%fullmatch_spec Hc.
  apply fullmatch_spec.
  assert (Hseg : matches (Cat anychar number) (String c b)).
  { change (String c b) with (String c "" ++ b). constructor; [|exact Hb].
    constructor. now apply negb_true_iff, N.eqb_neq. }
  assert (Hstar : matches (Star (Cat anychar number)) (String c b)).
  { rewrite <- (append_nil_r (String c b)). constructor; [exact Hseg|constructor]. }
  assert (Htail : matches
            (Cat (Opt (Cat (Alt (Lit "a") (Alt (Lit "b") (Word "rc"))) number))
               (Cat (Opt (Cat (Word ".post") number))
                    (Opt (Cat (Word ".dev") number)))) "").
  { change "" with ("" ++ ("" ++ "")).
    repeat (constructor; try apply matches_opt_nil). }
  rewrite <- (append_nil_r (a ++ String c b)).
  constructor; [|apply matches_opt_nil].
  unfold pep440re. change (a ++ String c b) with ("" ++ (a ++ String c b)).
  constructor; [apply matches_opt_nil|].
  constructor; [exact Ha|].
  rewrite <- (append_nil_r (String c b)). constructor; assumption.
Qed.

Lemma release_separator_unchecked_witness :
  _is_canonical ("1" ++ String "-" "0") = true
  /\ _is_canonical ("2019" ++ String "x" "12") = true.
Proof.
  split; apply release_separator_unchecked;
    try reflexivity; intros H; discriminate H.
Defined.

End CanonicalFacts.

(** ** The scan for the version assignment *)

Section ScanFacts.
Import Py Str Common Assemble Notions Examples.
Local Open Scope string_scope.

Lemma passed_over_iff child :
  is_version_str child = Ok false <-> passed_over child.
Proof.
  destruct child as [targets value| | | |]; cbn; try tauto.
  destruct targets as [|t [|t' ts]]; cbn; try tauto;
    destruct t; cbn; try tauto; try (split; [discriminate|tauto]).
  destruct (String.eqb_spec id "__version__") as [->|Hne];
    destruct (is_Str value); cbn;
    intuition (try discriminate; try congruence).
Qed.

Lemma Forall_passed_over l :
  Forall (fun child => is_version_str child = Ok false) l
  <-> Forall passed_over l.
Proof. apply Forall_iff. intros c. apply passed_over_iff. Qed.

Lemma scan_version_found pre s post :
  Forall passed_over pre ->
  scan_version (pre ++ Assign [Name "__version__"] (Str s) :: post)%list
  = Ok (PyStr s).
Proof.
  intros H%Forall_passed_over. now rewrite scan_version_skips.
Qed.

Lemma scan_version_inv body :
  match scan_version body with
  | Ok PyNone => Forall passed_over body
  | Ok v =>
      exists pre s post,
        v = PyStr s
        /\ body = (pre ++ Assign [Name "__version__"] (Str s) :: post)%list
        /\ Forall passed_over pre
  | Err e =>
      exists pre tgt value post,
        body = (pre ++ Assign [tgt] value :: post)%list
        /\ Forall passed_over pre
        /\ (forall id, tgt <> Name id)
        /\ e = Raise AttributeError [AStr "id"]
  end.
Proof.
  induction body as [|child body IH]; [constructor|].
  cbn [scan_version].
  destruct (is_version_str child) as [[|]|e] eqn:Hc.
  - (* found *)
    destruct child as [targets value| | | |]; try discriminate Hc.
    cbn in Hc. destruct targets as [|t [|t' ts]]; try discriminate Hc.
    cbn in Hc. destruct t; try discriminate Hc. cbn in Hc.
    injection Hc as Hc. apply andb_true_iff in Hc as [Hid Hv].
    apply String.eqb_eq in Hid as ->.
    destruct value; try discriminate Hv.
    exists [], s, body. auto.
  - (* passed over *)
    apply passed_over_iff in Hc.
    destruct (scan_version body) as [v|e].
    + destruct v; try (destruct IH as (pre & s' & post & Hv & -> & Hpre);
        exists (child :: pre), s', post; repeat split; auto; fail).
      now constructor.
    + destruct IH as (pre & tgt & value & post & -> & Hpre & Hn & ->).
      exists (child :: pre), tgt, value, post. repeat split; auto.
  - (* raises *)
    destruct child as [targets value| | | |]; try discriminate Hc.
    cbn in Hc. destruct targets as [|t [|t' ts]]; try discriminate Hc.
    cbn in Hc. exists [], t, value, body.
    destruct t; cbn in Hc; try discriminate Hc;
      injection Hc as <-; repeat split; auto; intros ? ?; discriminate.
Qed.


Lemma scan_version_none body :
  Forall passed_over body -> scan_version body = Ok PyNone.
Proof.
  intros H%Forall_passed_over.
  rewrite <- (app_nil_r body). now rewrite scan_version_skips.
Qed.

Lemma scan_version_raises pre tgt value post :
  Forall passed_over pre -> (forall id, tgt <> Name id) ->
  scan_version (pre ++ Assign [tgt] value :: post)%list
  = Err (Raise AttributeError [AStr "id"]).
Proof.
  intros H%Forall_passed_over Hn. rewrite scan_version_skips by exact H.
  cbn [scan_version]. now rewrite is_version_str_not_name.
Qed.

Lemma via_ast_outcome_scan E t body :
  source E (ModuleCls.file t) = Ok body ->
  outcome (get_docstring_and_version_via_ast E t)
  = match scan_version body with
    | Ok v => Ok (get_docstring E body, v)
    | Err e => Err e
    end.
Proof.
  intros Hsrc. unfold get_docstring_and_version_via_ast.
  rewrite bind_emit, Hsrc, bind_lift_ok. cbn [outcome snd].
  destruct (scan_version body); reflexivity.
Qed.

(** X5: what the static pass returns for a file that parses.  The
    version is the string of the first statement [__version__ = "..."]
    when every statement before it is passed over; it is [None] when
    every statement is passed over; and the pass raises [AttributeError]
    exactly when the first statement not passed over is an assignment to a
    single target that is not a name.  The docstring is that of
    [ast.get_docstring] in the first two cases. *)
Theorem via_ast_version_cases (E : env) (t : ModuleCls.t) (body : list stmt) :
  source E (ModuleCls.file t) = Ok body ->
  (forall d s,
     outcome (get_docstring_and_version_via_ast E t) = Ok (d, PyStr s)
     <-> d = get_docstring E body
         /\ exists pre post,
              body = (pre ++ Assign [Name "__version__"] (Str s) :: post)%list
              /\ Forall passed_over pre)
  /\ (forall d,
        outcome (get_docstring_and_version_via_ast E t) = Ok (d, PyNone)
        <-> d = get_docstring E body /\ Forall passed_over body)
  /\ (forall e,
        outcome (get_docstring_and_version_via_ast E t) = Err e
        <-> e = Raise AttributeError [AStr "id"]
            /\ exists pre tgt value post,
                 body = (pre ++ Assign [tgt] value :: post)%list
                 /\ Forall passed_over pre
                 /\ forall id, tgt <> Name id).
Proof.
  intros Hsrc. rewrite (via_ast_outcome_scan E t body Hsrc).
  pose proof (scan_version_inv body) as Hinv.
  split; [|split].
  - intros d s. split.
    + destruct (scan_version body) as [v|e]; [|discriminate].
      intros [= <- ->].
      destruct Hinv as (pre & s' & post & [= <-] & Hb & Hpre). eauto.
    + intros (-> & pre & post & -> & Hpre).
      now rewrite scan_version_found.
  - intros d. split.
    + destruct (scan_version body) as [v|e]; [|discriminate].
      intros [= <- ->]. auto.
    + intros (-> & Hall). now rewrite scan_version_none.
  - intros e. split.
    + destruct (scan_version body) as [v|e']; [discriminate|].
      intros [= <-].
      destruct Hinv as (pre & tgt & value & post & Hb & Hpre & Hn & ->).
      split; [reflexivity|]. exists pre, tgt, value, post. auto.
    + intros (-> & pre & tgt & value & post & -> & Hpre & Hn).
      now rewrite scan_version_raises.
Qed.

Lemma via_ast_version_cases_witness :
  outcome (get_docstring_and_version_via_ast env_versions mod_py)
  = Ok (PyStr "doc", PyStr "0.1").
Proof.
  destruct (via_ast_version_cases env_versions mod_py _ eq_refl)
    as (Hfound & _ & _).
  apply Hfound. split; [reflexivity|].
  exists [Expr (Str "doc");
          AnnAssign (Name "__version__") (Name "str") (Some (Str "9"));
          Assign [Name "__version__"; Name "VERSION"] (Str "8");
          Assign [Name "__version__"] (Num 7)],
         [Assign [Attribute (Name "obj") "attr"] (Num 1);
          Assign [Name "__version__"] (Str "0.2")].
  split; [reflexivity|].
  do 3 (constructor; [exact I|]).
  constructor; [right; reflexivity|constructor].
Defined.

End ScanFacts.

(** ** The summary and the version of a module *)

Section SummaryFacts.
Import Py Str Common Assemble Notions Examples.
Local Open Scope string_scope.

Lemma linebreak_isspace c : char_islinebreak c = true -> char_isspace c = true.
Proof.
  destruct c as [[] [] [] [] [] [] [] []]; vm_compute; congruence.
Qed.

Lemma lstrip_starts s :
  lstrip s = "" \/ starts_with (fun c => negb (char_isspace c)) (lstrip s) = true.
Proof.
  induction s as [|c s IH]; [now left|].
  cbn [lstrip]. destruct (char_isspace c) eqn:Hc; [exact IH|].
  right. cbn. now rewrite Hc.
Qed.

Lemma lstrip_nil_iff s : lstrip s = "" <-> all_chars char_isspace s = true.
Proof.
  induction s as [|c s IH]; cbn [lstrip all_chars]; [tauto|].
  destruct (char_isspace c); cbn; [exact IH|]. split; discriminate.
Qed.

Lemma rstrip_nil_iff s : rstrip s = "" <-> all_chars char_isspace s = true.
Proof.
  induction s as [|c s IH]; cbn [rstrip all_chars]; [tauto|].
  destruct (rstrip s) eqn:Hr.
  - destruct (char_isspace c); cbn.
    + split; [intros _; now apply IH|reflexivity].
    + split; discriminate.
  - split; [discriminate|]. intros [_ H]%andb_true_iff.
    apply IH in H. discriminate.
Qed.

Lemma all_space_lstrip s :
  all_chars char_isspace (lstrip s) = all_chars char_isspace s.
Proof.
  induction s as [|c s IH]; [reflexivity|].
  cbn [lstrip]. destruct (char_isspace c) eqn:Hc; [|reflexivity].
  cbn [all_chars]. now rewrite Hc.
Qed.

Lemma strip_nil_iff s : strip s = "" <-> all_chars char_isspace s = true.
Proof. unfold strip. now rewrite rstrip_nil_iff, all_space_lstrip. Qed.

Lemma splitlines_first s :
  match splitlines s with
  | [] => s = ""
  | first :: _ => first_line_of s first
  end.
Proof.
  induction s as [|c s IH]; [reflexivity|].
  cbn [splitlines]. destruct (char_islinebreak c) eqn:Hc.
  - assert (Hfirst : first_line_of (String c s) "").
    { split; [reflexivity|]. exists (String c s). split; [reflexivity|].
      right. exact Hc. }
    destruct s as [|c' s']; [exact Hfirst|].
    destruct (N.eqb (code c) 13 && N.eqb (code c') 10) eqn:Hcr; [|exact Hfirst].
    apply andb_true_iff in Hcr as [_ Hlf]. apply N.eqb_eq in Hlf.
    cbn [splitlines].
    assert (Hb : char_islinebreak c' = true).
    { unfold char_islinebreak, between. rewrite Hlf. reflexivity. }
    rewrite Hb.
    assert (Hn : N.eqb (code c') 13 = false) by (rewrite Hlf; reflexivity).
    rewrite Hn. cbn [andb].
    destruct s'; exact Hfirst.
  - destruct (splitlines s) as [|first rest].
    + subst s. split; [cbn; now rewrite Hc|].
      exists "". split; [reflexivity|now left].
    + destruct IH as (Hall & tail & -> & Htail). split.
      * cbn [all_chars]. now rewrite Hc, Hall.
      * exists tail. split; [now rewrite append_cons|exact Htail].
Qed.

Lemma splitlines_head c s :
  char_islinebreak c = false ->
  exists line rest, splitlines (String c s) = String c line :: rest.
Proof.
  intros Hc. cbn [splitlines]. rewrite Hc.
  destruct (splitlines s); eauto.
Qed.

Lemma splitlines_lstrip doc :
  all_chars char_isspace doc = false ->
  exists first rest,
    splitlines (lstrip doc) = first :: rest
    /\ first_line_of (lstrip doc) first
    /\ starts_with (fun c => negb (char_isspace c)) first = true.
Proof.
  intros Hdoc.
  destruct (lstrip_starts doc) as [Hnil|Hst].
  { apply lstrip_nil_iff in Hnil. congruence. }
  pose proof (splitlines_first (lstrip doc)) as Hf.
  destruct (lstrip doc) as [|c s] eqn:Hl; [discriminate|].
  cbn [starts_with] in Hst.
  assert (Hc : char_islinebreak c = false).
  { destruct (char_islinebreak c) eqn:Hb; [|reflexivity].
    apply linebreak_isspace in Hb. rewrite Hb in Hst. discriminate. }
  destruct (splitlines_head c s Hc) as (line & rest & Hs).
  rewrite Hs in Hf. exists (String c line), rest. auto.
Qed.


Lemma check_version_ok_inv v b :
  outcome (check_version v) = Ok b ->
  exists ver, v = PyStr ver /\ starts_with char_isdigit ver = true
              /\ b = _is_canonical ver.
Proof.
  unfold check_version. destruct (truthy v) eqn:Hv; cbn [negb]; [|discriminate].
  destruct v; try discriminate.
  destruct s as [|c s]; [discriminate Hv|].
  destruct (char_isdigit c) eqn:Hc; cbn [negb]; [|discriminate].
  destruct (_is_canonical (String c s)) eqn:Hcan; cbn; intros [= <-];
    exists (String c s); auto.
Qed.

(** After a docstring that is a string with something in it. *)
Lemma get_info_after_docstring E t doc v :
  outcome (extract E t) = Ok (PyStr doc, v) ->
  all_chars char_isspace doc = false ->
  exists first rest,
    splitlines (lstrip doc) = first :: rest
    /\ first_line_of (lstrip doc) first
    /\ starts_with (fun c => negb (char_isspace c)) first = true
    /\ outcome (get_info_from_module E t)
       = match outcome (check_version v) with
         | Ok _ => Ok {| summary := first; version := v |}
         | Err e => Err e
         end
    /\ trace (get_info_from_module E t)
       = (Log DEBUG [APath (ModuleCls.file t)]
          :: trace (extract E t) ++ trace (check_version v))%list.
Proof.
  intros He Hdoc.
  destruct (splitlines_lstrip doc Hdoc) as (first & rest & Hs & Hf & Hst).
  exists first, rest.
  split; [exact Hs|]. split; [exact Hf|]. split; [exact Hst|]. split.
  - unfold get_info_from_module. rewrite bind_emit. cbn [outcome snd].
    rewrite outcome_bind, He.
    assert (Hne : doc <> "") by (intros ->; discriminate Hdoc).
    cbn [truthy]. destruct (String.eqb_spec doc "") as [|_]; [contradiction|].
    cbn [negb py_strip]. rewrite bind_lift_ok, bind_ret_l.
    destruct (String.eqb_spec (strip doc) "") as [Hstrip|_].
    { apply strip_nil_iff in Hstrip. congruence. }
    rewrite outcome_bind.
    destruct (outcome (check_version v)); [|reflexivity].
    cbn [py_lstrip]. rewrite bind_lift_ok, Hs. reflexivity.
  - unfold get_info_from_module. rewrite bind_emit. cbn [trace fst].
    f_equal. rewrite trace_bind, He. f_equal.
    assert (Hne : doc <> "") by (intros ->; discriminate Hdoc).
    cbn [truthy]. destruct (String.eqb_spec doc "") as [|_]; [contradiction|].
    cbn [negb py_strip]. rewrite bind_lift_ok, bind_ret_l.
    destruct (String.eqb_spec (strip doc) "") as [Hstrip|_].
    { apply strip_nil_iff in Hstrip. congruence. }
    rewrite trace_bind.
    destruct (outcome (check_version v)); [|now rewrite app_nil_r].
    cbn [py_lstrip]. rewrite bind_lift_ok, Hs. cbn. now rewrite app_nil_r.
Qed.


Lemma get_info_extract_err E t e :
  outcome (extract E t) = Err e -> outcome (get_info_from_module E t) = Err e.
Proof.
  intros He. unfold get_info_from_module. rewrite bind_emit. cbn [outcome snd].
  now rewrite outcome_bind, He.
Qed.


(** X6: when the extraction gave a docstring that is a [str] and
    [get_info_from_module] returns, the version it went on with is a
    string, the docstring has a character that is not white space, the
    version returned is that version and starts with a digit, and the
    summary is the first line of the docstring without its leading white
    space: it has no line boundary in it and starts with a character that
    is not white space. *)
Theorem get_info_returns (E : env) (t : ModuleCls.t)
    (doc : string) (v : pyobj) (i : info) :
  outcome (extract E t) = Ok (PyStr doc, v) ->
  outcome (get_info_from_module E t) = Ok i ->
  exists ver,
    v = PyStr ver
    /\ all_chars char_isspace doc = false
    /\ version i = PyStr ver
    /\ starts_with char_isdigit ver = true
    /\ first_line_of (lstrip doc) (summary i)
    /\ starts_with (fun c => negb (char_isspace c)) (summary i) = true.
Proof.
  intros He Hi.
  destruct (all_chars char_isspace doc) eqn:Hdoc.
  { rewrite (get_info_blank E t (PyStr doc) v He) in Hi; [discriminate|].
    right. eauto. }
  destruct (get_info_after_docstring E t doc v He Hdoc)
    as (first & rest & _ & Hf & Hst & Ho & _).
  rewrite Ho in Hi.
  destruct (outcome (check_version v)) as [b|] eqn:Hv; [|discriminate].
  injection Hi as <-.
  apply check_version_ok_inv in Hv as (ver & -> & Hd & _).
  exists ver. cbn [summary version]. auto 10.
Qed.

(** X7: with a docstring that is a string with a character that is not
    white space and a version that is a string starting with a digit,
    [get_info_from_module] returns; the version is unchanged, the summary
    is the first line of the left-stripped docstring, and the only event
    after those of the extraction is the warning for a version that is not
    canonical. *)
Theorem get_info_succeeds (E : env) (t : ModuleCls.t) (doc ver : string) :
  outcome (extract E t) = Ok (PyStr doc, PyStr ver) ->
  all_chars char_isspace doc = false ->
  starts_with char_isdigit ver = true ->
  exists i,
    outcome (get_info_from_module E t) = Ok i
    /\ version i = PyStr ver
    /\ first_line_of (lstrip doc) (summary i)
    /\ trace (get_info_from_module E t)
       = (Log DEBUG [APath (ModuleCls.file t)]
          :: trace (extract E t)
          ++ if _is_canonical ver then [] else [Log WARNING [AStr ver]])%list.
Proof.
  intros He Hdoc Hver.
  destruct (get_info_after_docstring E t doc (PyStr ver) He Hdoc)
    as (first & rest & _ & Hf & _ & Ho & Htr).
  destruct ver as [|c ver]; [discriminate Hver|]. cbn [starts_with] in Hver.
  assert (Hcv : check_version (PyStr (String c ver))
                = (if _is_canonical (String c ver) then []
                   else [Log WARNING [AStr (String c ver)]],
                   Ok (_is_canonical (String c ver)))).
  { unfold check_version. cbn [truthy String.eqb negb]. rewrite Hver.
    cbn [negb]. destruct (_is_canonical (String c ver)); reflexivity. }
  rewrite Hcv in Ho, Htr. cbn [outcome snd trace fst] in Ho, Htr.
  eexists. split; [exact Ho|]. cbn [version summary]. auto.
Qed.

(** X8: a docstring that is [True], an [int] other than zero or a tuple
    that is not empty (an imported module may bind [__doc__] to such a
    value), none of which has a method [strip], ends
    [get_info_from_module] in [AttributeError] for [strip], not in
    [NoDocstringError], right after the extraction and before the version
    is looked at. *)
Theorem get_info_docstring_not_str (E : env) (t : ModuleCls.t) (d v : pyobj) :
  outcome (extract E t) = Ok (d, v) ->
  truthy d = true -> no_strip d ->
  get_info_from_module E t
  = (Log DEBUG [APath (ModuleCls.file t)] :: trace (extract E t),
     Err (Raise AttributeError [AStr "strip"])).
Proof.
  intros He Ht Hs. rewrite (M_eta (get_info_from_module E t)). f_equal.
  - unfold get_info_from_module. rewrite bind_emit. cbn [trace fst]. f_equal.
    rewrite trace_bind, He, Ht. cbn [negb].
    destruct d; try contradiction Hs; cbn; apply app_nil_r.
  - unfold get_info_from_module. rewrite bind_emit. cbn [outcome snd].
    rewrite outcome_bind, He, Ht. cbn [negb].
    destruct d; try contradiction Hs; reflexivity.
Qed.

(** X9: after a docstring that passes, whatever [check_version] raises on
    the version is what [get_info_from_module] raises, with no event added;
    a missing or empty version gives [NoVersionError]. *)
Theorem get_info_version_error (E : env) (t : ModuleCls.t)
    (doc : string) (v : pyobj) :
  outcome (extract E t) = Ok (PyStr doc, v) ->
  all_chars char_isspace doc = false ->
  (forall e, outcome (check_version v) = Err e ->
     outcome (get_info_from_module E t) = Err e
     /\ trace (get_info_from_module E t)
        = Log DEBUG [APath (ModuleCls.file t)] :: trace (extract E t))
  /\ (truthy v = false ->
      outcome (get_info_from_module E t) = Err (Raise NoVersionError [])).
Proof.
  intros He Hdoc.
  destruct (get_info_after_docstring E t doc v He Hdoc)
    as (first & rest & _ & _ & _ & Ho & Htr).
  split.
  - intros e Hv. rewrite Ho, Htr, Hv. split; [reflexivity|].
    f_equal. rewrite <- (app_nil_r (trace (extract E t))) at 2. f_equal.
    revert Hv. unfold check_version.
    destruct (truthy v); cbn [negb]; [|reflexivity].
    destruct v; try reflexivity.
    destruct s as [|c s]; [reflexivity|].
    destruct (char_isdigit c); cbn [negb]; [|reflexivity].
    destruct (_is_canonical (String c s)); discriminate.
  - intros Hv. rewrite Ho. unfold check_version. now rewrite Hv.
Qed.


Lemma get_info_returns_witness :
  exists ver,
    PyStr "1.0-beta" = PyStr ver
    /\ all_chars char_isspace ("  Tool." ++ nl ++ "More") = false
    /\ PyStr "1.0-beta" = PyStr ver
    /\ starts_with char_isdigit ver = true
    /\ first_line_of (lstrip ("  Tool." ++ nl ++ "More")) "Tool."
    /\ starts_with (fun c => negb (char_isspace c)) "Tool." = true.
Proof.
  apply (get_info_returns env_good mod_py ("  Tool." ++ nl ++ "More")
           (PyStr "1.0-beta")
           {| summary := "Tool."; version := PyStr "1.0-beta" |});
    vm_compute; reflexivity.
Defined.

Lemma get_info_succeeds_witness :
  exists i,
    outcome (get_info_from_module env_good mod_py) = Ok i
    /\ version i = PyStr "1.0-beta"
    /\ first_line_of (lstrip ("  Tool." ++ nl ++ "More")) (summary i)
    /\ trace (get_info_from_module env_good mod_py)
       = (Log DEBUG [APath (ModuleCls.file mod_py)]
          :: trace (extract env_good mod_py)
          ++ if _is_canonical "1.0-beta" then []
             else [Log WARNING [AStr "1.0-beta"]])%list.
Proof.
  apply (get_info_succeeds env_good mod_py); vm_compute; reflexivity.
Defined.

Lemma get_info_docstring_not_str_witness :
  get_info_from_module env_int_doc mod_py
  = (Log DEBUG [APath (ModuleCls.file mod_py)]
     :: trace (extract env_int_doc mod_py),
     Err (Raise AttributeError [AStr "strip"])).
Proof.
  apply (get_info_docstring_not_str env_int_doc mod_py (PyInt 5) (PyStr "1.0"));
    [vm_compute; reflexivity|reflexivity|exact I].
Defined.

Lemma get_info_version_error_witness :
  outcome (get_info_from_module env_no_version mod_py)
  = Err (Raise NoVersionError []).
Proof.
  destruct (get_info_version_error env_no_version mod_py "Doc" PyNone)
    as [_ H]; [vm_compute; reflexivity|reflexivity|].
  apply H. reflexivity.
Defined.


End SummaryFacts.

(** ** The orchestrator, event by event *)

Section BuildMore.
Import Py Build Examples.
Local Open Scope string_scope.
Context {SB WI : Type}.
Implicit Types (W : world SB WI) (ini : Path).

Lemma requested_not_accepted formats :
  ~ accepted formats -> exists args, requested formats = raise ValueError args.
Proof.
  unfold accepted, effective, requested. destruct formats as [fs|].
  - destruct (decide (fs = ∅)).
    + intros H. exfalso. apply H. reflexivity.
    + intros H. destruct (decide (fs ⊆ ALL_FORMATS)); [contradiction|eauto].
  - intros H. exfalso. apply H. reflexivity.
Qed.

Lemma unpacked_run {A} W (p : Path) (body : Path -> M A) :
  unpacked_tarball W p body
  = match extract_and_list W p (tempdir W) with
    | Ok [top] =>
        let m := body (path_div (tempdir W) top) in
        ((Unpack p (tempdir W) :: trace m ++ [Cleanup (tempdir W)])%list,
         outcome m)
    | Ok files =>
        ([Unpack p (tempdir W); Cleanup (tempdir W)],
         Err (Raise AssertionError [ANames files]))
    | Err e => ([Unpack p (tempdir W); Cleanup (tempdir W)], Err e)
    end.
Proof.
  unfold unpacked_tarball. rewrite bind_emit.
  destruct (extract_and_list W p (tempdir W)) as [[|top [|]]|]; try reflexivity.
  rewrite bind_lift_ok. cbn [trace outcome fst snd finally]. reflexivity.
Qed.

(** [main] on an accepted request, event by event. *)
Lemma main_run W ini formats :
  accepted formats ->
  main W ini formats
  = if decide ("sdist" ∈ effective formats) then
      match new_SdistBuilder W ini with
      | Err e => ([SdistBuild ini], Err e)
      | Ok sb =>
          match sdist_build W sb with
          | Err e => ([SdistBuild ini], Err e)
          | Ok p =>
              let si := {| builder := sb; file := p |} in
              if decide ("wheel" ∈ effective formats) then
                let tmp := tempdir W in
                match extract_and_list W p tmp with
                | Err e => ([SdistBuild ini; Unpack p tmp; Cleanup tmp], Err e)
                | Ok [top] =>
                    let tmp_ini := path_div (path_div tmp top) (path_name ini) in
                    let dist_dir := path_div (path_parent ini) "dist" in
                    ([SdistBuild ini; Unpack p tmp;
                      Log DEBUG [APath (path_div tmp top)];
                      MakeWheelIn tmp_ini dist_dir; Cleanup tmp],
                     match make_wheel_in W tmp_ini dist_dir with
                     | Ok w => Ok {| wheel := Some w; sdist := Some si |}
                     | Err e => Err e
                     end)
                | Ok files =>
                    ([SdistBuild ini; Unpack p tmp; Cleanup tmp],
                     Err (Raise AssertionError [ANames files]))
                end
              else ([SdistBuild ini], Ok {| wheel := None; sdist := Some si |})
          end
      end
    else
      ([WheelMain ini],
       match wheel_main W ini with
       | Ok w => Ok {| wheel := Some w; sdist := None |}
       | Err e => Err e
       end).
Proof.
  intros Hacc. unfold main.
  rewrite requested_accepted, bind_ret_l by exact Hacc.
  destruct (decide ("sdist" ∈ effective formats)) as [Hs|Hs].
  - rewrite bind_emit.
    destruct (new_SdistBuilder W ini) as [sb|]; [|reflexivity].
    rewrite bind_lift_ok.
    destruct (sdist_build W sb) as [p|]; [|reflexivity].
    rewrite bind_lift_ok.
    destruct (decide ("wheel" ∈ effective formats)) as [Hw|Hw]; [|reflexivity].
    rewrite unpacked_run.
    destruct (extract_and_list W p (tempdir W)) as [[|top [|]]|];
      try reflexivity.
    rewrite !bind_emit. cbn [trace outcome fst snd].
    destruct (make_wheel_in W _ _); reflexivity.
  - destruct (effective_nonempty formats Hacc) as [?|Hw]; [contradiction|].
    destruct (decide ("wheel" ∈ effective formats)); [|contradiction].
    rewrite bind_emit.
    destruct (wheel_main W ini); reflexivity.
Qed.


(** X11: whenever [main] unpacks a tarball, it does so once, into the
    temporary directory, after the sdist build, and the last event of the
    run is the removal of that directory, whether the block returned or
    raised. *)
Theorem main_cleans_up W ini formats (p d : Path) :
  In (Unpack p d) (trace (main W ini formats)) ->
  d = tempdir W
  /\ exists mid,
       trace (main W ini formats)
       = (SdistBuild ini :: Unpack p d :: mid ++ [Cleanup d])%list
       /\ ~ In (Cleanup d) mid
       /\ forall p' d', ~ In (Unpack p' d') mid.
Proof.
  destruct (decide (accepted formats)) as [Hacc|Hrej].
  2:{ apply requested_not_accepted in Hrej as [args Hr].
      unfold main. rewrite Hr. cbn. tauto. }
  rewrite (main_run W ini formats Hacc).
  destruct (decide ("sdist" ∈ effective formats)).
  2:{ cbn. intros [H|[]]. discriminate H. }
  destruct (new_SdistBuilder W ini) as [sb|].
  2:{ cbn. intros [H|[]]. discriminate H. }
  destruct (sdist_build W sb) as [p'|].
  2:{ cbn. intros [H|[]]. discriminate H. }
  cbn zeta.
  destruct (decide ("wheel" ∈ effective formats)).
  2:{ cbn. intros [H|[]]. discriminate H. }
  destruct (extract_and_list W p' (tempdir W)) as [[|top [|]]|]; cbn [trace fst].
  - intros [H|[[= <- <-]|[H|[]]]]; try discriminate H.
    split; [reflexivity|]. exists [].
    split; [reflexivity|]. split; [intros []|intros ? ? []].
  - intros [H|[[= <- <-]|[H|[H|[H|[]]]]]]; try discriminate H.
    split; [reflexivity|]. eexists [_; _]. split; [reflexivity|].
    split; [intros [H|[H|[]]]; discriminate H
           |intros ? ? [H|[H|[]]]; discriminate H].
  - intros [H|[[= <- <-]|[H|[]]]]; try discriminate H.
    split; [reflexivity|]. exists [].
    split; [reflexivity|]. split; [intros []|intros ? ? []].
  - intros [H|[[= <- <-]|[H|[]]]]; try discriminate H.
    split; [reflexivity|]. exists [].
    split; [reflexivity|]. split; [intros []|intros ? ? []].
Qed.

(** X12: when both formats are built, the wheel is made by
    [make_wheel_in] from the ini file inside the single top-level
    directory of the unpacked sdist, into [dist] beside the original ini
    file; [wheel_main] is not called; the temporary directory is removed
    also when [make_wheel_in] raises, and that exception is the outcome. *)
Theorem main_wheel_from_sdist W ini formats sb (p : Path) (top : string) :
  accepted formats ->
  "sdist" ∈ effective formats -> "wheel" ∈ effective formats ->
  new_SdistBuilder W ini = Ok sb ->
  sdist_build W sb = Ok p ->
  extract_and_list W p (tempdir W) = Ok [top] ->
  let tmp_ini := path_div (path_div (tempdir W) top) (path_name ini) in
  let dist_dir := path_div (path_parent ini) "dist" in
  main W ini formats
  = ([SdistBuild ini; Unpack p (tempdir W);
      Log DEBUG [APath (path_div (tempdir W) top)];
      MakeWheelIn tmp_ini dist_dir; Cleanup (tempdir W)],
     match make_wheel_in W tmp_ini dist_dir with
     | Ok w => Ok {| wheel := Some w;
                     sdist := Some {| builder := sb; file := p |} |}
     | Err e => Err e
     end).
Proof.
  intros Hacc Hs Hw Hnew Hbuild Hex. cbn zeta.
  rewrite (main_run W ini formats Hacc), Hnew, Hbuild.
  destruct (decide ("sdist" ∈ effective formats)); [|contradiction].
  cbn zeta. rewrite Hex.
  destruct (decide ("wheel" ∈ effective formats)); [|contradiction].
  reflexivity.
Qed.

(** X13: when the sdist is requested and its builder raises, on
    construction or in [build], [main] ends in that exception right after
    it: no tarball is unpacked and no wheel is attempted. *)
Theorem main_sdist_failure W ini formats (e : exn) :
  accepted formats -> "sdist" ∈ effective formats ->
  new_SdistBuilder W ini = Err e
  \/ (exists sb, new_SdistBuilder W ini = Ok sb /\ sdist_build W sb = Err e) ->
  main W ini formats = ([SdistBuild ini], Err e).
Proof.
  intros Hacc Hs Hfail. rewrite (main_run W ini formats Hacc).
  destruct (decide ("sdist" ∈ effective formats)); [|contradiction].
  destruct Hfail as [->|(sb & -> & ->)]; reflexivity.
Qed.

(** X14: when the unpacked sdist does not hold exactly one top-level
    entry, [main] ends in [AssertionError] carrying the entries;
    [make_wheel_in] is not called and the temporary directory is
    removed. *)
Theorem main_archive_assertion W ini formats sb (p : Path)
    (files : list string) :
  accepted formats ->
  "sdist" ∈ effective formats -> "wheel" ∈ effective formats ->
  new_SdistBuilder W ini = Ok sb ->
  sdist_build W sb = Ok p ->
  extract_and_list W p (tempdir W) = Ok files ->
  length files <> 1%nat ->
  main W ini formats
  = ([SdistBuild ini; Unpack p (tempdir W); Cleanup (tempdir W)],
     Err (Raise AssertionError [ANames files])).
Proof.
  intros Hacc Hs Hw Hnew Hbuild Hex Hlen.
  rewrite (main_run W ini formats Hacc), Hnew, Hbuild.
  destruct (decide ("sdist" ∈ effective formats)); [|contradiction].
  cbn zeta. rewrite Hex.
  destruct (decide ("wheel" ∈ effective formats)); [|contradiction].
  destruct files as [|top [|]]; [reflexivity|contradiction|reflexivity].
Qed.

(** X15: an accepted request without sdist builds the wheel straight
    from the working tree with [wheel_main] and does nothing else; the
    sdist entry of the result is [None]. *)
Theorem main_wheel_only W ini formats :
  accepted formats -> "sdist" ∉ effective formats ->
  main W ini formats
  = ([WheelMain ini],
     match wheel_main W ini with
     | Ok w => Ok {| wheel := Some w; sdist := None |}
     | Err e => Err e
     end).
Proof.
  intros Hacc Hs. rewrite (main_run W ini formats Hacc).
  destruct (decide ("sdist" ∈ effective formats)); [contradiction|reflexivity].
Qed.

End BuildMore.

Section BuildMoreExamples.
Import Py Build Examples.
Local Open Scope string_scope.

Lemma accepted_None : accepted None.
Proof. apply (bool_decide_eq_true_1 _). vm_compute. reflexivity. Defined.

Lemma sdist_in_default : "sdist" ∈ effective None.
Proof. apply (bool_decide_eq_true_1 _). vm_compute. reflexivity. Defined.

Lemma wheel_in_default : "wheel" ∈ effective None.
Proof. apply (bool_decide_eq_true_1 _). vm_compute. reflexivity. Defined.

Lemma main_cleans_up_witness :
  ["tmp"] = tempdir world_two_tops
  /\ exists mid,
       trace (main world_two_tops ["."; "flit.ini"] None)
       = (SdistBuild ["."; "flit.ini"]
          :: Unpack ["dist"; "pkg-1.0.tar.gz"] ["tmp"]
          :: mid ++ [Cleanup ["tmp"]])%list
       /\ ~ In (Cleanup ["tmp"]) mid
       /\ forall p' d', ~ In (Unpack p' d') mid.
Proof.
  apply (main_cleans_up world_two_tops ["."; "flit.ini"] None).
  vm_compute. right. left. reflexivity.
Defined.

Lemma main_wheel_from_sdist_witness :
  main world_ok ["."; "flit.ini"] None
  = ([SdistBuild ["."; "flit.ini"];
      Unpack ["dist"; "pkg-1.0.tar.gz"] ["tmp"];
      Log DEBUG [APath ["tmp"; "pkg-1.0"]];
      MakeWheelIn ["tmp"; "pkg-1.0"; "flit.ini"] ["."; "dist"];
      Cleanup ["tmp"]],
     Ok {| wheel := Some tt;
           sdist := Some {| builder := tt;
                            file := ["dist"; "pkg-1.0.tar.gz"] |} |}).
Proof.
  apply (main_wheel_from_sdist world_ok ["."; "flit.ini"] None tt
           ["dist"; "pkg-1.0.tar.gz"] "pkg-1.0");
    first [exact accepted_None | exact sdist_in_default
          | exact wheel_in_default | reflexivity].
Defined.

Lemma main_sdist_failure_witness :
  main world_sdist_fails ["."; "flit.ini"] None
  = ([SdistBuild ["."; "flit.ini"]], Err (Raise (OtherError "VCSError") [])).
Proof.
  apply main_sdist_failure.
  - exact accepted_None.
  - exact sdist_in_default.
  - right. exists tt. split; reflexivity.
Defined.

Lemma main_archive_assertion_witness :
  main world_two_tops ["."; "flit.ini"] None
  = ([SdistBuild ["."; "flit.ini"];
      Unpack ["dist"; "pkg-1.0.tar.gz"] ["tmp"]; Cleanup ["tmp"]],
     Err (Raise AssertionError [ANames ["pkg-1.0"; "stray"]])).
Proof.
  apply (main_archive_assertion world_two_tops ["."; "flit.ini"] None tt
           ["dist"; "pkg-1.0.tar.gz"] ["pkg-1.0"; "stray"]);
    first [exact accepted_None | exact sdist_in_default
          | exact wheel_in_default | reflexivity | (cbn; lia)].
Defined.

Lemma main_wheel_only_witness :
  main world_ok ["."; "flit.ini"] (Some {[ "wheel" ]})
  = ([WheelMain ["."; "flit.ini"]], Ok {| wheel := Some tt; sdist := None |}).
Proof.
  apply (main_wheel_only world_ok ["."; "flit.ini"] (Some {[ "wheel" ]})).
  - apply (bool_decide_eq_true_1 _). vm_compute. reflexivity.
  - apply (bool_decide_eq_false_1 _). vm_compute. reflexivity.
Defined.

End BuildMoreExamples.

(** ** Dictionaries and the metadata object *)

Section DictOps.
Import Py Str Common Assemble Notions Examples.
Local Open Scope string_scope.

Context {V : Type}.
Implicit Types (d : dict V) (k : string) (v : V).

Lemma lookup_remove_ne d k k' :
  k <> k' -> dict_lookup (dict_remove d k) k' = dict_lookup d k'.
Proof.
  intros Hne. induction d as [|[k0 v0] d IH]; [reflexivity|].
  cbn [dict_remove dict_lookup].
  destruct (String.eqb_spec k0 k) as [->|H0].
  - destruct (String.eqb_spec k k'); [contradiction|reflexivity].
  - cbn [dict_lookup]. now rewrite IH.
Qed.

Lemma lookup_none_not_in d k : dict_lookup d k = None -> ~ In k (keys d).
Proof.
  intros Hn Hin. apply in_keys_lookup in Hin as [v Hv]. congruence.
Qed.

Lemma not_in_lookup_none d k : ~ In k (keys d) -> dict_lookup d k = None.
Proof.
  intros Hn. destruct (dict_lookup d k) eqn:E; [|reflexivity].
  exfalso. apply Hn. eapply lookup_some_keys, E.
Qed.

Lemma keys_remove_incl d k k' :
  In k' (keys (dict_remove d k)) -> In k' (keys d).
Proof.
  induction d as [|[k0 v0] d IH]; [tauto|].
  cbn [dict_remove]. destruct (String.eqb k0 k); cbn; tauto.
Qed.

Lemma remove_wf d k : dict_wf d -> dict_wf (dict_remove d k).
Proof.
  unfold dict_wf. induction d as [|[k0 v0] d IH]; [auto|].
  cbn [keys List.map fst dict_remove]. intros [Hn Hd]%NoDup_cons.
  destruct (String.eqb k0 k); [exact Hd|].
  cbn [List.map fst]. apply NoDup_cons. split; [|now apply IH].
  rewrite list_elem_of_In in *. intros H. apply Hn.
  now apply keys_remove_incl in H.
Qed.

Lemma lookup_remove_eq d k : dict_wf d -> dict_lookup (dict_remove d k) k = None.
Proof.
  unfold dict_wf. induction d as [|[k0 v0] d IH]; [reflexivity|].
  cbn [keys List.map fst dict_remove]. intros [Hn Hd]%NoDup_cons.
  destruct (String.eqb_spec k0 k) as [->|Hne].
  - apply not_in_lookup_none. now rewrite list_elem_of_In in Hn.
  - cbn [dict_lookup]. destruct (String.eqb_spec k0 k); [contradiction|auto].
Qed.

Lemma lookup_set d k v k' :
  dict_lookup (dict_set d k v) k'
  = if String.eqb k k' then Some v else dict_lookup d k'.
Proof.
  induction d as [|[k0 v0] d IH]; cbn [dict_set dict_lookup].
  - reflexivity.
  - destruct (String.eqb_spec k0 k) as [->|Hne]; cbn [dict_lookup].
    + destruct (String.eqb k k'); reflexivity.
    + destruct (String.eqb_spec k0 k') as [->|Hne'].
      * destruct (String.eqb_spec k k'); [congruence|reflexivity].
      * exact IH.
Qed.

Lemma in_names_iff k (l : list string) : in_names k l = true <-> In k l.
Proof.
  unfold in_names. rewrite existsb_exists. split.
  - intros (x & Hx & ->%String.eqb_eq). exact Hx.
  - intros H. exists k. split; [exact H|apply String.eqb_refl].
Qed.

Lemma keys_set d k v :
  keys (dict_set d k v)
  = if in_names k (keys d) then keys d else (keys d ++ [k])%list.
Proof.
  induction d as [|[k0 v0] d IH]; cbn [dict_set keys List.map fst].
  - reflexivity.
  - destruct (String.eqb_spec k0 k) as [->|Hne].
    + unfold in_names. cbn [existsb]. now rewrite String.eqb_refl.
    + cbn [List.map fst]. fold (keys (dict_set d k v)). rewrite IH.
      fold (keys d). unfold in_names at 2. cbn [existsb].
      destruct (String.eqb_spec k k0) as [->|_]; [contradiction|].
      cbn [orb]. fold (in_names k (keys d)).
      destruct (in_names k (keys d)); reflexivity.
Qed.

Lemma set_wf d k v : dict_wf d -> dict_wf (dict_set d k v).
Proof.
  unfold dict_wf. rewrite keys_set. intros Hd.
  destruct (in_names k (keys d)) eqn:E; [exact Hd|].
  assert (Hn : ~ In k (keys d)) by (rewrite <- in_names_iff; congruence).
  apply NoDup_app. split; [exact Hd|]. split.
  - intros x Hx [->|[]]%list_elem_of_In. now apply list_elem_of_In in Hx.
  - apply NoDup_singleton.
Qed.

Lemma update_wf d other : dict_wf d -> dict_wf (dict_update d other).
Proof.
  unfold dict_update. revert d.
  induction other as [|[k v] other IH]; intros d Hd; [exact Hd|].
  cbn [fold_left fst snd]. apply IH. now apply set_wf.
Qed.

Lemma lookup_update d other k :
  dict_wf other ->
  dict_lookup (dict_update d other) k
  = match dict_lookup other k with
    | Some v => Some v
    | None => dict_lookup d k
    end.
Proof.
  unfold dict_update, dict_wf. revert d.
  induction other as [|[k0 v0] other IH]; intros d Hwf; [reflexivity|].
  cbn [keys List.map fst] in Hwf. apply NoDup_cons in Hwf as [Hn Hwf].
  cbn [fold_left fst snd dict_lookup]. rewrite IH by exact Hwf.
  rewrite lookup_set.
  destruct (String.eqb_spec k0 k) as [->|Hne]; [|reflexivity].
  rewrite not_in_lookup_none; [reflexivity|].
  now rewrite list_elem_of_In in Hn.
Qed.

Lemma keys_update_incl d other k :
  In k (keys (dict_update d other)) -> In k (keys d) \/ In k (keys other).
Proof.
  unfold dict_update. revert d.
  induction other as [|[k0 v0] other IH]; intros d; [tauto|].
  cbn [fold_left fst snd]. intros H%IH.
  change (keys ((k0, v0) :: other)) with (k0 :: keys other).
  destruct H as [H|H]; [|right; now right].
  rewrite keys_set in H. destruct (in_names k0 (keys d)); [now left|].
  apply in_app_or in H as [H|[<-|[]]]; [now left|right; now left].
Qed.

End DictOps.

Section InitFacts.
Import Py Str Common Assemble Notions Examples.
Local Open Scope string_scope.

Variable O : object_model.

Lemma init_run data n v a s :
  dict_lookup data "name" = Some n ->
  dict_lookup data "version" = Some v ->
  dict_lookup data "author_email" = Some a ->
  dict_lookup data "summary" = Some s ->
  init O data
  = set_all O (<["summary" := s]> (<["author_email" := a]>
                 (<["version" := v]> (<["name" := n]> ∅))))
      (rest_of data).
Proof.
  intros Hn Hv Ha Hs. unfold init, dict_pop.
  rewrite Hn. cbn [and_then].
  rewrite lookup_remove_ne, Hv by discriminate. cbn [and_then].
  rewrite !lookup_remove_ne, Ha by discriminate. cbn [and_then].
  rewrite !lookup_remove_ne, Hs by discriminate. reflexivity.
Qed.

Lemma rest_of_wf data : dict_wf data -> dict_wf (rest_of data).
Proof. intros H. unfold rest_of. now repeat apply remove_wf. Qed.

Lemma rest_of_keys data k : In k (keys (rest_of data)) -> In k (keys data).
Proof. unfold rest_of. intros H. now repeat apply keys_remove_incl in H. Qed.

Lemma lookup_rest_of data k :
  dict_wf data ->
  dict_lookup (rest_of data) k
  = if in_names k mandatory_keys then None else dict_lookup data k.
Proof.
  intros Hwf. unfold rest_of, in_names, mandatory_keys. cbn [existsb].
  destruct (String.eqb_spec k "name") as [->|H1].
  { rewrite !lookup_remove_ne by discriminate. now apply lookup_remove_eq. }
  destruct (String.eqb_spec k "version") as [->|H2].
  { rewrite !lookup_remove_ne by discriminate.
    apply lookup_remove_eq. now apply remove_wf. }
  destruct (String.eqb_spec k "author_email") as [->|H3].
  { rewrite !lookup_remove_ne by discriminate.
    apply lookup_remove_eq. now repeat apply remove_wf. }
  destruct (String.eqb_spec k "summary") as [->|H4].
  { apply lookup_remove_eq. now repeat apply remove_wf. }
  cbn [orb]. now rewrite !lookup_remove_ne by congruence.
Qed.

(** X16: when one of [name], [version], [author_email], [summary] is
    missing from the data, [Metadata.__init__] raises [KeyError] naming
    one of them that is missing. *)
Theorem init_missing_key (data : dict pyobj) (k : string) :
  In k mandatory_keys -> dict_lookup data k = None ->
  exists k',
    init O data = Err (Raise KeyError [AStr k'])
    /\ In k' mandatory_keys /\ dict_lookup data k' = None.
Proof.
  intros Hk Hnone. unfold init, dict_pop.
  destruct (dict_lookup data "name") as [n|] eqn:Hn.
  2:{ exists "name". split; [reflexivity|]. split; [cbn; tauto|assumption]. }
  cbn [and_then]. rewrite lookup_remove_ne by discriminate.
  destruct (dict_lookup data "version") as [v|] eqn:Hv.
  2:{ exists "version". split; [reflexivity|]. split; [cbn; tauto|assumption]. }
  cbn [and_then]. rewrite !lookup_remove_ne by discriminate.
  destruct (dict_lookup data "author_email") as [a|] eqn:Ha.
  2:{ exists "author_email". split; [reflexivity|]. split; [cbn; tauto|assumption]. }
  cbn [and_then]. rewrite !lookup_remove_ne by discriminate.
  destruct (dict_lookup data "summary") as [s|] eqn:Hs.
  2:{ exists "summary". split; [reflexivity|]. split; [cbn; tauto|assumption]. }
  exfalso. destruct Hk as [<-|[<-|[<-|[<-|[]]]]]; congruence.
Qed.

(** The loop on items of which one is a name that nothing answers to:
    it stops at such a name, or at an earlier assignment that raises. *)
Lemma set_all_stops self items :
  (exists k, In k (keys items) /\ known_attr k = false
             /\ object_hasattr O k = false /\ self !! k = None) ->
  (exists k',
     set_all O self items = Err (Raise AssertionError [AStr k'])
     /\ In k' (keys items) /\ known_attr k' = false
     /\ object_hasattr O k' = false)
  \/ (exists k' v e,
        set_all O self items = Err e
        /\ In (k', v) items /\ object_hasattr O k' = true
        /\ object_setattr O k' v = Some e).
Proof.
  revert self.
  induction items as [|[k0 v0] items IH]; intros self (k & Hin & Hk & Hobj & Hself).
  { destruct Hin. }
  cbn [set_all]. destruct (hasattr O self k0) eqn:Hh.
  - assert (Hne : k <> k0).
    { intros ->. unfold hasattr in Hh. rewrite Hself in Hh.
      unfold known_attr in Hk.
      destruct (dict_lookup class_attributes k0); [discriminate|].
      rewrite Hk, Hobj in Hh. discriminate. }
    assert (Hrest : exists k, In k (keys items) /\ known_attr k = false
                      /\ object_hasattr O k = false
                      /\ (<[k0 := v0]> self) !! k = None).
    { exists k. destruct Hin as [Heq|Hin]; [cbn in Heq; congruence|].
      split; [exact Hin|]. split; [exact Hk|]. split; [exact Hobj|].
      rewrite lookup_insert_ne by congruence. exact Hself. }
    unfold setattr. destruct (object_hasattr O k0) eqn:Ho0.
    + destruct (object_setattr O k0 v0) as [e|] eqn:Hset.
      * right. exists k0, v0, e. cbn [and_then].
        split; [reflexivity|]. split; [now left|]. split; assumption.
      * cbn [and_then].
        destruct (IH _ Hrest) as [(k' & He & Hin' & Hk' & Ho')
                                 |(k' & v & e & He & Hin' & Ho' & Hs')].
        -- left. exists k'. split; [exact He|]. split; [now right|]. now split.
        -- right. exists k', v, e. split; [exact He|]. split; [now right|].
           now split.
    + cbn [and_then].
      destruct (IH _ Hrest) as [(k' & He & Hin' & Hk' & Ho')
                               |(k' & v & e & He & Hin' & Ho' & Hs')].
      * left. exists k'. split; [exact He|]. split; [now right|]. now split.
      * right. exists k', v, e. split; [exact He|]. split; [now right|].
        now split.
  - left. exists k0. split; [reflexivity|]. split; [now left|].
    unfold hasattr in Hh. unfold known_attr.
    destruct (self !! k0); [discriminate|].
    destruct (dict_lookup class_attributes k0); [discriminate|].
    now apply orb_false_elim in Hh as [Hh1 Hh2].
Qed.

Lemma set_all_ok self items :
  dict_wf items ->
  (forall k, In k (keys items) ->
     known_attr k = true /\ object_hasattr O k = false) ->
  exists obj,
    set_all O self items = Ok obj
    /\ forall k, obj !! k = match dict_lookup items k with
                            | Some v => Some v
                            | None => self !! k
                            end.
Proof.
  unfold dict_wf. revert self.
  induction items as [|[k0 v0] items IH]; intros self Hwf Hk.
  { exists self. auto. }
  cbn [keys List.map fst] in Hwf. apply NoDup_cons in Hwf as [Hn Hwf].
  rewrite list_elem_of_In in Hn.
  destruct (Hk k0) as [Hknown Hobj]; [now left|].
  cbn [set_all].
  assert (Hh : hasattr O self k0 = true).
  { unfold hasattr. unfold known_attr in Hknown.
    destruct (self !! k0); [reflexivity|].
    destruct (dict_lookup class_attributes k0); [reflexivity|].
    now rewrite Hknown. }
  rewrite Hh. unfold setattr. rewrite Hobj. cbn [and_then].
  destruct (IH (<[k0 := v0]> self) Hwf) as (obj & He & Hl).
  { intros x Hx. apply Hk. now right. }
  exists obj. split; [exact He|]. intros k. rewrite Hl. cbn [dict_lookup].
  destruct (String.eqb_spec k0 k) as [->|Hne].
  - rewrite not_in_lookup_none by exact Hn. apply lookup_insert_eq.
  - destruct (dict_lookup items k); [reflexivity|].
    now rewrite lookup_insert_ne.
Qed.


Lemma init_self_lookup (n v a su : pyobj) k :
  in_names k mandatory_keys = false ->
  (<["summary" := su]> (<["author_email" := a]>
     (<["version" := v]> (<["name" := n]> (∅ : gmap string pyobj))))) !! k
  = None.
Proof.
  unfold in_names, mandatory_keys. cbn [existsb].
  intros H. repeat apply orb_false_elim in H as [? H].
  rewrite !lookup_insert_ne by (intros <-; discriminate).
  apply lookup_empty.
Qed.

Lemma present_all (data : dict pyobj) :
  (forall k, In k mandatory_keys -> dict_lookup data k <> None) ->
  exists n v a su,
    dict_lookup data "name" = Some n /\ dict_lookup data "version" = Some v
    /\ dict_lookup data "author_email" = Some a
    /\ dict_lookup data "summary" = Some su.
Proof.
  intros H.
  destruct (dict_lookup data "name") as [n|] eqn:Hn;
    [|exfalso; apply (H "name"); [cbn; tauto|exact Hn]].
  destruct (dict_lookup data "version") as [v|] eqn:Hv;
    [|exfalso; apply (H "version"); [cbn; tauto|exact Hv]].
  destruct (dict_lookup data "author_email") as [a|] eqn:Ha;
    [|exfalso; apply (H "author_email"); [cbn; tauto|exact Ha]].
  destruct (dict_lookup data "summary") as [su|] eqn:Hs;
    [|exfalso; apply (H "summary"); [cbn; tauto|exact Hs]].
  eauto 10.
Qed.

Lemma rest_of_items data k v : In (k, v) (rest_of data) -> In (k, v) data.
Proof.
  assert (Hrem : forall (d : dict pyobj) key,
            In (k, v) (dict_remove d key) -> In (k, v) d).
  { induction d as [|[k0 v0] d IH]; intros key; cbn [dict_remove]; [tauto|].
    destruct (String.eqb k0 key); [now right|].
    intros [H|H]; [now left|right; now apply (IH key)]. }
  unfold rest_of. intros H. now repeat apply Hrem in H.
Qed.

(** X17: when the four mandatory keys are present and the data has a
    key that an instance does not answer to (it is neither a class
    attribute nor a method of [Metadata], nor one of the names that every
    instance has, such as [__class__] or [__weakref__]),
    [Metadata.__init__] does not return.  It raises [AssertionError]
    naming such a key of the data, unless an earlier key of the data is
    one of the names that every instance has and assigning it raised:
    then that exception is what [__init__] raises. *)
Theorem init_unknown_key (data : dict pyobj) (k : string) :
  dict_wf data ->
  (forall k, In k mandatory_keys -> dict_lookup data k <> None) ->
  In k (keys data) -> in_names k mandatory_keys = false ->
  known_attr k = false -> object_hasattr O k = false ->
  (exists k',
     init O data = Err (Raise AssertionError [AStr k'])
     /\ In k' (keys data) /\ known_attr k' = false
     /\ object_hasattr O k' = false)
  \/ (exists k' v e,
        init O data = Err e
        /\ In (k', v) data /\ object_hasattr O k' = true
        /\ object_setattr O k' v = Some e).
Proof.
  intros Hwf Hpres Hin Hnm Hk Hobj.
  destruct (present_all data Hpres) as (n & v & a & su & Hn & Hv & Ha & Hs).
  rewrite (init_run data n v a su Hn Hv Ha Hs).
  destruct (set_all_stops
              (<["summary" := su]> (<["author_email" := a]>
                 (<["version" := v]> (<["name" := n]> ∅))))
              (rest_of data))
    as [(k' & He & Hin' & Hk' & Ho')|(k' & v' & e & He & Hin' & Ho' & Hs')].
  - exists k. split; [|split; [exact Hk|split; [exact Hobj|]]].
    + apply in_keys_lookup in Hin as [x Hx].
      eapply lookup_some_keys.
      rewrite lookup_rest_of, Hnm by exact Hwf. exact Hx.
    + now apply init_self_lookup.
  - left. exists k'. split; [exact He|].
    split; [now apply rest_of_keys|]. now split.
  - right. exists k', v', e. split; [exact He|].
    split; [now apply rest_of_items|]. now split.
Qed.

Lemma init_ok (data : dict pyobj) :
  dict_wf data ->
  (forall k, In k mandatory_keys -> dict_lookup data k <> None) ->
  (forall k, In k (keys data) -> in_names k mandatory_keys = false ->
     known_attr k = true /\ object_hasattr O k = false) ->
  exists obj,
    init O data = Ok obj /\ forall k, obj !! k = dict_lookup data k.
Proof.
  intros Hwf Hpres Hkeys.
  destruct (present_all data Hpres) as (n & v & a & su & Hn & Hv & Ha & Hs).
  rewrite (init_run data n v a su Hn Hv Ha Hs).
  destruct (set_all_ok
              (<["summary" := su]> (<["author_email" := a]>
                 (<["version" := v]> (<["name" := n]> ∅))))
              (rest_of data)) as (obj & He & Hl).
  - now apply rest_of_wf.
  - intros x Hx. apply Hkeys; [now apply rest_of_keys|].
    apply in_keys_lookup in Hx as [y Hy].
    rewrite lookup_rest_of in Hy by exact Hwf.
    destruct (in_names x mandatory_keys); [discriminate|reflexivity].
  - exists obj. split; [exact He|]. intros k.
    rewrite Hl, lookup_rest_of by exact Hwf.
    destruct (in_names k mandatory_keys) eqn:Hm.
    + assert (Hin : In k mandatory_keys) by now apply in_names_iff.
      destruct Hin as [<-|[<-|[<-|[<-|[]]]]].
      * rewrite !lookup_insert_ne, lookup_insert_eq, Hn by discriminate.
        reflexivity.
      * rewrite !lookup_insert_ne, lookup_insert_eq, Hv by discriminate.
        reflexivity.
      * rewrite !lookup_insert_ne, lookup_insert_eq, Ha by discriminate.
        reflexivity.
      * now rewrite lookup_insert_eq, Hs.
    + destruct (dict_lookup data k); [reflexivity|].
      now rewrite init_self_lookup.
Qed.

(** X18: when the four mandatory keys are present and every other key is
    an attribute that the class declares, [Metadata.__init__] succeeds;
    the instance's own attributes are exactly the keys of the data with
    the values of the data, and every other class attribute keeps its
    default. *)
Theorem init_attributes (data : dict pyobj) :
  dict_wf data ->
  (forall k, In k mandatory_keys -> dict_lookup data k <> None) ->
  (forall k, In k (keys data) -> in_names k mandatory_keys = false ->
     known_attr k = true /\ object_hasattr O k = false) ->
  exists obj,
    init O data = Ok obj
    /\ (forall k, obj !! k = dict_lookup data k)
    /\ forall k,
         data_attr obj k = match dict_lookup data k with
                           | Some v => Some v
                           | None => dict_lookup class_attributes k
                           end.
Proof.
  intros Hwf Hpres Hkeys.
  destruct (init_ok data Hwf Hpres Hkeys) as (obj & He & Hown).
  exists obj. split; [exact He|]. split; [exact Hown|].
  intros k. unfold data_attr. rewrite Hown.
  destruct (dict_lookup data k); reflexivity.
Qed.

End InitFacts.

Section MakeMetadataFacts.
Import Py Str Common Assemble Notions Examples.
Local Open Scope string_scope.

Variable O : object_model.

Lemma lookup_update_none {V} (d other : dict V) k :
  dict_lookup other k = None ->
  dict_lookup (dict_update d other) k = dict_lookup d k.
Proof.
  unfold dict_update. revert d.
  induction other as [|[k0 v0] other IH]; intros d; [reflexivity|].
  cbn [dict_lookup fold_left fst snd].
  destruct (String.eqb_spec k0 k) as [->|Hne]; [discriminate|].
  intros H. rewrite IH by exact H. rewrite lookup_set.
  destruct (String.eqb_spec k0 k); [contradiction|reflexivity].
Qed.

Lemma lookup_update_some {V} (d other : dict V) k :
  dict_lookup d k <> None -> dict_lookup (dict_update d other) k <> None.
Proof.
  unfold dict_update. revert d.
  induction other as [|[k0 v0] other IH]; intros d; [auto|].
  cbn [fold_left fst snd]. intros H. apply IH. rewrite lookup_set.
  destruct (String.eqb k0 k); [discriminate|exact H].
Qed.

Lemma make_metadata_outcome E module ini i :
  outcome (get_info_from_module E module) = Ok i ->
  outcome (make_metadata O E module ini)
  = init O (dict_update (dict_update (base_items module) (info_items i))
              (ini_metadata ini)).
Proof.
  intros Hi. unfold make_metadata. rewrite outcome_bind, Hi. reflexivity.
Qed.

(** X19: [make_metadata] takes [author_email] from the ini file only:
    when the module's docstring and version are fine and the ini metadata
    has no [author_email], it raises [KeyError] for it. *)
Theorem make_metadata_needs_author_email E module ini i :
  outcome (get_info_from_module E module) = Ok i ->
  dict_lookup (ini_metadata ini) "author_email" = None ->
  outcome (make_metadata O E module ini)
  = Err (Raise KeyError [AStr "author_email"]).
Proof.
  intros Hi Hnone. rewrite (make_metadata_outcome E module ini i Hi).
  set (md := dict_update _ (ini_metadata ini)).
  assert (Hn : dict_lookup md "name" <> None).
  { subst md. do 2 apply lookup_update_some. discriminate. }
  assert (Hv : dict_lookup md "version" <> None).
  { subst md. apply lookup_update_some. discriminate. }
  assert (Ha : dict_lookup md "author_email" = None).
  { subst md. rewrite lookup_update_none by exact Hnone. reflexivity. }
  unfold init, dict_pop.
  destruct (dict_lookup md "name"); [|contradiction]. cbn [and_then].
  rewrite lookup_remove_ne by discriminate.
  destruct (dict_lookup md "version"); [|contradiction]. cbn [and_then].
  rewrite !lookup_remove_ne, Ha by discriminate. reflexivity.
Qed.

(** X20: in the object that [make_metadata] builds, a value of the ini
    metadata takes precedence over the summary and version read from the
    module, these over the name and [provides] taken from the module name,
    and these over the defaults of the class. *)
Theorem make_metadata_precedence E module ini i :
  outcome (get_info_from_module E module) = Ok i ->
  dict_wf (ini_metadata ini) ->
  dict_lookup (ini_metadata ini) "author_email" <> None ->
  (forall k, In k (keys (ini_metadata ini)) ->
     in_names k mandatory_keys = false ->
     known_attr k = true /\ object_hasattr O k = false) ->
  object_hasattr O "provides" = false ->
  exists obj,
    outcome (make_metadata O E module ini) = Ok obj
    /\ forall k,
         data_attr obj k
         = match dict_lookup (ini_metadata ini) k with
           | Some v => Some v
           | None =>
               match dict_lookup (info_items i) k with
               | Some v => Some v
               | None =>
                   match dict_lookup (base_items module) k with
                   | Some v => Some v
                   | None => dict_lookup class_attributes k
                   end
               end
           end.
Proof.
  intros Hi Hwf Hae Hkeys Hprov.
  rewrite (make_metadata_outcome E module ini i Hi).
  set (md := dict_update _ (ini_metadata ini)).
  assert (Hinfo_wf : dict_wf (info_items i)).
  { apply (bool_decide_eq_true_1 _). vm_compute. reflexivity. }
  assert (Hlook : forall k,
    dict_lookup md k
    = match dict_lookup (ini_metadata ini) k with
      | Some v => Some v
      | None => match dict_lookup (info_items i) k with
                | Some v => Some v
                | None => dict_lookup (base_items module) k
                end
      end).
  { intros k. subst md. rewrite lookup_update by exact Hwf.
    now rewrite lookup_update by exact Hinfo_wf. }
  destruct (init_ok O md) as (obj & He & Hown).
  - subst md. do 2 apply update_wf.
    apply (bool_decide_eq_true_1 _). vm_compute. reflexivity.
  - intros k [<-|[<-|[<-|[<-|[]]]]]; rewrite Hlook.
    + destruct (dict_lookup (ini_metadata ini) "name"); discriminate.
    + destruct (dict_lookup (ini_metadata ini) "version"); discriminate.
    + destruct (dict_lookup (ini_metadata ini) "author_email");
        [discriminate|contradiction].
    + destruct (dict_lookup (ini_metadata ini) "summary"); discriminate.
  - intros k Hin Hm. subst md.
    apply keys_update_incl in Hin as [Hin|Hin]; [|now apply Hkeys].
    apply keys_update_incl in Hin as [Hin|Hin].
    + destruct Hin as [<-|[<-|[]]]; [discriminate Hm|].
      split; [reflexivity|exact Hprov].
    + destruct Hin as [<-|[<-|[]]]; discriminate Hm.
  - exists obj. split; [exact He|]. intros k.
    unfold data_attr. rewrite Hown, Hlook.
    destruct (dict_lookup (ini_metadata ini) k); [reflexivity|].
    destruct (dict_lookup (info_items i) k); [reflexivity|].
    destruct (dict_lookup (base_items module) k); reflexivity.
Qed.

(** X21: [metadata_and_module_from_ini_path] resolves the module beside
    the ini file before it reads any source: when both or neither of the
    package directory and the [.py] file exist there, it raises
    [ValueError] with no event; otherwise the first file it parses is the
    package's [__init__.py], respectively the [.py] file. *)
Theorem from_ini_path_module_first (E : env) (fs : filesystem)
    (read_pkg_ini : Path -> result ini_info) (ini_path : Path)
    (ini : ini_info) :
  read_pkg_ini ini_path = Ok ini ->
  let pkg_dir := path_div (path_parent ini_path) (ini_module ini) in
  let py_file := path_div (path_parent ini_path) (ini_module ini ++ ".py") in
  let run := metadata_and_module_from_ini_path O E fs read_pkg_ini ini_path in
  (is_dir fs pkg_dir = is_file fs py_file ->
     trace run = [] /\ raises (outcome run) ValueError)
  /\ (is_dir fs pkg_dir = true -> is_file fs py_file = false ->
      exists rest,
        trace run
        = Log DEBUG [APath (path_div pkg_dir "__init__.py")]
          :: ParseSource (path_div pkg_dir "__init__.py") :: rest)
  /\ (is_dir fs pkg_dir = false -> is_file fs py_file = true ->
      exists rest,
        trace run = Log DEBUG [APath py_file] :: ParseSource py_file :: rest).
Proof.
  intros Hread pkg_dir py_file run.
  assert (Hrun : run = bind (lift (ModuleCls.init fs (ini_module ini)
                                     (path_parent ini_path)))
                   (fun module =>
                      bind (make_metadata O E module ini)
                        (fun metadata => ret (metadata, module)))).
  { subst run. unfold metadata_and_module_from_ini_path.
    now rewrite Hread, bind_lift_ok. }
  assert (Htrace : forall module,
            exists rest,
              trace (bind (make_metadata O E module ini)
                       (fun metadata => ret (metadata, module)))
              = Log DEBUG [APath (ModuleCls.file module)]
                :: ParseSource (ModuleCls.file module) :: rest).
  { intros module. rewrite trace_bind. unfold make_metadata.
    rewrite trace_bind.
    destruct (get_info_trace E module) as (rest & -> & _).
    rewrite extract_trace. cbn [app]. eauto. }
  rewrite Hrun. unfold ModuleCls.init. fold pkg_dir. fold py_file.
  split; [|split].
  - intros Heq. rewrite Heq.
    destruct (is_file fs py_file); cbn; split; try reflexivity; eexists; reflexivity.
  - intros -> ->. cbn [andb]. rewrite bind_lift_ok. apply Htrace.
  - intros -> ->. cbn [andb]. rewrite bind_lift_ok. apply Htrace.
Qed.

End MakeMetadataFacts.

Section AssembleExamples.
Import Py Str Common Assemble Notions Examples.
Local Open Scope string_scope.

Ltac each_key :=
  let k := fresh "k" in
  let H := fresh "H" in
  intros k H; cbn in H;
  repeat (destruct H as [<-|H]; [try discriminate; try (split; reflexivity); try reflexivity|]);
  try destruct H.

Lemma init_missing_key_witness :
  exists k',
    init plain_object [("name", PyStr "flit"); ("summary", PyStr "A tool")]
    = Err (Raise KeyError [AStr k'])
    /\ In k' mandatory_keys
    /\ dict_lookup [("name", PyStr "flit"); ("summary", PyStr "A tool")] k'
       = None.
Proof.
  apply (init_missing_key plain_object _ "author_email").
  - cbn. tauto.
  - reflexivity.
Defined.

Lemma init_unknown_key_witness :
  ((exists k',
      init plain_object data_unknown = Err (Raise AssertionError [AStr k'])
      /\ In k' (keys data_unknown) /\ known_attr k' = false
      /\ object_hasattr plain_object k' = false)
   \/ (exists k' v e,
         init plain_object data_unknown = Err e
         /\ In (k', v) data_unknown /\ object_hasattr plain_object k' = true
         /\ object_setattr plain_object k' v = Some e))
  /\ ((exists k',
         init plain_object data_class_first
         = Err (Raise AssertionError [AStr k'])
         /\ In k' (keys data_class_first) /\ known_attr k' = false
         /\ object_hasattr plain_object k' = false)
      \/ (exists k' v e,
            init plain_object data_class_first = Err e
            /\ In (k', v) data_class_first
            /\ object_hasattr plain_object k' = true
            /\ object_setattr plain_object k' v = Some e)).
Proof.
  split.
  - apply (init_unknown_key plain_object data_unknown "homepage").
    + apply (bool_decide_eq_true_1 _). vm_compute. reflexivity.
    + intros k Hk.
      repeat (destruct Hk as [<-|Hk]; [discriminate|]). destruct Hk.
    + cbn. tauto.
    + reflexivity.
    + reflexivity.
    + reflexivity.
  - apply (init_unknown_key plain_object data_class_first "homepage").
    + apply (bool_decide_eq_true_1 _). vm_compute. reflexivity.
    + intros k Hk.
      repeat (destruct Hk as [<-|Hk]; [discriminate|]). destruct Hk.
    + cbn. tauto.
    + reflexivity.
    + reflexivity.
    + reflexivity.
Defined.

(** The two ways of the loop to stop, on the examples. *)
Example init_data_unknown :
  init plain_object data_unknown = Err (Raise AssertionError [AStr "homepage"]).
Proof. reflexivity. Qed.

Example init_data_class_first :
  init plain_object data_class_first = Err (Raise (OtherError "TypeError") []).
Proof. reflexivity. Qed.

Lemma init_attributes_witness :
  exists obj,
    init plain_object data_minimal = Ok obj
    /\ (forall k, obj !! k = dict_lookup data_minimal k)
    /\ forall k,
         data_attr obj k = match dict_lookup data_minimal k with
                           | Some v => Some v
                           | None => dict_lookup class_attributes k
                           end.
Proof.
  apply (init_attributes plain_object data_minimal).
  - apply (bool_decide_eq_true_1 _). vm_compute. reflexivity.
  - each_key.
  - intros k H Hm. cbn in H.
    repeat (destruct H as [<-|H]; [try discriminate Hm; try (split; reflexivity)|]).
    destruct H.
Defined.

Lemma make_metadata_needs_author_email_witness :
  outcome (make_metadata plain_object env_good mod_py ini_no_email)
  = Err (Raise KeyError [AStr "author_email"]).
Proof.
  apply (make_metadata_needs_author_email plain_object env_good mod_py
           ini_no_email {| summary := "Tool."; version := PyStr "1.0-beta" |}).
  - vm_compute. reflexivity.
  - reflexivity.
Defined.

Lemma make_metadata_precedence_witness :
  exists obj,
    outcome (make_metadata plain_object env_good mod_py ini_example) = Ok obj
    /\ data_attr obj "version" = Some (PyStr "2.0")
    /\ data_attr obj "summary" = Some (PyStr "Tool.")
    /\ data_attr obj "name" = Some (PyStr "mod")
    /\ data_attr obj "license" = Some PyNone.
Proof.
  destruct (make_metadata_precedence plain_object env_good mod_py ini_example
              {| summary := "Tool."; version := PyStr "1.0-beta" |})
    as (obj & Ho & Hattr).
  - vm_compute. reflexivity.
  - apply (bool_decide_eq_true_1 _). vm_compute. reflexivity.
  - discriminate.
  - intros k H Hm. cbn in H.
    repeat (destruct H as [<-|H]; [try discriminate Hm; try (split; reflexivity)|]).
    destruct H.
  - reflexivity.
  - exists obj. split; [exact Ho|]. rewrite !Hattr. repeat split.
Defined.

Lemma from_ini_path_module_first_witness :
  exists rest,
    trace (metadata_and_module_from_ini_path plain_object env_good fs_example
             (fun _ => Ok ini_example) ["."; "flit.ini"])
    = Log DEBUG [APath ["."; "mod.py"]] :: ParseSource ["."; "mod.py"] :: rest.
Proof.
  destruct (from_ini_path_module_first plain_object env_good fs_example
              (fun _ => Ok ini_example) ["."; "flit.ini"] ini_example eq_refl)
    as (_ & _ & H).
  apply H; reflexivity.
Defined.

End AssembleExamples.

(** ** An exception in the static pass *)

Section StaticFailure.
Import Py Str Common Assemble Notions Examples.
Local Open Scope string_scope.

(** X22: an exception in the static pass is not caught: it ends
    [get_info_from_module] right after the parse, and the module is not
    imported as a fallback. *)
Theorem get_info_static_exception (E : env) (t : ModuleCls.t) (e : exn) :
  outcome (get_docstring_and_version_via_ast E t) = Err e ->
  get_info_from_module E t
  = ([Log DEBUG [APath (ModuleCls.file t)]; ParseSource (ModuleCls.file t)],
     Err e).
Proof.
  intros He. rewrite (M_eta (get_info_from_module E t)). f_equal.
  - unfold get_info_from_module. rewrite bind_emit. cbn [trace fst]. f_equal.
    rewrite trace_bind, extract_trace, He.
    unfold extract. rewrite outcome_bind, He. reflexivity.
  - apply get_info_extract_err. unfold extract. now rewrite outcome_bind, He.
Qed.

Lemma get_info_static_exception_witness :
  get_info_from_module env_attr_target mod_py
  = ([Log DEBUG [APath ["."; "mod.py"]]; ParseSource ["."; "mod.py"]],
     Err (Raise AttributeError [AStr "id"])).
Proof.
  apply (get_info_static_exception env_attr_target mod_py).
  vm_compute. reflexivity.
Defined.

End StaticFailure.

(** ** Field names and attribute names *)

Section NormaliseName.
Import Py Str Common Assemble Notions Examples.
Local Open Scope string_scope.

Lemma map_chars_map_chars f g s :
  map_chars f (map_chars g s) = map_chars (fun c => f (g c)) s.
Proof. induction s as [|c s IH]; [reflexivity|]. cbn. now rewrite IH. Qed.

Lemma map_chars_ext f g s :
  (forall c, f c = g c) -> map_chars f s = map_chars g s.
Proof. intros H. induction s as [|c s IH]; [reflexivity|]. cbn. now rewrite H, IH. Qed.

Lemma normalise_name_chars n :
  Metadata._normalise_name n = map_chars normalise_char n.
Proof.
  unfold Metadata._normalise_name, replace, lower.
  now rewrite map_chars_map_chars.
Qed.

Lemma normalise_char_idem c : normalise_char (normalise_char c) = normalise_char c.
Proof. destruct c as [[] [] [] [] [] [] [] []]; vm_compute; reflexivity. Qed.

Lemma normalise_char_not_hyphen c : Ascii.eqb (normalise_char c) "-" = false.
Proof. destruct c as [[] [] [] [] [] [] [] []]; vm_compute; reflexivity. Qed.

Lemma normalise_char_not_upper c : between 65 90 (normalise_char c) = false.
Proof. destruct c as [[] [] [] [] [] [] [] []]; vm_compute; reflexivity. Qed.

(** X23: [_normalise_name] is idempotent, and its result has no hyphen
    and no capital letter A to Z. *)
Theorem normalise_name_idempotent (n : string) :
  Metadata._normalise_name (Metadata._normalise_name n)
  = Metadata._normalise_name n
  /\ contains "-" (Metadata._normalise_name n) = false
  /\ all_chars (fun c => negb (between 65 90 c)) (Metadata._normalise_name n)
     = true.
Proof.
  rewrite !normalise_name_chars. split; [|split].
  - rewrite map_chars_map_chars. apply map_chars_ext, normalise_char_idem.
  - induction n as [|c n IH]; [reflexivity|].
    cbn [map_chars contains]. now rewrite normalise_char_not_hyphen, IH.
  - induction n as [|c n IH]; [reflexivity|].
    cbn [map_chars all_chars]. now rewrite normalise_char_not_upper, IH.
Qed.

End NormaliseName.
